(** * simple485-remastered-micro: link-layer engine

    A shallow embedding of [src/simple485_remastered_micro.py] (the
    [Simple485Remastered] bus engine: frame encoder, byte-at-a-time receiver
    state machine, half-duplex transmit scheduler) together with the
    properties of the engine stated in the specification.

    Python integers are unbounded, so they are embedded as [Z]; [~], [&], [|],
    [^], [<<] and [>>] are [Z.lnot], [Z.land], [Z.lor], [Z.lxor], [Z.shiftl]
    and [Z.shiftr].  A [bytes] object is a [list Z] whose elements lie in
    0..255; [bytes([x])] raises [ValueError] outside that range.  Methods are
    computations in a state-and-exception monad over the pair of the engine
    object and the platform (clock, serial channel, direction pin). *)

From Stdlib Require Import ZArith List Bool Lia.
Import ListNotations.
Open Scope Z_scope.

(** ** Protocol definitions *)

Definition MAX_MESSAGE_LEN : Z := 255.
Definition LINE_READY_TIME_MS : Z := 10.
Definition BITS_PER_BYTE : Z := 10.
Definition PACKET_TIMEOUT_MS : Z := 500.
Definition FIRST_NODE_ADDRESS : Z := 0.
Definition MASTER_ADDRESS : Z := FIRST_NODE_ADDRESS.
Definition BROADCAST_ADDRESS : Z := 255.
Definition LAST_NODE_ADDRESS : Z := BROADCAST_ADDRESS - 1.
Definition DEFAULT_TRANSCEIVER_TOGGLE_TIME_MS : Z := 20.

(** The one-byte control sequences, as the value of their only byte. *)
Module ControlSequence.
Definition SOH : Z := 1.
Definition STX : Z := 2.
Definition ETX : Z := 3.
Definition EOT : Z := 4.
Definition LF : Z := 10.
Definition NULL : Z := 0.
End ControlSequence.

Inductive ReceiverState : Type :=
| IDLE
| SOH_RECEIVED
| DEST_ADDRESS_RECEIVED
| SRC_ADDRESS_RECEIVED
| TRANSACTION_ID_RECEIVED
| MESSAGE_LEN_RECEIVED
| STX_RECEIVED
| ETX_RECEIVED
| CRC_OK.

Definition ReceiverState_eqb (a b : ReceiverState) : bool :=
  match a, b with
  | IDLE, IDLE | SOH_RECEIVED, SOH_RECEIVED
  | DEST_ADDRESS_RECEIVED, DEST_ADDRESS_RECEIVED
  | SRC_ADDRESS_RECEIVED, SRC_ADDRESS_RECEIVED
  | TRANSACTION_ID_RECEIVED, TRANSACTION_ID_RECEIVED
  | MESSAGE_LEN_RECEIVED, MESSAGE_LEN_RECEIVED
  | STX_RECEIVED, STX_RECEIVED | ETX_RECEIVED, ETX_RECEIVED
  | CRC_OK, CRC_OK => true
  | _, _ => false
  end.

Definition is_valid_node_address (address : Z) : bool :=
  (FIRST_NODE_ADDRESS <=? address) && (address <=? LAST_NODE_ADDRESS).

Definition is_valid_slave_address (address : Z) : bool :=
  is_valid_node_address address && negb (address =? MASTER_ADDRESS).

(** ** Model definitions *)

(** [ReceivingMessage]: the header fields start as [None]. *)
Record ReceivingMessage : Type := mkReceivingMessage {
  timestamp : Z;
  dst_address : option Z;
  src_address : option Z;
  transaction_id : option Z;
  length : option Z;
  crc : option Z;
  is_first_nibble : bool;
  incoming : Z;
  payload_buffer : list Z
}.

Definition ReceivingMessage_init (ts : Z) : ReceivingMessage :=
  mkReceivingMessage ts None None None None None true 0 [].

(** [ReceivedMessage]; the back-reference to the originating bus is the
    engine itself and is left out. *)
Record ReceivedMessage : Type := mkReceivedMessage {
  msg_src_address : option Z;
  msg_dest_address : option Z;
  msg_transaction_id : option Z;
  msg_length : option Z;
  msg_payload : list Z
}.

Definition is_broadcast (m : ReceivedMessage) : bool :=
  match msg_dest_address m with
  | Some d => d =? BROADCAST_ADDRESS
  | None => false
  end.

(** ** The engine object and the platform *)

Record Simple485Remastered : Type := mkBus {
  _interface_baudrate : Z;
  _address : Z;
  _transceiver_toggle_time_ms : Z;
  _last_bus_activity : Z;
  _receiver_state : ReceiverState;
  _receiving_message : option ReceivingMessage;
  _received_messages : list ReceivedMessage;
  _output_messages : list (list Z)
}.

Inductive Exn : Type :=
| ValueError
| TypeError
| AttributeError
| ZeroDivisionError
| OSError.

Definition Exn_eqb (a b : Exn) : bool :=
  match a, b with
  | ValueError, ValueError | TypeError, TypeError
  | AttributeError, AttributeError
  | ZeroDivisionError, ZeroDivisionError | OSError, OSError => true
  | _, _ => false
  end.

(** Safety margin of the estimated transmission time: 1.1 after a flush,
    1.2 when the interface has no flush. *)
Inductive SafetyMargin : Type := Margin_1_1 | Margin_1_2.

(** What the hardware sees, in order.  The estimated completion delay is a
    floating-point product in the source; the event keeps its three inputs. *)
Inductive Event : Type :=
| PinOn
| PinOff
| SleepMs (t : Z)
| SleepUs (t : Z)
| Write (frame : list Z)
| Flush
| SleepEstimated (nbytes baudrate : Z) (margin : SafetyMargin).

(** How the serial channel answers the next transmit attempt: [write] and
    [flush] either return or raise; [txdone] answers [False] a number of
    times and then either [True] or an exception ([AttributeError] when the
    interface has no such method). *)
Record Channel : Type := mkChannel {
  write_raises : option Exn;
  txdone_polls : nat;
  txdone_raises : option Exn;
  flush_raises : option Exn
}.

(** The platform: [clock] lists the successive answers of
    [utime.ticks_ms()], [rx_buffer] the answers of [interface.read(1)] for as
    long as [interface.any() > 0], and [utime_ticks_diff] is the platform's
    [utime.ticks_diff]. *)
Record World : Type := mkWorld {
  clock : nat -> Z;
  clock_reads : nat;
  utime_ticks_diff : Z -> Z -> Z;
  rx_buffer : list (option Z);
  channel : Channel;
  trace : list Event
}.

Record Sys : Type := mkSys {
  bus : Simple485Remastered;
  world : World
}.

(** ** The monad of methods: state with exceptions; what a method changed
    before it raised stays changed. *)

Inductive Outcome (A : Type) : Type :=
| Return (a : A)
| Raise (e : Exn).
Arguments Return {A} a.
Arguments Raise {A} e.

Definition Py (A : Type) : Type := Sys -> Outcome A * Sys.

Definition ret {A} (a : A) : Py A := fun s => (Return a, s).
Definition raise {A} (e : Exn) : Py A := fun s => (Raise e, s).
Definition bind {A B} (m : Py A) (k : A -> Py B) : Py B :=
  fun s => match m s with
           | (Return a, s') => k a s'
           | (Raise e, s') => (Raise e, s')
           end.

Notation "x <- m ;; k" := (bind m (fun x => k))
  (at level 61, m at next level, right associativity).
Notation "m ;; k" := (bind m (fun _ => k))
  (at level 61, right associativity).

(** [try: m except e: h e]. *)
Definition try_except {A} (m : Py A) (h : Exn -> Py A) : Py A :=
  fun s => match m s with
           | (Return a, s') => (Return a, s')
           | (Raise e, s') => h e s'
           end.

(** [try: m finally: f]. *)
Definition try_finally {A} (m : Py A) (f : Py unit) : Py A :=
  fun s => match m s with
           | (r, s') => match f s' with
                        | (Return _, s'') => (r, s'')
                        | (Raise e, s'') => (Raise e, s'')
                        end
           end.

Definition self : Py Simple485Remastered := fun s => (Return (bus s), s).
Definition update_self (f : Simple485Remastered -> Simple485Remastered) : Py unit :=
  fun s => (Return tt, mkSys (f (bus s)) (world s)).
Definition platform : Py World := fun s => (Return (world s), s).
Definition update_platform (f : World -> World) : Py unit :=
  fun s => (Return tt, mkSys (bus s) (f (world s))).

(** Field assignments. *)
Definition with_address (a : Z) (b : Simple485Remastered) :=
  mkBus (_interface_baudrate b) a (_transceiver_toggle_time_ms b)
        (_last_bus_activity b) (_receiver_state b) (_receiving_message b)
        (_received_messages b) (_output_messages b).
Definition with_last_bus_activity (t : Z) (b : Simple485Remastered) :=
  mkBus (_interface_baudrate b) (_address b) (_transceiver_toggle_time_ms b)
        t (_receiver_state b) (_receiving_message b)
        (_received_messages b) (_output_messages b).
Definition with_receiver_state (st : ReceiverState) (b : Simple485Remastered) :=
  mkBus (_interface_baudrate b) (_address b) (_transceiver_toggle_time_ms b)
        (_last_bus_activity b) st (_receiving_message b)
        (_received_messages b) (_output_messages b).
Definition with_receiving_message (m : option ReceivingMessage) (b : Simple485Remastered) :=
  mkBus (_interface_baudrate b) (_address b) (_transceiver_toggle_time_ms b)
        (_last_bus_activity b) (_receiver_state b) m
        (_received_messages b) (_output_messages b).
Definition with_received_messages (l : list ReceivedMessage) (b : Simple485Remastered) :=
  mkBus (_interface_baudrate b) (_address b) (_transceiver_toggle_time_ms b)
        (_last_bus_activity b) (_receiver_state b) (_receiving_message b)
        l (_output_messages b).
Definition with_output_messages (l : list (list Z)) (b : Simple485Remastered) :=
  mkBus (_interface_baudrate b) (_address b) (_transceiver_toggle_time_ms b)
        (_last_bus_activity b) (_receiver_state b) (_receiving_message b)
        (_received_messages b) l.

Definition with_dst_address (v : option Z) (m : ReceivingMessage) :=
  mkReceivingMessage (timestamp m) v (src_address m) (transaction_id m)
    (length m) (crc m) (is_first_nibble m) (incoming m) (payload_buffer m).
Definition with_src_address (v : option Z) (m : ReceivingMessage) :=
  mkReceivingMessage (timestamp m) (dst_address m) v (transaction_id m)
    (length m) (crc m) (is_first_nibble m) (incoming m) (payload_buffer m).
Definition with_transaction_id (v : option Z) (m : ReceivingMessage) :=
  mkReceivingMessage (timestamp m) (dst_address m) (src_address m) v
    (length m) (crc m) (is_first_nibble m) (incoming m) (payload_buffer m).
Definition with_length (v : option Z) (m : ReceivingMessage) :=
  mkReceivingMessage (timestamp m) (dst_address m) (src_address m)
    (transaction_id m) v (crc m) (is_first_nibble m) (incoming m)
    (payload_buffer m).
Definition with_crc (v : option Z) (m : ReceivingMessage) :=
  mkReceivingMessage (timestamp m) (dst_address m) (src_address m)
    (transaction_id m) (length m) v (is_first_nibble m) (incoming m)
    (payload_buffer m).
Definition with_is_first_nibble (v : bool) (m : ReceivingMessage) :=
  mkReceivingMessage (timestamp m) (dst_address m) (src_address m)
    (transaction_id m) (length m) (crc m) v (incoming m) (payload_buffer m).
Definition with_incoming (v : Z) (m : ReceivingMessage) :=
  mkReceivingMessage (timestamp m) (dst_address m) (src_address m)
    (transaction_id m) (length m) (crc m) (is_first_nibble m) v
    (payload_buffer m).
Definition with_payload_buffer (v : list Z) (m : ReceivingMessage) :=
  mkReceivingMessage (timestamp m) (dst_address m) (src_address m)
    (transaction_id m) (length m) (crc m) (is_first_nibble m) (incoming m) v.

(** ** Platform primitives *)

(** [get_milliseconds()]: the next answer of [utime.ticks_ms()]. *)
Definition get_milliseconds : Py Z :=
  w <- platform ;;
  update_platform (fun w =>
    mkWorld (clock w) (S (clock_reads w)) (utime_ticks_diff w)
            (rx_buffer w) (channel w) (trace w)) ;;
  ret (clock w (clock_reads w)).

Definition ticks_diff (a b : Z) : Py Z :=
  w <- platform ;; ret (utime_ticks_diff w a b).

Definition emit (e : Event) : Py unit :=
  update_platform (fun w =>
    mkWorld (clock w) (clock_reads w) (utime_ticks_diff w)
            (rx_buffer w) (channel w) (trace w ++ [e])).

Definition set_rx_buffer (l : list (option Z)) : Py unit :=
  update_platform (fun w =>
    mkWorld (clock w) (clock_reads w) (utime_ticks_diff w)
            l (channel w) (trace w)).

(** [bytes([x])]. *)
Definition bytes1 (x : Z) : Py (list Z) :=
  if (0 <=? x) && (x <? 256) then ret [x] else raise ValueError.

(** An operand that must not be [None] ([TypeError] otherwise). *)
Definition int_operand (v : option Z) : Py Z :=
  match v with
  | Some z => ret z
  | None => raise TypeError
  end.

(** [v == z] and [v != z] for a field that may be [None]. *)
Definition py_eq (v : option Z) (z : Z) : bool :=
  match v with
  | Some x => x =? z
  | None => false
  end.
Definition py_ne (v : option Z) (z : Z) : bool := negb (py_eq v z).

(** ** Core functionality *)

Import ControlSequence.

Definition get_last_bus_activity : Py Z :=
  me <- self ;; ret (_last_bus_activity me).

Definition get_address : Py Z :=
  me <- self ;; ret (_address me).

Definition set_address (address : Z) : Py unit :=
  if negb (is_valid_node_address address) then raise ValueError
  else update_self (with_address address).

Definition _enable_transmit_mode : Py unit :=
  emit PinOn ;;
  me <- self ;;
  emit (SleepMs (_transceiver_toggle_time_ms me)).

Definition _disable_transmit_mode : Py unit :=
  emit PinOff ;;
  me <- self ;;
  emit (SleepUs (_transceiver_toggle_time_ms me)).

(** The constructor: no engine is produced when it raises. *)
Definition __init__ (interface_baudrate address transceiver_toggle_time_ms : Z)
    (w : World) : Outcome Sys :=
  if negb (is_valid_node_address address) then Raise ValueError
  else if transceiver_toggle_time_ms <=? 0 then Raise ValueError
  else
    let fresh :=
      mkBus interface_baudrate address transceiver_toggle_time_ms 0
            IDLE None [] [] in
    match (_disable_transmit_mode ;;
           now <- get_milliseconds ;;
           update_self (with_last_bus_activity now)) (mkSys fresh w) with
    | (Return _, s) => Return s
    | (Raise e, _) => Raise e
    end.

Definition pending_send : Py bool :=
  me <- self ;;
  ret (Z.of_nat (List.length (_output_messages me)) >? 0).

(** The body of the [for] loop of [send_message], over the payload bytes in
    order: [crc] and [text_buffer] are the loop-carried variables. *)
Fixpoint send_message_loop (payload : list Z) (crc : Z) (text_buffer : list Z)
    : Py (Z * list Z) :=
  match payload with
  | [] => ret (crc, text_buffer)
  | p :: rest =>
      let crc := Z.lxor crc p in
      let byte := Z.land p 240 in
      let byte := Z.lor byte (Z.land (Z.lnot (Z.shiftr byte 4)) 15) in
      hi <- bytes1 byte ;;
      let text_buffer := text_buffer ++ hi in
      let byte := Z.land p 15 in
      let byte := Z.lor byte (Z.land (Z.shiftl (Z.lnot byte) 4) 240) in
      lo <- bytes1 byte ;;
      let text_buffer := text_buffer ++ lo in
      send_message_loop rest crc text_buffer
  end.

Definition send_message (dst_address : Z) (payload : list Z)
    (transaction_id : Z) : Py bool :=
  let message_len := Z.of_nat (List.length payload) in
  if message_len =? 0 then raise ValueError
  else if message_len >? MAX_MESSAGE_LEN then raise ValueError
  else
    me <- self ;;
    d <- bytes1 dst_address ;;
    a <- bytes1 (_address me) ;;
    t <- bytes1 transaction_id ;;
    l <- bytes1 message_len ;;
    let text_buffer := repeat LF 3 ++ [SOH] ++ d ++ a ++ t ++ l ++ [STX] in
    let crc := Z.lxor (Z.lxor (_address me) dst_address) message_len in
    r <- send_message_loop payload crc text_buffer ;;
    let '(crc, text_buffer) := r in
    c <- bytes1 crc ;;
    let text_buffer := text_buffer ++ [ETX] ++ c ++ [EOT] ++ repeat LF 2 in
    update_self (fun b =>
      with_output_messages (_output_messages b ++ [text_buffer]) b) ;;
    ret true.

Definition available : Py Z :=
  me <- self ;; ret (Z.of_nat (List.length (_received_messages me))).

Definition read : Py ReceivedMessage :=
  me <- self ;;
  match _received_messages me with
  | [] => raise ValueError
  | m :: rest => update_self (with_received_messages rest) ;; ret m
  end.

(** [self._receiving_message.<field>]: [AttributeError] on [None]. *)
Definition receiving : Py ReceivingMessage :=
  me <- self ;;
  match _receiving_message me with
  | Some m => ret m
  | None => raise AttributeError
  end.

(** [self._receiving_message.<field> = v]. *)
Definition update_receiving (f : ReceivingMessage -> ReceivingMessage) : Py unit :=
  m <- receiving ;;
  update_self (with_receiving_message (Some (f m))).

Definition is_valid_encoded_byte (b : Z) : bool :=
  Z.land (Z.lnot (Z.lor (Z.land (Z.shiftl b 4) 240)
                        (Z.land (Z.shiftr b 4) 15))) 255 =? b.

(** The two assignments that end a reception. *)
Definition drop_reception : Py unit :=
  update_self (with_receiver_state IDLE) ;;
  update_self (with_receiving_message None).

Definition _process_byte (byte : Z) : Py unit :=
  me <- self ;;
  match _receiver_state me with
  | IDLE =>
      if byte =? SOH then
        update_self (with_receiver_state SOH_RECEIVED) ;;
        now <- get_milliseconds ;;
        update_self (with_receiving_message (Some (ReceivingMessage_init now)))
      else ret tt
  | SOH_RECEIVED =>
      update_receiving (with_dst_address (Some byte)) ;;
      m <- receiving ;;
      me <- self ;;
      if py_ne (dst_address m) (_address me)
         && py_ne (dst_address m) BROADCAST_ADDRESS
      then drop_reception
      else update_self (with_receiver_state DEST_ADDRESS_RECEIVED)
  | DEST_ADDRESS_RECEIVED =>
      update_receiving (with_src_address (Some byte)) ;;
      update_self (with_receiver_state SRC_ADDRESS_RECEIVED)
  | SRC_ADDRESS_RECEIVED =>
      update_receiving (with_transaction_id (Some byte)) ;;
      update_self (with_receiver_state TRANSACTION_ID_RECEIVED)
  | TRANSACTION_ID_RECEIVED =>
      update_receiving (with_length (Some byte)) ;;
      m <- receiving ;;
      len <- int_operand (length m) ;;
      if negb ((0 <? len) && (len <=? MAX_MESSAGE_LEN))
      then drop_reception
      else update_self (with_receiver_state MESSAGE_LEN_RECEIVED)
  | MESSAGE_LEN_RECEIVED =>
      if byte =? STX then
        m <- receiving ;;
        d <- int_operand (dst_address m) ;;
        s <- int_operand (src_address m) ;;
        l <- int_operand (length m) ;;
        update_receiving (with_crc (Some (Z.lxor (Z.lxor d s) l))) ;;
        update_self (with_receiver_state STX_RECEIVED)
      else drop_reception
  | STX_RECEIVED =>
      if is_valid_encoded_byte byte then
        m <- receiving ;;
        if is_first_nibble m then
          update_receiving (with_incoming (Z.land byte 240)) ;;
          update_receiving (with_is_first_nibble false)
        else
          update_receiving (with_is_first_nibble true) ;;
          update_receiving (fun m =>
            with_incoming (Z.lor (incoming m) (Z.land byte 15)) m) ;;
          m <- receiving ;;
          b <- bytes1 (incoming m) ;;
          update_receiving (with_payload_buffer (payload_buffer m ++ b)) ;;
          m <- receiving ;;
          c <- int_operand (crc m) ;;
          update_receiving (with_crc (Some (Z.lxor c (incoming m))))
      else if byte =? ETX then
        m <- receiving ;;
        if py_eq (length m) (Z.of_nat (List.length (payload_buffer m)))
        then update_self (with_receiver_state ETX_RECEIVED)
        else drop_reception
      else drop_reception
  | ETX_RECEIVED =>
      m <- receiving ;;
      if py_eq (crc m) byte
      then update_self (with_receiver_state CRC_OK)
      else drop_reception
  | CRC_OK =>
      (if byte =? EOT then
         m <- receiving ;;
         let message :=
           mkReceivedMessage (src_address m) (dst_address m)
             (transaction_id m) (length m) (payload_buffer m) in
         update_self (fun b =>
           with_received_messages (_received_messages b ++ [message]) b)
       else ret tt) ;;
      drop_reception
  end.

(** [_receive]: one iteration of the [while] loop per buffered answer of
    [read(1)]; a [None] answer and a NUL byte while idle are skipped. *)
Fixpoint _receive_loop (pending : list (option Z)) : Py unit :=
  match pending with
  | [] => ret tt
  | byte :: rest =>
      set_rx_buffer rest ;;
      me <- self ;;
      match byte with
      | None => _receive_loop rest
      | Some b =>
          if (b =? NULL) && ReceiverState_eqb (_receiver_state me) IDLE
          then _receive_loop rest
          else
            now <- get_milliseconds ;;
            update_self (with_last_bus_activity now) ;;
            _process_byte b ;;
            _receive_loop rest
      end
  end.

Definition _receive : Py unit :=
  w <- platform ;; _receive_loop (rx_buffer w).

(** [self._interface.write(message_to_send)]; the event records the call,
    whether or not the driver then raises. *)
Definition interface_write (frame : list Z) : Py unit :=
  emit (Write frame) ;;
  w <- platform ;;
  match write_raises (channel w) with
  | Some e => raise e
  | None => ret tt
  end.

(** [while not self._interface.txdone(): utime.sleep_us(10)]. *)
Fixpoint txdone_wait (polls : nat) (final : option Exn) : Py unit :=
  match polls with
  | O => match final with
         | Some e => raise e
         | None => ret tt
         end
  | S n => emit (SleepUs 10) ;; txdone_wait n final
  end.

Definition interface_flush : Py unit :=
  w <- platform ;;
  match flush_raises (channel w) with
  | Some e => raise e
  | None => emit Flush
  end.

(** The handler of [except AttributeError] around the [txdone] loop. *)
Definition manual_timing (message_to_send : list Z) : Py unit :=
  safety_margin_factor <-
    try_except (interface_flush ;; ret Margin_1_1)
      (fun e => if Exn_eqb e AttributeError then ret Margin_1_2
                else raise e) ;;
  me <- self ;;
  if _interface_baudrate me =? 0 then raise ZeroDivisionError
  else emit (SleepEstimated (Z.of_nat (List.length message_to_send))
                            (_interface_baudrate me) safety_margin_factor).

(** The [try] block of [_transmit] with its two [except] clauses: [true]
    when the block ran to its end, [false] when a handler returned. *)
Definition transmit_attempt (message_to_send : list Z) : Py bool :=
  try_except
    (_enable_transmit_mode ;;
     interface_write message_to_send ;;
     w <- platform ;;
     try_except
       (txdone_wait (txdone_polls (channel w)) (txdone_raises (channel w)))
       (fun e => if Exn_eqb e AttributeError
                 then manual_timing message_to_send
                 else raise e) ;;
     ret true)
    (fun _ => ret false).

Definition _transmit : Py bool :=
  me <- self ;;
  match _output_messages me with
  | [] => ret false
  | message_to_send :: _ =>
      now <- get_milliseconds ;;
      idle <- ticks_diff now (_last_bus_activity me) ;;
      if idle <? LINE_READY_TIME_MS then ret false
      else
        completed <- try_finally (transmit_attempt message_to_send)
                                 _disable_transmit_mode ;;
        if completed : bool then
          now <- get_milliseconds ;;
          update_self (with_last_bus_activity now) ;;
          update_self (fun b =>
            with_output_messages (tl (_output_messages b)) b) ;;
          ret true
        else ret false
  end.

Definition loop : Py unit :=
  _receive ;;
  _transmit ;;
  me <- self ;;
  if negb (ReceiverState_eqb (_receiver_state me) IDLE) then
    now <- get_milliseconds ;;
    m <- receiving ;;
    elapsed <- ticks_diff now (timestamp m) ;;
    if elapsed >? PACKET_TIMEOUT_MS then drop_reception else ret tt
  else ret tt.

(** Feeding a byte sequence to the receiver, one [_process_byte] per byte. *)
Fixpoint feed (data : list Z) : Py unit :=
  match data with
  | [] => ret tt
  | byte :: rest => _process_byte byte ;; feed rest
  end.

(** ** The wire format *)

Definition is_byte (x : Z) : Prop := 0 <= x < 256.

(** The two wire bytes of one payload byte, as the loop of [send_message]
    computes them. *)
Definition high_nibble_byte (p : Z) : Z :=
  let byte := Z.land p 240 in
  Z.lor byte (Z.land (Z.lnot (Z.shiftr byte 4)) 15).

Definition low_nibble_byte (p : Z) : Z :=
  let byte := Z.land p 15 in
  Z.lor byte (Z.land (Z.shiftl (Z.lnot byte) 4) 240).

Definition encode_payload (payload : list Z) : list Z :=
  flat_map (fun p => [high_nibble_byte p; low_nibble_byte p]) payload.

Definition frame_crc (src dst : Z) (payload : list Z) : Z :=
  fold_left Z.lxor payload
    (Z.lxor (Z.lxor src dst) (Z.of_nat (List.length payload))).

(** The frame [send_message] queues on a node of address [src]. *)
Definition wire_frame (src dst tid : Z) (payload : list Z) : list Z :=
  [LF; LF; LF; SOH; dst; src; tid; Z.of_nat (List.length payload); STX]
  ++ encode_payload payload
  ++ [ETX; frame_crc src dst payload; EOT; LF; LF].

(** Replacing the byte at one position of a frame. *)
Fixpoint corrupt (i : nat) (x : Z) (frame : list Z) : list Z :=
  match frame, i with
  | [], _ => []
  | _ :: rest, O => x :: rest
  | b :: rest, S j => b :: corrupt j x rest
  end.

(** [pending_send]'s result read as a number ([True == 1], [False == 0]). *)
Definition int_of_bool (b : bool) : Z := if b then 1 else 0.

(** A check over all 256 byte values. *)
Definition all_bytes (P : Z -> bool) : bool :=
  forallb P (map Z.of_nat (seq 0 256)).

(** ** Sample platforms and engines, for the concrete instances below *)

(** A clock that advances 25 ms between two readings, a channel with a
    [txdone] method that answers [True] at the third poll, and the plain
    difference for [utime.ticks_diff]. *)
Definition sample_world : World :=
  mkWorld (fun n => 25 * Z.of_nat n) 0 Z.sub []
          (mkChannel None 2 None None) [].

(** A node of the given address on [sample_world], idle, both queues empty. *)
Definition sample_node (address : Z) : Sys :=
  mkSys (mkBus 9600 address DEFAULT_TRANSCEIVER_TOGGLE_TIME_MS 0
               IDLE None [] [])
        sample_world.

Definition with_channel (c : Channel) (s : Sys) : Sys :=
  mkSys (bus s)
        (mkWorld (clock (world s)) (clock_reads (world s))
                 (utime_ticks_diff (world s)) (rx_buffer (world s)) c
                 (trace (world s))).

Definition with_queue (q : list (list Z)) (s : Sys) : Sys :=
  mkSys (with_output_messages q (bus s)) (world s).

(** ** States of the engine and of the platform *)

(** The engine with the receiver's two fields replaced. *)
Definition set_rx (st : ReceiverState) (m : option ReceivingMessage) (s : Sys) : Sys :=
  mkSys (mkBus (_interface_baudrate (bus s)) (_address (bus s))
               (_transceiver_toggle_time_ms (bus s))
               (_last_bus_activity (bus s)) st m
               (_received_messages (bus s)) (_output_messages (bus s)))
        (world s).

(** The platform after one more reading of the clock. *)
Definition clock_tick (s : Sys) : Sys :=
  mkSys (bus s)
        (mkWorld (clock (world s)) (S (clock_reads (world s)))
                 (utime_ticks_diff (world s)) (rx_buffer (world s))
                 (channel (world s)) (trace (world s))).

(** The clock's next answer. *)
Definition now (s : Sys) : Z := clock (world s) (clock_reads (world s)).

(** The engine with one more message in the inbound queue. *)
Definition deliver (m : ReceivedMessage) (s : Sys) : Sys :=
  mkSys (with_received_messages (_received_messages (bus s) ++ [m]) (bus s))
        (world s).

(** The platform with more events in its trace. *)
Definition push_events (evs : list Event) (s : Sys) : Sys :=
  mkSys (bus s)
        (mkWorld (clock (world s)) (clock_reads (world s))
                 (utime_ticks_diff (world s)) (rx_buffer (world s))
                 (channel (world s)) (trace (world s) ++ evs)).

(** ** Consistency of the receiver *)

(** What the branch for state [st] reads from the reception in progress. *)
Definition fields_ok (st : ReceiverState) (m : ReceivingMessage) : Prop :=
  is_byte (incoming m)
  /\ match st with
     | IDLE | SOH_RECEIVED => True
     | DEST_ADDRESS_RECEIVED => dst_address m <> None
     | SRC_ADDRESS_RECEIVED | TRANSACTION_ID_RECEIVED =>
         dst_address m <> None /\ src_address m <> None
     | MESSAGE_LEN_RECEIVED =>
         dst_address m <> None /\ src_address m <> None /\ length m <> None
     | STX_RECEIVED | ETX_RECEIVED | CRC_OK => crc m <> None
     end.

(** Every state but [IDLE] has a reception in progress, with the fields the
    state's branch reads. *)
Definition receiver_ok (b : Simple485Remastered) : Prop :=
  match _receiver_state b with
  | IDLE => True
  | st => match _receiving_message b with
          | Some m => fields_ok st m
          | None => False
          end
  end.

(** The receiver is idle exactly when no reception is in progress, and a
    reception in progress has the fields its state reads. *)
Definition receiver_inv (b : Simple485Remastered) : Prop :=
  receiver_ok b
  /\ (_receiver_state b = IDLE <-> _receiving_message b = None).

(** Position of a state on the way to a delivery. *)
Definition rank (st : ReceiverState) : nat :=
  match st with
  | IDLE => 0
  | SOH_RECEIVED => 1
  | DEST_ADDRESS_RECEIVED => 2
  | SRC_ADDRESS_RECEIVED => 3
  | TRANSACTION_ID_RECEIVED => 4
  | MESSAGE_LEN_RECEIVED => 5
  | STX_RECEIVED => 6
  | ETX_RECEIVED => 7
  | CRC_OK => 8
  end.

(** What [_process_byte] leaves alone. *)
Definition same_outside_receiver (s s' : Sys) : Prop :=
  _interface_baudrate (bus s') = _interface_baudrate (bus s)
  /\ _address (bus s') = _address (bus s)
  /\ _transceiver_toggle_time_ms (bus s') = _transceiver_toggle_time_ms (bus s)
  /\ _last_bus_activity (bus s') = _last_bus_activity (bus s)
  /\ _output_messages (bus s') = _output_messages (bus s)
  /\ trace (world s') = trace (world s)
  /\ rx_buffer (world s') = rx_buffer (world s)
  /\ channel (world s') = channel (world s).

(** Feeding [l] returns and leaves the inbound queue as it was. *)
Definition undelivered (l : list Z) (s : Sys) : Prop :=
  exists s', feed l s = (Return tt, s')
             /\ _received_messages (bus s') = _received_messages (bus s).

(** ** Transmit attempts *)

(** Whether the [try] block of [_transmit] runs to its end on a channel:
    [write] returns, and either the [txdone] loop ends, or the interface
    has no [txdone], [flush] returns or is missing, and the baud rate is not
    zero. *)
Definition channel_completes (ch : Channel) (baudrate : Z) : bool :=
  match write_raises ch, txdone_raises ch with
  | None, None => true
  | None, Some AttributeError =>
      match flush_raises ch with
      | None | Some AttributeError => negb (baudrate =? 0)
      | Some _ => false
      end
  | _, _ => false
  end.

(** The events of the completion wait. *)
Definition is_wait (e : Event) : Prop :=
  match e with
  | SleepUs _ | Flush | SleepEstimated _ _ _ => True
  | _ => False
  end.

(** The frames handed to [interface.write], in order. *)
Fixpoint writes (tr : list Event) : list (list Z) :=
  match tr with
  | [] => []
  | Write frame :: rest => frame :: writes rest
  | _ :: rest => writes rest
  end.

(** The measured idle time at the gate of [_transmit]. *)
Definition idle_time (s : Sys) : Z :=
  utime_ticks_diff (world s) (now s) (_last_bus_activity (bus s)).

(** Same outbound queue and same trace. *)
Definition same_queue_and_trace (s s' : Sys) : Prop :=
  _output_messages (bus s') = _output_messages (bus s)
  /\ trace (world s') = trace (world s).

(** What one [_transmit] does to the outbound queue and to the channel:
    nothing, or one write of the whole head frame, behind the idle gate,
    after which the frame stays or leaves. *)
Definition transmit_step (s s' : Sys) : Prop :=
  exists evs,
    trace (world s') = trace (world s) ++ evs
    /\ ((writes evs = []
         /\ _output_messages (bus s') = _output_messages (bus s))
        \/ (exists frame rest,
              _output_messages (bus s) = frame :: rest
              /\ writes evs = [frame]
              /\ LINE_READY_TIME_MS <= idle_time s
              /\ (_output_messages (bus s') = frame :: rest
                  \/ _output_messages (bus s') = rest))).

(** ** Runs of the engine *)

(** What the application and the environment can do to an engine: the
    public methods, bytes arriving in the interface's receive buffer, and a
    change of how the channel answers. *)
Inductive Call : Type :=
| call_loop
| call_send_message (dst_address : Z) (payload : list Z) (transaction_id : Z)
| call_read
| call_available
| call_pending_send
| call_get_address
| call_set_address (address : Z)
| call_get_last_bus_activity
| env_receive (data : list (option Z))
| env_channel (ch : Channel).

(** The state a method leaves, whether it returned or raised. *)
Definition after {A : Type} (m : Py A) (s : Sys) : Sys := snd (m s).

(** The state after a call or an event. *)
Definition perform (c : Call) (s : Sys) : Sys :=
  match c with
  | call_loop => after loop s
  | call_send_message d p t => after (send_message d p t) s
  | call_read => after read s
  | call_available => after available s
  | call_pending_send => after pending_send s
  | call_get_address => after get_address s
  | call_set_address a => after (set_address a) s
  | call_get_last_bus_activity => after get_last_bus_activity s
  | env_receive data =>
      after (w <- platform ;; set_rx_buffer (rx_buffer w ++ data)) s
  | env_channel ch => with_channel ch s
  end.

(** The state after a sequence of calls and events. *)
Definition run (cs : list Call) (s : Sys) : Sys :=
  fold_left (fun s c => perform c s) cs s.

(** The states an engine can be in: those the constructor returns, and
    those a call or an event leads to from such a state. *)
Inductive reachable : Sys -> Prop :=
| reachable_init (baudrate address toggle : Z) (w : World) (s : Sys) :
    __init__ baudrate address toggle w = Return s -> reachable s
| reachable_step (c : Call) (s : Sys) :
    reachable s -> reachable (perform c s).

(** The frame a call appends to the outbound queue, if any. *)
Definition enqueued_by (c : Call) (s : Sys) : list (list Z) :=
  match c with
  | call_send_message d p t =>
      match fst (send_message d p t s) with
      | Return _ => [wire_frame (_address (bus s)) d t p]
      | Raise _ => []
      end
  | _ => []
  end.

(** The frames a run appends to the outbound queue, in the order of the
    calls. *)
Fixpoint enqueued (cs : list Call) (s : Sys) : list (list Z) :=
  match cs with
  | [] => []
  | c :: rest => enqueued_by c s ++ enqueued rest (perform c s)
  end.

(** [retries[i] + 1] consecutive writes of [sent[i]], for each [i] in
    order. *)
Fixpoint attempts (sent : list (list Z)) (retries : list nat) : list (list Z) :=
  match sent, retries with
  | frame :: sent', n :: retries' =>
      repeat frame (S n) ++ attempts sent' retries'
  | _, _ => []
  end.

(** The writes since the trace was [tr0] are those of the frames that left
    the queue since it was [q0], in queue order and each in one block,
    followed by [k] writes of the frame now at the head. *)
Definition fifo_inv (q0 : list (list Z)) (tr0 : list Event)
    (added : list (list Z)) (s : Sys) : Prop :=
  exists sent retries k evs,
    q0 ++ added = sent ++ _output_messages (bus s)
    /\ trace (world s) = tr0 ++ evs
    /\ List.length retries = List.length sent
    /\ writes evs
       = attempts sent retries ++ repeat (hd [] (_output_messages (bus s))) k
    /\ (_output_messages (bus s) = [] -> k = 0%nat).

(** ** Sample states *)

(** The receiver after [SOH 5 0 0 1 STX 0x0F 0xF0 0x0F] on node 5: one
    payload byte assembled, a first nibble pending. *)
Definition pending_nibble_state : Sys :=
  set_rx STX_RECEIVED
    (Some (mkReceivingMessage 0 (Some 5) (Some 0) (Some 0) (Some 1) (Some 4)
             false 0 [0]))
    (clock_tick (sample_node 5)).

(** A node with one frame queued and the line idle for 25 ms. *)
Definition sample_sender : Sys :=
  with_queue [wire_frame 0 5 0 [1]] (clock_tick (sample_node 0)).

(** Node 0, its line idle, after it queued a message for node 5 and then
    one for node 6. *)
Definition pair_queued : Sys :=
  after (send_message 6 [66] 0)
        (after (send_message 5 [65] 0) (clock_tick (sample_node 0))).

(** A channel whose [write] raises [OSError]. *)
Definition broken_channel : Channel := mkChannel (Some OSError) 0 None None.

(** A freshly constructed node 5 after the bytes [SOH 5 7] arrived and one
    service tick read them: a reception is in progress. *)
Definition receiving_node : Sys :=
  match __init__ 9600 5 DEFAULT_TRANSCEIVER_TOGGLE_TIME_MS sample_world with
  | Return s => run [env_receive [Some 1; Some 5; Some 7]; call_loop] s
  | Raise _ => sample_node 5
  end.

(** The receiver of node 5 right after a start-of-frame marker. *)
Definition after_soh : Sys :=
  set_rx SOH_RECEIVED (Some (ReceivingMessage_init 0)) (clock_tick (sample_node 5)).

(** ** The rest of the module: replies, the node layers, the timeout check *)

(** [send_message] as [respond] calls it, with the fields of a message as
    arguments: a [None] where [bytes([..])] wants an integer is a
    [TypeError], raised where the source evaluates that operand (after the
    length checks, and for the transaction id after the destination and the
    own address). *)
Definition send_message_fields (dst_address : option Z) (payload : list Z)
    (transaction_id : option Z) : Py bool :=
  match dst_address, transaction_id with
  | Some d, Some t => send_message d payload t
  | _, _ =>
      let message_len := Z.of_nat (List.length payload) in
      if message_len =? 0 then raise ValueError
      else if message_len >? MAX_MESSAGE_LEN then raise ValueError
      else
        match dst_address with
        | None => raise TypeError
        | Some d =>
            me <- self ;;
            bytes1 d ;;
            bytes1 (_address me) ;;
            raise TypeError
        end
  end.

(** [ReceivedMessage.respond]; the originating bus of a message is the
    engine that delivered it, so the check for a missing bus never fires. *)
Definition respond (m : ReceivedMessage) (message : list Z)
    (allow_broadcast : bool) : Py bool :=
  if is_broadcast m && negb allow_broadcast then raise ValueError
  else send_message_fields (msg_src_address m) message (msg_transaction_id m).

(** [Node.__init__]: the address check, then the engine's constructor. *)
Definition Node_init (interface_baudrate address transceiver_toggle_time_ms : Z)
    (w : World) : Outcome Sys :=
  if negb (is_valid_node_address address) then Raise ValueError
  else __init__ interface_baudrate address transceiver_toggle_time_ms w.

(** [Slave.__init__]: the slave address check, then [Node.__init__]. *)
Definition Slave_init (interface_baudrate address transceiver_toggle_time_ms : Z)
    (w : World) : Outcome Sys :=
  if negb (is_valid_slave_address address) then Raise ValueError
  else Node_init interface_baudrate address transceiver_toggle_time_ms w.

(** [Slave._handle_incoming_message], over the two handlers a subclass
    supplies. *)
Definition Slave_handle_incoming_message
    (_handle_broadcast_message _handle_unicast_message : ReceivedMessage -> Py unit)
    (message : ReceivedMessage) : Py unit :=
  if py_ne (msg_src_address message) MASTER_ADDRESS then ret tt
  else if is_broadcast message then _handle_broadcast_message message
  else _handle_unicast_message message.

(** The [while] loop of [Node._loop], for at most [fuel] iterations: [true]
    when the loop ended because nothing is available, [false] when the
    iterations ran out.  An exception of [read] or of the handler is caught
    and the loop goes on. *)
Fixpoint Node_drain (fuel : nat)
    (_handle_incoming_message : ReceivedMessage -> Py unit) : Py bool :=
  match fuel with
  | O => k <- available ;; ret (negb (k >? 0))
  | S n =>
      k <- available ;;
      if k >? 0 then
        try_except
          (message <- read ;; _handle_incoming_message message)
          (fun _ => ret tt) ;;
        Node_drain n _handle_incoming_message
      else ret true
  end.

(** [Node._loop]. *)
Definition Node_loop (fuel : nat)
    (_handle_incoming_message : ReceivedMessage -> Py unit) : Py bool :=
  loop ;; Node_drain fuel _handle_incoming_message.

(** The last statement of [loop]: the packet timeout. *)
Definition timeout_check : Py unit :=
  me <- self ;;
  if negb (ReceiverState_eqb (_receiver_state me) IDLE) then
    now <- get_milliseconds ;;
    m <- receiving ;;
    elapsed <- ticks_diff now (timestamp m) ;;
    if elapsed >? PACKET_TIMEOUT_MS then drop_reception else ret tt
  else ret tt.

(** ** Further definitions used to state the properties *)

Definition with_timestamp (ts : Z) (m : ReceivingMessage) :=
  mkReceivingMessage ts (dst_address m) (src_address m) (transaction_id m)
    (length m) (crc m) (is_first_nibble m) (incoming m) (payload_buffer m).

(** What the receiver goes by: its state, the reception in progress apart
    from its start time, the inbound queue and the node's address. *)
Definition receiver_view (s : Sys)
    : ReceiverState * option ReceivingMessage * list ReceivedMessage * Z :=
  (_receiver_state (bus s),
   option_map (with_timestamp 0) (_receiving_message (bus s)),
   _received_messages (bus s),
   _address (bus s)).

(** The bytes among the answers of [read(1)]. *)
Definition bytes_read (pending : list (option Z)) : list Z :=
  flat_map (fun o => match o with Some b => [b] | None => [] end) pending.

(** A delivered message as the receiver builds it: all header fields set,
    a payload of 1 to 255 byte values, the declared length its length. *)
Definition message_ok (m : ReceivedMessage) : Prop :=
  msg_src_address m <> None /\ msg_dest_address m <> None
  /\ msg_transaction_id m <> None
  /\ msg_length m = Some (Z.of_nat (List.length (msg_payload m)))
  /\ (1 <= List.length (msg_payload m) <= 255)%nat
  /\ Forall is_byte (msg_payload m).

(** What a reception in progress holds in each state. *)
Definition reception_ok (st : ReceiverState) (m : ReceivingMessage) : Prop :=
  is_byte (incoming m) /\ Forall is_byte (payload_buffer m)
  /\ match st with
     | IDLE | SOH_RECEIVED => True
     | DEST_ADDRESS_RECEIVED => dst_address m <> None
     | SRC_ADDRESS_RECEIVED => dst_address m <> None /\ src_address m <> None
     | TRANSACTION_ID_RECEIVED =>
         dst_address m <> None /\ src_address m <> None
         /\ transaction_id m <> None
     | MESSAGE_LEN_RECEIVED =>
         dst_address m <> None /\ src_address m <> None
         /\ transaction_id m <> None
         /\ exists l, length m = Some l /\ 0 < l <= MAX_MESSAGE_LEN
     | STX_RECEIVED =>
         dst_address m <> None /\ src_address m <> None
         /\ transaction_id m <> None /\ crc m <> None
         /\ exists l, length m = Some l /\ 0 < l <= MAX_MESSAGE_LEN
     | ETX_RECEIVED | CRC_OK =>
         dst_address m <> None /\ src_address m <> None
         /\ transaction_id m <> None /\ crc m <> None
         /\ length m = Some (Z.of_nat (List.length (payload_buffer m)))
         /\ (1 <= List.length (payload_buffer m) <= 255)%nat
     end.

Definition inbound_inv (b : Simple485Remastered) : Prop :=
  Forall message_ok (_received_messages b)
  /\ match _receiver_state b with
     | IDLE => True
     | st => match _receiving_message b with
             | Some m => reception_ok st m
             | None => False
             end
     end.

(** Whether the direction pin is asserted after the events of a trace,
    [on] telling whether it was before. *)
Fixpoint transmitting (on : bool) (tr : list Event) : bool :=
  match tr with
  | [] => on
  | PinOn :: rest => transmitting true rest
  | PinOff :: rest => transmitting false rest
  | _ :: rest => transmitting on rest
  end.

(** The events of one [_transmit]: none, or one attempt from the assertion
    of the pin to the wait after its deassertion. *)
Definition attempt_events (evs : list Event) : Prop :=
  evs = []
  \/ exists toggle frame waits,
       Forall is_wait waits
       /\ evs = [PinOn; SleepMs toggle; Write frame] ++ waits
                ++ [PinOff; SleepUs toggle].

(** Address, settle time and baud rate. *)
Definition same_config (s s' : Sys) : Prop :=
  _address (bus s') = _address (bus s)
  /\ _transceiver_toggle_time_ms (bus s') = _transceiver_toggle_time_ms (bus s)
  /\ _interface_baudrate (bus s') = _interface_baudrate (bus s).

(** The engine with its address replaced. *)
Definition readdressed (a : Z) (s : Sys) : Sys :=
  mkSys (with_address a (bus s)) (world s).

(** The engine with its inbound queue replaced. *)
Definition with_inbound (q : list ReceivedMessage) (s : Sys) : Sys :=
  mkSys (with_received_messages q (bus s)) (world s).

(** The engine with the answers of [read(1)] replaced. *)
Definition with_rx_buffer (l : list (option Z)) (s : Sys) : Sys :=
  mkSys (bus s)
        (mkWorld (clock (world s)) (clock_reads (world s))
                 (utime_ticks_diff (world s)) l (channel (world s))
                 (trace (world s))).

(** ** Sample states and views for the further properties *)

(** A freshly constructed node 0 after it queued two frames and ran four
    service ticks. *)
Definition busy_node : Sys :=
  match __init__ 9600 0 DEFAULT_TRANSCEIVER_TOGGLE_TIME_MS sample_world with
  | Return s =>
      run [call_send_message 5 [65] 0; call_send_message 6 [66] 0;
           call_loop; call_loop; call_loop; call_loop] s
  | Raise _ => sample_node 0
  end.

(** A freshly constructed node 5 after a frame from node 0 and then some
    noise arrived and one service tick read them. *)
Definition noisy_node : Sys :=
  match __init__ 9600 5 DEFAULT_TRANSCEIVER_TOGGLE_TIME_MS sample_world with
  | Return s =>
      run [env_receive (map Some (wire_frame 0 5 7 [104; 105]));
           env_receive [Some 1; Some 255; Some 3; Some 200; None; Some 2];
           call_loop] s
  | Raise _ => sample_node 5
  end.

(** Two outcomes alike: both return or both raise the same exception, and
    the receiver goes by the same things after them. *)
Definition same_outcome (r1 r2 : Outcome unit * Sys) : Prop :=
  fst r1 = fst r2 /\ receiver_view (snd r1) = receiver_view (snd r2).

(** Node 5 with a reception begun at time 0 and stalled after the
    destination byte, on a clock that now shows 600. *)
Definition stalled_node : Sys :=
  mkSys (mkBus 9600 5 DEFAULT_TRANSCEIVER_TOGGLE_TIME_MS 0
               DEST_ADDRESS_RECEIVED
               (Some (with_dst_address (Some 5) (ReceivingMessage_init 0)))
               [] [])
        (mkWorld (fun n => 600 + Z.of_nat n) 0 Z.sub []
                 (mkChannel None 2 None None) []).

(** What one turn of the loop of [Node._loop] leaves: the oldest message
    removed and the handler run on it. *)
Definition handled (handle : ReceivedMessage -> Py unit) (s : Sys)
    (m : ReceivedMessage) : Sys :=
  after (handle m) (with_inbound (tl (_received_messages (bus s))) s).

(** Node 5 with two messages in its inbound queue and nothing to do. *)
Definition node_with_mail : Sys :=
  with_inbound
    [mkReceivedMessage (Some 0) (Some 5) (Some 1) (Some 1) [65];
     mkReceivedMessage (Some 0) (Some 5) (Some 2) (Some 1) [66]]
    (sample_node 5).

(** * Properties *)

(** ** Bytes and bit operations *)

Lemma all_bytes_spec (P : Z -> bool) :
  all_bytes P = true -> forall b, is_byte b -> P b = true.
Proof.
  unfold all_bytes, is_byte. intros H b Hb.
  rewrite forallb_forall in H. apply H.
  apply in_map_iff. exists (Z.to_nat b). split; [lia|].
  apply in_seq. lia.
Qed.

Lemma bytes1_byte (x : Z) (s : Sys) :
  is_byte x -> bytes1 x s = (Return [x], s).
Proof.
  unfold is_byte, bytes1. intros H.
  replace ((0 <=? x) && (x <? 256)) with true; [reflexivity|].
  symmetry. apply andb_true_intro. split; [apply Z.leb_le | apply Z.ltb_lt]; lia.
Qed.

Lemma bytes1_inv (x : Z) (s s' : Sys) (l : list Z) :
  bytes1 x s = (Return l, s') -> is_byte x /\ l = [x] /\ s' = s.
Proof.
  unfold bytes1, is_byte.
  destruct ((0 <=? x) && (x <? 256)) eqn:E; cbv [ret raise]; intros H;
    inversion H; subst.
  apply andb_prop in E. destruct E as [E1 E2].
  apply Z.leb_le in E1. apply Z.ltb_lt in E2. repeat split; lia.
Qed.

Lemma bytes1_state {x : Z} {s s' : Sys} {r} :
  bytes1 x s = (r, s') -> s' = s.
Proof.
  unfold bytes1. destruct ((0 <=? x) && (x <? 256)); cbv [ret raise];
    intros H; inversion H; reflexivity.
Qed.

Lemma high_nibble_byte_range (p : Z) : is_byte p -> is_byte (high_nibble_byte p).
Proof.
  intros H.
  pose proof (all_bytes_spec
    (fun p => (0 <=? high_nibble_byte p) && (high_nibble_byte p <? 256))
    ltac:(vm_compute; reflexivity) p H) as E.
  cbv beta in E. apply andb_prop in E. destruct E as [E1 E2].
  apply Z.leb_le in E1. apply Z.ltb_lt in E2. split; assumption.
Qed.

Lemma low_nibble_byte_range (p : Z) : is_byte p -> is_byte (low_nibble_byte p).
Proof.
  intros H.
  pose proof (all_bytes_spec
    (fun p => (0 <=? low_nibble_byte p) && (low_nibble_byte p <? 256))
    ltac:(vm_compute; reflexivity) p H) as E.
  cbv beta in E. apply andb_prop in E. destruct E as [E1 E2].
  apply Z.leb_le in E1. apply Z.ltb_lt in E2. split; assumption.
Qed.

Lemma lxor_byte (a b : Z) : is_byte a -> is_byte b -> is_byte (Z.lxor a b).
Proof.
  intros Ha Hb.
  pose proof (all_bytes_spec
    (fun a => all_bytes (fun b => (0 <=? Z.lxor a b) && (Z.lxor a b <? 256)))
    ltac:(vm_compute; reflexivity) a Ha) as E.
  cbv beta in E. pose proof (all_bytes_spec _ E b Hb) as E'.
  cbv beta in E'. apply andb_prop in E'. destruct E' as [E1 E2].
  apply Z.leb_le in E1. apply Z.ltb_lt in E2. split; assumption.
Qed.

Lemma fold_lxor_byte (l : list Z) (c : Z) :
  Forall is_byte l -> is_byte c -> is_byte (fold_left Z.lxor l c).
Proof.
  intros Hl. revert c. induction Hl as [|x l Hx Hl IH]; intros c Hc.
  - exact Hc.
  - simpl. apply IH. apply lxor_byte; assumption.
Qed.

Lemma frame_crc_byte (src dst : Z) (payload : list Z) :
  is_byte src -> is_byte dst -> is_byte (Z.of_nat (List.length payload)) ->
  Forall is_byte payload -> is_byte (frame_crc src dst payload).
Proof.
  intros Hs Hd Hl Hp. unfold frame_crc.
  apply fold_lxor_byte; [assumption|].
  apply lxor_byte; [apply lxor_byte|]; assumption.
Qed.

(** ** The encoder *)

Lemma send_message_loop_ok (payload : list Z) :
  Forall is_byte payload ->
  forall crc text_buffer s,
    send_message_loop payload crc text_buffer s
    = (Return (fold_left Z.lxor payload crc,
               text_buffer ++ encode_payload payload), s).
Proof.
  induction 1 as [|p rest Hp Hrest IH]; intros crc text_buffer s.
  - simpl. rewrite app_nil_r. reflexivity.
  - pose proof (bytes1_byte _ s (high_nibble_byte_range p Hp)) as Ehi.
    pose proof (bytes1_byte _ s (low_nibble_byte_range p Hp)) as Elo.
    unfold high_nibble_byte in Ehi. unfold low_nibble_byte in Elo.
    cbn [send_message_loop]. cbv zeta in *.
    unfold bind at 1. rewrite Ehi.
    unfold bind at 1. rewrite Elo.
    rewrite IH. cbn [fold_left encode_payload flat_map].
    unfold high_nibble_byte, low_nibble_byte. cbv zeta.
    rewrite <- !app_assoc. reflexivity.
Qed.

Lemma send_message_loop_state (payload : list Z) :
  forall crc text_buffer s r s',
    send_message_loop payload crc text_buffer s = (r, s') -> s' = s.
Proof.
  induction payload as [|p rest IH]; intros crc text_buffer s r s' H.
  - inversion H. reflexivity.
  - cbn [send_message_loop] in H. unfold bind at 1 in H.
    destruct (bytes1 _ s) as [[hi|e] s1] eqn:E1;
      pose proof (bytes1_state E1); subst s1; [|inversion H; reflexivity].
    unfold bind at 1 in H.
    destruct (bytes1 _ s) as [[lo|e] s2] eqn:E2 in H;
      pose proof (bytes1_state E2); subst s2; [|inversion H; reflexivity].
    eapply IH. exact H.
Qed.

Lemma send_message_ok (dst : Z) (payload : list Z) (tid : Z) (s : Sys) :
  (1 <= List.length payload <= 255)%nat ->
  Forall is_byte payload -> is_byte dst -> is_byte tid ->
  is_byte (_address (bus s)) ->
  send_message dst payload tid s
  = (Return true,
     with_queue (_output_messages (bus s)
                 ++ [wire_frame (_address (bus s)) dst tid payload]) s).
Proof.
  intros Hlen Hp Hd Ht Ha. unfold send_message.
  assert (Hl : is_byte (Z.of_nat (List.length payload))) by (unfold is_byte; lia).
  replace (Z.of_nat (List.length payload) =? 0) with false
    by (symmetry; apply Z.eqb_neq; lia).
  replace (Z.of_nat (List.length payload) >? MAX_MESSAGE_LEN) with false
    by (symmetry; unfold MAX_MESSAGE_LEN; rewrite Z.gtb_ltb; apply Z.ltb_ge; lia).
  unfold bind at 1. unfold self at 1.
  unfold bind at 1. rewrite (bytes1_byte _ s Hd).
  unfold bind at 1. rewrite (bytes1_byte _ s Ha).
  unfold bind at 1. rewrite (bytes1_byte _ s Ht).
  unfold bind at 1. rewrite (bytes1_byte _ s Hl).
  unfold bind at 1. rewrite (send_message_loop_ok payload Hp).
  unfold bind at 1.
  pose proof (bytes1_byte _ s (frame_crc_byte _ _ _ Ha Hd Hl Hp)) as Ec.
  unfold frame_crc in Ec. rewrite Ec.
  unfold bind, update_self, ret, with_queue, wire_frame, frame_crc.
  cbn [repeat app]. reflexivity.
Qed.

(** Whenever [send_message] raises, nothing has been assigned. *)
Lemma send_message_raise_state (dst : Z) (payload : list Z) (tid : Z)
    (s s' : Sys) (e : Exn) :
  send_message dst payload tid s = (Raise e, s') -> s' = s.
Proof.
  unfold send_message.
  destruct (Z.of_nat (List.length payload) =? 0);
    [intros H; inversion H; reflexivity|].
  destruct (Z.of_nat (List.length payload) >? MAX_MESSAGE_LEN);
    [intros H; inversion H; reflexivity|].
  unfold bind at 1. unfold self at 1.
  unfold bind at 1.
  destruct (bytes1 dst s) as [[d|e1] s1] eqn:E1;
    pose proof (bytes1_state E1); subst s1;
    [|intros H; inversion H; reflexivity].
  unfold bind at 1.
  destruct (bytes1 (_address (bus s)) s) as [[a|e2] s2] eqn:E2;
    pose proof (bytes1_state E2); subst s2;
    [|intros H; inversion H; reflexivity].
  unfold bind at 1.
  destruct (bytes1 tid s) as [[t|e3] s3] eqn:E3;
    pose proof (bytes1_state E3); subst s3;
    [|intros H; inversion H; reflexivity].
  unfold bind at 1.
  destruct (bytes1 (Z.of_nat (List.length payload)) s) as [[l|e4] s4] eqn:E4;
    pose proof (bytes1_state E4); subst s4;
    [|intros H; inversion H; reflexivity].
  unfold bind at 1.
  destruct (send_message_loop _ _ _ s) as [[[c tb]|e5] s5] eqn:E5;
    pose proof (send_message_loop_state _ _ _ _ _ _ E5); subst s5;
    [|intros H; inversion H; reflexivity].
  unfold bind at 1.
  destruct (bytes1 c s) as [[cb|e6] s6] eqn:E6;
    pose proof (bytes1_state E6); subst s6;
    [|intros H; inversion H; reflexivity].
  unfold bind, update_self, ret. intros H. inversion H.
Qed.

(** C4: [send_message] raises for a payload of length 0 and for one longer
    than 255, and whenever it raises the engine and the platform are as they
    were; for a payload of 1 to 255 bytes (destination, transaction id and
    own address being byte values) it appends exactly one frame, the
    encoding of the message, to the outbound queue, changes nothing else and
    returns [True]. *)
Theorem send_message_length_check (dst : Z) (payload : list Z) (tid : Z) (s : Sys) :
  ((List.length payload = 0 \/ 255 < List.length payload)%nat ->
   send_message dst payload tid s = (Raise ValueError, s))
  /\ (forall e s', send_message dst payload tid s = (Raise e, s') -> s' = s)
  /\ ((1 <= List.length payload <= 255)%nat ->
      Forall is_byte payload -> is_byte dst -> is_byte tid ->
      is_byte (_address (bus s)) ->
      send_message dst payload tid s
      = (Return true,
         mkSys (with_output_messages
                  (_output_messages (bus s)
                   ++ [wire_frame (_address (bus s)) dst tid payload])
                  (bus s))
               (world s))).
Proof.
  split; [|split].
  - intros H. unfold send_message.
    destruct (Z.of_nat (List.length payload) =? 0) eqn:E0; [reflexivity|].
    apply Z.eqb_neq in E0.
    replace (Z.of_nat (List.length payload) >? MAX_MESSAGE_LEN) with true;
      [reflexivity|].
    symmetry. unfold MAX_MESSAGE_LEN. rewrite Z.gtb_ltb. apply Z.ltb_lt. lia.
  - intros e s'. apply send_message_raise_state.
  - intros Hlen Hp Hd Ht Ha.
    rewrite (send_message_ok dst payload tid s Hlen Hp Hd Ht Ha).
    reflexivity.
Qed.

Lemma send_message_length_check_witness :
  send_message 5 [] 0 (sample_node 0) = (Raise ValueError, sample_node 0)
  /\ send_message 5 (repeat 0 256) 0 (sample_node 0)
     = (Raise ValueError, sample_node 0)
  /\ send_message 5 [104; 105] 7 (sample_node 0)
     = (Return true,
        mkSys (with_output_messages [wire_frame 0 5 7 [104; 105]]
                 (bus (sample_node 0)))
              (world (sample_node 0))).
Proof.
  split; [|split].
  - apply (proj1 (send_message_length_check 5 [] 0 (sample_node 0))).
    left. reflexivity.
  - apply (proj1 (send_message_length_check 5 (repeat 0 256) 0 (sample_node 0))).
    right. rewrite repeat_length. lia.
  - apply (proj2 (proj2 (send_message_length_check 5 [104; 105] 7 (sample_node 0)))).
    + simpl. lia.
    + repeat constructor; unfold is_byte; lia.
    + unfold is_byte; lia.
    + unfold is_byte; lia.
    + unfold is_byte; simpl; lia.
Defined.

(** ** The size of the outbound queue *)

(** C6, as stated, fails: with two frames queued [pending_send] answers
    [True], which is 1 as a number, not 2. *)
Lemma pending_send_is_not_the_count :
  let s := with_queue [wire_frame 0 5 0 [1]; wire_frame 0 6 0 [2]] (sample_node 0) in
  exists r, pending_send s = (Return r, s)
            /\ List.length (_output_messages (bus s)) = 2%nat
            /\ int_of_bool r <> Z.of_nat (List.length (_output_messages (bus s))).
Proof.
  exists true. split; [reflexivity|]. split; [reflexivity|].
  simpl. discriminate.
Qed.

(** C6, amended: [pending_send] answers whether the outbound queue is
    non-empty, a boolean, and changes nothing. *)
Theorem pending_send_nonempty (s : Sys) :
  exists r, pending_send s = (Return r, s)
            /\ (r = true <-> _output_messages (bus s) <> []).
Proof.
  unfold pending_send, bind, self, ret.
  eexists. split; [reflexivity|].
  destruct (_output_messages (bus s)) as [|f q]; simpl.
  - split; [discriminate | congruence].
  - split; [discriminate | reflexivity].
Qed.

(** ** The receiver, one byte at a time *)

Ltac py_unfold :=
  cbv [_process_byte bind ret raise self update_self platform update_platform
       receiving update_receiving drop_reception int_operand py_ne py_eq
       get_milliseconds set_rx clock_tick now deliver
       with_address with_last_bus_activity with_receiver_state
       with_receiving_message with_received_messages with_output_messages
       with_dst_address with_src_address with_transaction_id with_length
       with_crc with_is_first_nibble with_incoming with_payload_buffer
       ReceivingMessage_init
       bus world _interface_baudrate _address _transceiver_toggle_time_ms
       _last_bus_activity _receiver_state _receiving_message
       _received_messages _output_messages
       timestamp dst_address src_address transaction_id length crc
       is_first_nibble incoming payload_buffer
       clock clock_reads utime_ticks_diff rx_buffer channel trace
       negb andb].

(** Opens the engine and the reception in progress, so that the receiver's
    branch can be computed. *)
Ltac open_sys s :=
  let b := fresh "b" in let w := fresh "w" in
  destruct s as [b w]; destruct b; destruct w; cbn [bus world _receiver_state
    _receiving_message _address _received_messages] in *; subst.

Lemma process_byte_idle_other (b : Z) (s : Sys) :
  _receiver_state (bus s) = IDLE -> b <> SOH ->
  _process_byte b s = (Return tt, s).
Proof.
  intros Hst Hb. apply Z.eqb_neq in Hb. open_sys s.
  py_unfold. rewrite Hb. reflexivity.
Qed.

Lemma process_byte_idle_soh (s : Sys) :
  _receiver_state (bus s) = IDLE ->
  _process_byte SOH s
  = (Return tt,
     set_rx SOH_RECEIVED (Some (ReceivingMessage_init (now s))) (clock_tick s)).
Proof.
  intros Hst. open_sys s. py_unfold. reflexivity.
Qed.

Lemma process_byte_dest_accept (b : Z) (s : Sys) (m : ReceivingMessage) :
  _receiver_state (bus s) = SOH_RECEIVED ->
  _receiving_message (bus s) = Some m ->
  b = _address (bus s) \/ b = BROADCAST_ADDRESS ->
  _process_byte b s
  = (Return tt,
     set_rx DEST_ADDRESS_RECEIVED (Some (with_dst_address (Some b) m)) s).
Proof.
  intros Hst Hm Hb. open_sys s. destruct m. py_unfold.
  destruct Hb as [Hb|Hb]; subst b.
  - rewrite Z.eqb_refl. reflexivity.
  - rewrite Z.eqb_refl. destruct (BROADCAST_ADDRESS =? _); reflexivity.
Qed.

Lemma process_byte_dest_reject (b : Z) (s : Sys) (m : ReceivingMessage) :
  _receiver_state (bus s) = SOH_RECEIVED ->
  _receiving_message (bus s) = Some m ->
  b <> _address (bus s) -> b <> BROADCAST_ADDRESS ->
  _process_byte b s = (Return tt, set_rx IDLE None s).
Proof.
  intros Hst Hm Hb1 Hb2. apply Z.eqb_neq in Hb1, Hb2.
  open_sys s. destruct m. py_unfold. rewrite Hb1, Hb2. reflexivity.
Qed.

Lemma process_byte_src (b : Z) (s : Sys) (m : ReceivingMessage) :
  _receiver_state (bus s) = DEST_ADDRESS_RECEIVED ->
  _receiving_message (bus s) = Some m ->
  _process_byte b s
  = (Return tt,
     set_rx SRC_ADDRESS_RECEIVED (Some (with_src_address (Some b) m)) s).
Proof.
  intros Hst Hm. open_sys s. destruct m. py_unfold. reflexivity.
Qed.

Lemma process_byte_tid (b : Z) (s : Sys) (m : ReceivingMessage) :
  _receiver_state (bus s) = SRC_ADDRESS_RECEIVED ->
  _receiving_message (bus s) = Some m ->
  _process_byte b s
  = (Return tt,
     set_rx TRANSACTION_ID_RECEIVED (Some (with_transaction_id (Some b) m)) s).
Proof.
  intros Hst Hm. open_sys s. destruct m. py_unfold. reflexivity.
Qed.

Lemma process_byte_len_accept (b : Z) (s : Sys) (m : ReceivingMessage) :
  _receiver_state (bus s) = TRANSACTION_ID_RECEIVED ->
  _receiving_message (bus s) = Some m ->
  0 < b <= MAX_MESSAGE_LEN ->
  _process_byte b s
  = (Return tt,
     set_rx MESSAGE_LEN_RECEIVED (Some (with_length (Some b) m)) s).
Proof.
  intros Hst Hm [Hb1 Hb2]. apply Z.ltb_lt in Hb1. apply Z.leb_le in Hb2.
  open_sys s. destruct m. py_unfold. rewrite Hb1, Hb2. reflexivity.
Qed.

Lemma process_byte_len_reject (b : Z) (s : Sys) (m : ReceivingMessage) :
  _receiver_state (bus s) = TRANSACTION_ID_RECEIVED ->
  _receiving_message (bus s) = Some m ->
  ~ (0 < b <= MAX_MESSAGE_LEN) ->
  _process_byte b s = (Return tt, set_rx IDLE None s).
Proof.
  intros Hst Hm Hb. open_sys s. destruct m. py_unfold.
  destruct (0 <? b) eqn:E1; [|reflexivity].
  destruct (b <=? MAX_MESSAGE_LEN) eqn:E2; [|reflexivity].
  apply Z.ltb_lt in E1. apply Z.leb_le in E2. exfalso. apply Hb. lia.
Qed.

Lemma process_byte_stx (s : Sys) (m : ReceivingMessage) (d a l : Z) :
  _receiver_state (bus s) = MESSAGE_LEN_RECEIVED ->
  _receiving_message (bus s) = Some m ->
  dst_address m = Some d -> src_address m = Some a -> length m = Some l ->
  _process_byte STX s
  = (Return tt,
     set_rx STX_RECEIVED (Some (with_crc (Some (Z.lxor (Z.lxor d a) l)) m)) s).
Proof.
  intros Hst Hm Hd Ha Hl. open_sys s. destruct m.
  cbn [dst_address src_address length] in *. subst.
  py_unfold. reflexivity.
Qed.

Lemma process_byte_no_stx (b : Z) (s : Sys) :
  _receiver_state (bus s) = MESSAGE_LEN_RECEIVED ->
  b <> STX ->
  _process_byte b s = (Return tt, set_rx IDLE None s).
Proof.
  intros Hst Hb. apply Z.eqb_neq in Hb. open_sys s.
  py_unfold. rewrite Hb. reflexivity.
Qed.

Lemma process_byte_first_nibble (b : Z) (s : Sys) (m : ReceivingMessage) :
  _receiver_state (bus s) = STX_RECEIVED ->
  _receiving_message (bus s) = Some m ->
  is_first_nibble m = true ->
  is_valid_encoded_byte b = true ->
  _process_byte b s
  = (Return tt,
     set_rx STX_RECEIVED
       (Some (with_is_first_nibble false (with_incoming (Z.land b 240) m))) s).
Proof.
  intros Hst Hm Hf Hv. open_sys s. destruct m.
  cbn [is_first_nibble] in *. subst.
  py_unfold. rewrite Hv. reflexivity.
Qed.

Lemma process_byte_second_nibble (b : Z) (s : Sys) (m : ReceivingMessage) (c : Z) :
  _receiver_state (bus s) = STX_RECEIVED ->
  _receiving_message (bus s) = Some m ->
  is_first_nibble m = false ->
  crc m = Some c ->
  is_valid_encoded_byte b = true ->
  is_byte (Z.lor (incoming m) (Z.land b 15)) ->
  let v := Z.lor (incoming m) (Z.land b 15) in
  _process_byte b s
  = (Return tt,
     set_rx STX_RECEIVED
       (Some (mkReceivingMessage (timestamp m) (dst_address m) (src_address m)
                (transaction_id m) (length m) (Some (Z.lxor c v)) true v
                (payload_buffer m ++ [v]))) s).
Proof.
  intros Hst Hm Hf Hc Hv Hr v. open_sys s. destruct m.
  cbn [is_first_nibble crc incoming] in *. subst.
  pose proof (fun s => bytes1_byte _ s Hr) as Eb.
  py_unfold. rewrite Hv. rewrite Eb. reflexivity.
Qed.

Lemma process_byte_etx (s : Sys) (m : ReceivingMessage) :
  _receiver_state (bus s) = STX_RECEIVED ->
  _receiving_message (bus s) = Some m ->
  _process_byte ETX s
  = (Return tt,
     if py_eq (length m) (Z.of_nat (List.length (payload_buffer m)))
     then set_rx ETX_RECEIVED (Some m) s
     else set_rx IDLE None s).
Proof.
  intros Hst Hm. open_sys s.
  py_unfold. change (is_valid_encoded_byte ETX) with false. cbv iota.
  change (ETX =? ETX) with true. cbv iota.
  destruct m. cbv iota beta.
  match goal with |- context [match ?o with Some x => x =? ?z | None => false end] =>
    destruct (match o with Some x => x =? z | None => false end) end; reflexivity.
Qed.

Lemma process_byte_malformed (b : Z) (s : Sys) :
  _receiver_state (bus s) = STX_RECEIVED ->
  is_valid_encoded_byte b = false -> b <> ETX ->
  _process_byte b s = (Return tt, set_rx IDLE None s).
Proof.
  intros Hst Hv Hb. apply Z.eqb_neq in Hb. open_sys s.
  py_unfold. rewrite Hv, Hb. reflexivity.
Qed.

Lemma process_byte_crc (b : Z) (s : Sys) (m : ReceivingMessage) :
  _receiver_state (bus s) = ETX_RECEIVED ->
  _receiving_message (bus s) = Some m ->
  _process_byte b s
  = (Return tt,
     if py_eq (crc m) b then set_rx CRC_OK (Some m) s else set_rx IDLE None s).
Proof.
  intros Hst Hm. open_sys s. destruct m. py_unfold.
  match goal with |- context [match ?o with Some x => x =? ?z | None => false end] =>
    destruct (match o with Some x => x =? z | None => false end) end; reflexivity.
Qed.

Lemma process_byte_eot (s : Sys) (m : ReceivingMessage) :
  _receiver_state (bus s) = CRC_OK ->
  _receiving_message (bus s) = Some m ->
  _process_byte EOT s
  = (Return tt,
     set_rx IDLE None
       (deliver (mkReceivedMessage (src_address m) (dst_address m)
                   (transaction_id m) (length m) (payload_buffer m)) s)).
Proof.
  intros Hst Hm. open_sys s. destruct m. py_unfold.
  change (EOT =? EOT) with true. reflexivity.
Qed.

Lemma process_byte_no_eot (b : Z) (s : Sys) :
  _receiver_state (bus s) = CRC_OK -> b <> EOT ->
  _process_byte b s = (Return tt, set_rx IDLE None s).
Proof.
  intros Hst Hb. apply Z.eqb_neq in Hb. open_sys s.
  py_unfold. rewrite Hb. reflexivity.
Qed.

(** ** Feeding byte sequences *)

Lemma feed_cons (b : Z) (rest : list Z) (s s' : Sys) :
  _process_byte b s = (Return tt, s') ->
  feed (b :: rest) s = feed rest s'.
Proof.
  intros H. cbn [feed]. unfold bind. rewrite H. reflexivity.
Qed.

Lemma feed_app (l1 l2 : list Z) (s s' : Sys) :
  feed l1 s = (Return tt, s') ->
  feed (l1 ++ l2) s = feed l2 s'.
Proof.
  revert s. induction l1 as [|b l1 IH]; intros s H.
  - inversion H. reflexivity.
  - cbn [feed app] in *. unfold bind in *.
    destruct (_process_byte b s) as [[[]|e] s1]; [|discriminate].
    apply IH. exact H.
Qed.

Lemma high_nibble_byte_valid (p : Z) :
  is_byte p -> is_valid_encoded_byte (high_nibble_byte p) = true.
Proof.
  apply (all_bytes_spec (fun p => is_valid_encoded_byte (high_nibble_byte p))).
  vm_compute. reflexivity.
Qed.

Lemma low_nibble_byte_valid (p : Z) :
  is_byte p -> is_valid_encoded_byte (low_nibble_byte p) = true.
Proof.
  apply (all_bytes_spec (fun p => is_valid_encoded_byte (low_nibble_byte p))).
  vm_compute. reflexivity.
Qed.

Lemma nibbles_decode (p : Z) :
  is_byte p ->
  Z.lor (Z.land (high_nibble_byte p) 240) (Z.land (low_nibble_byte p) 15) = p.
Proof.
  intros H. apply Z.eqb_eq.
  apply (all_bytes_spec (fun p =>
    Z.lor (Z.land (high_nibble_byte p) 240) (Z.land (low_nibble_byte p) 15) =? p));
    [vm_compute; reflexivity | exact H].
Qed.

(** The two wire bytes of one payload byte, met between two payload bytes,
    append that byte to the buffer and fold it into the checksum. *)
Lemma feed_encoded_byte (p : Z) (s : Sys) (m : ReceivingMessage) (c : Z) :
  is_byte p ->
  _receiver_state (bus s) = STX_RECEIVED ->
  _receiving_message (bus s) = Some m ->
  is_first_nibble m = true -> crc m = Some c ->
  feed [high_nibble_byte p; low_nibble_byte p] s
  = (Return tt,
     set_rx STX_RECEIVED
       (Some (mkReceivingMessage (timestamp m) (dst_address m) (src_address m)
                (transaction_id m) (length m) (Some (Z.lxor c p)) true p
                (payload_buffer m ++ [p]))) s).
Proof.
  intros Hp Hst Hm Hf Hc.
  rewrite (feed_cons _ _ _ _
             (process_byte_first_nibble _ s m Hst Hm Hf
                (high_nibble_byte_valid p Hp))).
  erewrite feed_cons.
  2:{ eapply process_byte_second_nibble with (c := c);
        [reflexivity | reflexivity | reflexivity | destruct m; exact Hc
        | apply low_nibble_byte_valid; exact Hp | ].
      destruct m; cbn [incoming with_is_first_nibble with_incoming].
      rewrite nibbles_decode by exact Hp. exact Hp. }
  cbn [feed]. unfold ret. destruct m.
  cbn [incoming with_is_first_nibble with_incoming timestamp dst_address
       src_address transaction_id length payload_buffer].
  rewrite nibbles_decode by exact Hp. reflexivity.
Qed.

Lemma feed_encoded_payload (payload : list Z) :
  Forall is_byte payload ->
  forall (s : Sys) (m : ReceivingMessage) (c : Z),
    _receiver_state (bus s) = STX_RECEIVED ->
    _receiving_message (bus s) = Some m ->
    is_first_nibble m = true -> crc m = Some c ->
    exists v,
      feed (encode_payload payload) s
      = (Return tt,
         set_rx STX_RECEIVED
           (Some (mkReceivingMessage (timestamp m) (dst_address m)
                    (src_address m) (transaction_id m) (length m)
                    (Some (fold_left Z.lxor payload c)) true v
                    (payload_buffer m ++ payload))) s).
Proof.
  induction 1 as [|p rest Hp Hrest IH]; intros s m c Hst Hm Hf Hc.
  - exists (incoming m). cbn [encode_payload flat_map feed fold_left].
    rewrite app_nil_r. unfold ret. f_equal.
    destruct s as [b w]. destruct b. destruct m.
    cbn in *. subst. reflexivity.
  - change (encode_payload (p :: rest))
      with ([high_nibble_byte p; low_nibble_byte p] ++ encode_payload rest).
    rewrite (feed_app _ _ _ _ (feed_encoded_byte p s m c Hp Hst Hm Hf Hc)).
    pose (m' := mkReceivingMessage (timestamp m) (dst_address m) (src_address m)
                  (transaction_id m) (length m) (Some (Z.lxor c p)) true p
                  (payload_buffer m ++ [p])).
    destruct (IH (set_rx STX_RECEIVED (Some m') s) m' (Z.lxor c p)
                 eq_refl eq_refl eq_refl eq_refl) as [v Hv].
    exists v. subst m'. rewrite Hv.
    cbn [timestamp dst_address src_address transaction_id length
         payload_buffer fold_left].
    rewrite <- app_assoc. reflexivity.
Qed.

(** A frame for this node or for everyone, met while idle, is delivered. *)
Lemma feed_wire_frame (src dst tid : Z) (payload : list Z) (s : Sys) :
  (1 <= List.length payload <= 255)%nat ->
  Forall is_byte payload ->
  _receiver_state (bus s) = IDLE ->
  dst = _address (bus s) \/ dst = BROADCAST_ADDRESS ->
  feed (wire_frame src dst tid payload) s
  = (Return tt,
     set_rx IDLE None
       (deliver (mkReceivedMessage (Some src) (Some dst) (Some tid)
                   (Some (Z.of_nat (List.length payload))) payload)
                (clock_tick s))).
Proof.
  intros Hlen Hp Hst Hdst. unfold wire_frame.
  assert (Hlf : LF <> SOH) by discriminate.
  cbn [app].
  do 3 rewrite (feed_cons _ _ _ _ (process_byte_idle_other LF s Hst Hlf)).
  rewrite (feed_cons _ _ _ _ (process_byte_idle_soh s Hst)).
  erewrite feed_cons
    by (eapply process_byte_dest_accept; [reflexivity | reflexivity | exact Hdst]).
  erewrite feed_cons by (eapply process_byte_src; reflexivity).
  erewrite feed_cons by (eapply process_byte_tid; reflexivity).
  erewrite feed_cons
    by (eapply process_byte_len_accept;
        [reflexivity | reflexivity | unfold MAX_MESSAGE_LEN; lia]).
  erewrite feed_cons by (eapply process_byte_stx; reflexivity).
  match goal with |- feed _ (set_rx ?st (Some ?m) ?s0) = _ =>
    destruct (feed_encoded_payload payload Hp (set_rx st (Some m) s0) m _
                eq_refl eq_refl eq_refl eq_refl) as [v Hv]
  end.
  rewrite (feed_app _ _ _ _ Hv).
  erewrite feed_cons by (eapply process_byte_etx; reflexivity).
  cbn [length payload_buffer py_eq app with_crc with_length].
  rewrite Z.eqb_refl.
  erewrite feed_cons by (eapply process_byte_crc; reflexivity).
  cbn [crc py_eq]. unfold frame_crc.
  rewrite (Z.lxor_comm dst src). rewrite Z.eqb_refl.
  erewrite feed_cons by (eapply process_byte_eot; reflexivity).
  erewrite feed_cons
    by (eapply process_byte_idle_other; [reflexivity | exact Hlf]).
  erewrite feed_cons
    by (eapply process_byte_idle_other; [reflexivity | exact Hlf]).
  reflexivity.
Qed.

(** C1: a frame that [send_message] queues for a node, fed byte by byte to
    that node's idle receiver, appends exactly one [ReceivedMessage] to the
    node's inbound queue, carrying the sender's address, the destination,
    the transaction id, the length and the payload given to the encoder;
    this for every payload of 1 to 255 bytes of any values. *)
Theorem encode_decode_roundtrip (sender receiver : Sys) (dst tid : Z)
    (payload : list Z) :
  (1 <= List.length payload <= 255)%nat ->
  Forall is_byte payload ->
  is_byte dst -> is_byte tid -> is_byte (_address (bus sender)) ->
  _receiver_state (bus receiver) = IDLE ->
  _address (bus receiver) = dst ->
  exists (frame : list Z) (sender' receiver' : Sys),
    send_message dst payload tid sender = (Return true, sender')
    /\ _output_messages (bus sender') = _output_messages (bus sender) ++ [frame]
    /\ feed frame receiver = (Return tt, receiver')
    /\ _received_messages (bus receiver')
       = _received_messages (bus receiver)
         ++ [mkReceivedMessage (Some (_address (bus sender))) (Some dst)
               (Some tid) (Some (Z.of_nat (List.length payload))) payload]
    /\ _receiver_state (bus receiver') = IDLE
    /\ _receiving_message (bus receiver') = None.
Proof.
  intros Hlen Hp Hd Ht Ha Hst Haddr.
  eexists. eexists. eexists.
  split; [apply (send_message_ok dst payload tid sender Hlen Hp Hd Ht Ha)|].
  split; [reflexivity|].
  split; [apply (feed_wire_frame _ dst tid payload receiver Hlen Hp Hst);
          left; symmetry; exact Haddr|].
  repeat split.
Qed.

Lemma encode_decode_roundtrip_witness :
  exists (frame : list Z) (sender' receiver' : Sys),
    send_message 5 [0; 1; 2; 3; 4; 10; 255] 7 (sample_node 0)
    = (Return true, sender')
    /\ _output_messages (bus sender')
       = _output_messages (bus (sample_node 0)) ++ [frame]
    /\ feed frame (sample_node 5) = (Return tt, receiver')
    /\ _received_messages (bus receiver')
       = _received_messages (bus (sample_node 5))
         ++ [mkReceivedMessage (Some (_address (bus (sample_node 0)))) (Some 5)
               (Some 7) (Some (Z.of_nat (List.length [0; 1; 2; 3; 4; 10; 255])))
               [0; 1; 2; 3; 4; 10; 255]]
    /\ _receiver_state (bus receiver') = IDLE
    /\ _receiving_message (bus receiver') = None.
Proof.
  apply (encode_decode_roundtrip (sample_node 0) (sample_node 5) 5 7
           [0; 1; 2; 3; 4; 10; 255]).
  - simpl. lia.
  - repeat constructor; unfold is_byte; lia.
  - unfold is_byte; lia.
  - unfold is_byte; lia.
  - unfold is_byte; simpl; lia.
  - reflexivity.
  - reflexivity.
Defined.

(** ** The receiver never raises from a consistent state *)

Lemma land_low_byte (b m : Z) :
  Z.land m 255 = m -> Z.land b m = Z.land (Z.land b 255) m.
Proof.
  intros H. rewrite <- Z.land_assoc, (Z.land_comm 255 m), H. reflexivity.
Qed.

Lemma land_255_byte (b : Z) : is_byte (Z.land b 255).
Proof.
  change 255 with (Z.ones 8). rewrite Z.land_ones by lia.
  unfold is_byte. change (2 ^ 8) with 256. apply Z.mod_pos_bound. lia.
Qed.

Lemma land_240_byte (b : Z) : is_byte (Z.land b 240).
Proof.
  rewrite (land_low_byte b 240) by reflexivity.
  pose proof (all_bytes_spec
    (fun y => (0 <=? Z.land y 240) && (Z.land y 240 <? 256))
    ltac:(vm_compute; reflexivity) _ (land_255_byte b)) as E.
  cbv beta in E. apply andb_prop in E. destruct E as [E1 E2].
  apply Z.leb_le in E1. apply Z.ltb_lt in E2. split; assumption.
Qed.

Lemma lor_land_15_byte (a b : Z) : is_byte a -> is_byte (Z.lor a (Z.land b 15)).
Proof.
  intros Ha. rewrite (land_low_byte b 15) by reflexivity.
  pose proof (all_bytes_spec
    (fun a => all_bytes (fun y =>
       (0 <=? Z.lor a (Z.land y 15)) && (Z.lor a (Z.land y 15) <? 256)))
    ltac:(vm_compute; reflexivity) a Ha) as E.
  cbv beta in E. pose proof (all_bytes_spec _ E _ (land_255_byte b)) as E'.
  cbv beta in E'. apply andb_prop in E'. destruct E' as [E1 E2].
  apply Z.leb_le in E1. apply Z.ltb_lt in E2. split; assumption.
Qed.

Ltac split_conditions :=
  repeat match goal with
         | |- context [if ?c then _ else _] => destruct c eqn:?
         end.

Ltac settle :=
  eexists; (split; [reflexivity|]);
  cbn; unfold fields_ok, is_byte in *; cbn; repeat split;
  try tauto; try lia; try discriminate.

Lemma process_byte_total (b : Z) (s : Sys) :
  receiver_ok (bus s) ->
  exists s',
    _process_byte b s = (Return tt, s')
    /\ receiver_ok (bus s')
    /\ ((_receiver_state (bus s) = IDLE <-> _receiving_message (bus s) = None) ->
        (_receiver_state (bus s') = IDLE <-> _receiving_message (bus s') = None))
    /\ (rank (_receiver_state (bus s')) <= S (rank (_receiver_state (bus s))))%nat
    /\ (_receiver_state (bus s) <> CRC_OK ->
        _received_messages (bus s') = _received_messages (bus s))
    /\ same_outside_receiver s s'.
Proof.
  unfold receiver_ok, same_outside_receiver. intros Hok.
  destruct s as [bu w]. destruct bu as [ba ad tg la st rm rc ou]. destruct w.
  cbn [bus world _receiver_state _receiving_message] in Hok.
  destruct st;
    try (destruct rm as [m|]; [destruct m as [ts d a t l c f inc buf]|contradiction];
         unfold fields_ok in Hok; cbn [incoming dst_address src_address length crc] in Hok;
         destruct Hok as [Hinc Hfields]).
  - (* IDLE *)
    py_unfold. split_conditions; settle.
  - (* SOH_RECEIVED *)
    py_unfold. split_conditions; settle.
  - py_unfold. settle.
  - py_unfold. settle.
  - py_unfold. split_conditions; settle.
  - (* MESSAGE_LEN_RECEIVED *)
    destruct Hfields as (Hd & Ha & Hl).
    destruct d as [d|]; [|congruence]. destruct a as [a|]; [|congruence].
    destruct l as [l|]; [|congruence].
    py_unfold. split_conditions; settle.
  - (* STX_RECEIVED *)
    destruct c as [c|]; [|congruence].
    pose proof (fun s => bytes1_byte _ s (lor_land_15_byte inc b Hinc)) as Eb.
    pose proof (land_240_byte b) as H240.
    pose proof (lor_land_15_byte inc b Hinc) as Hlor.
    py_unfold. destruct (is_valid_encoded_byte b); [destruct f|].
    + settle.
    + rewrite Eb. settle.
    + destruct (b =? ETX); [destruct l as [l|]|];
        split_conditions; settle.
  - (* ETX_RECEIVED *)
    destruct c as [c|]; [|congruence].
    py_unfold. split_conditions; settle.
  - (* CRC_OK *)
    py_unfold. split_conditions; settle.
Qed.

(** ** Byte sequences that deliver nothing *)

Lemma undelivered_cons (b : Z) (l : list Z) (s s' : Sys) :
  _process_byte b s = (Return tt, s') ->
  _received_messages (bus s') = _received_messages (bus s) ->
  undelivered l s' -> undelivered (b :: l) s.
Proof.
  intros Hb Hr (s'' & Hf & Hq). exists s''.
  rewrite (feed_cons _ _ _ _ Hb). split; [exact Hf | congruence].
Qed.

Lemma undelivered_app (l1 l2 : list Z) (s s' : Sys) :
  feed l1 s = (Return tt, s') ->
  _received_messages (bus s') = _received_messages (bus s) ->
  undelivered l2 s' -> undelivered (l1 ++ l2) s.
Proof.
  intros Hb Hr (s'' & Hf & Hq). exists s''.
  rewrite (feed_app _ _ _ _ Hb). split; [exact Hf | congruence].
Qed.

(** A delivery happens on the ninth state only: too short a sequence
    delivers nothing. *)
Lemma undelivered_short (l : list Z) :
  forall s, receiver_ok (bus s) ->
            (rank (_receiver_state (bus s)) + List.length l <= 8)%nat ->
            undelivered l s.
Proof.
  induction l as [|b l IH]; intros s Hok Hlen.
  - exists s. split; reflexivity.
  - destruct (process_byte_total b s Hok) as (s' & Hb & Hok' & _ & Hrank & Hq & _).
    cbn [List.length] in Hlen.
    apply (undelivered_cons b l s s' Hb).
    + apply Hq. intros E. rewrite E in Hlen. cbn [rank] in Hlen. lia.
    + apply IH; [exact Hok' | lia].
Qed.

(** While idle, bytes other than SOH pass unnoticed. *)
Lemma undelivered_idle (l1 l2 : list Z) (s : Sys) :
  _receiver_state (bus s) = IDLE ->
  Forall (fun b => b <> SOH) l1 -> (List.length l2 <= 8)%nat ->
  undelivered (l1 ++ l2) s.
Proof.
  intros Hst Hl1 Hl2. induction Hl1 as [|b l1 Hb Hl1 IH].
  - apply undelivered_short; [unfold receiver_ok; rewrite Hst; exact I|].
    rewrite Hst. exact Hl2.
  - cbn [app].
    apply (undelivered_cons b _ s s (process_byte_idle_other b s Hst Hb) eq_refl IH).
Qed.

Lemma valid_encoded_byte_facts (b : Z) :
  is_valid_encoded_byte b = true ->
  is_byte b /\ 0 < b /\ b <> SOH /\ b <> STX /\ b <> ETX /\ b <> EOT.
Proof.
  intros Hv.
  assert (Hb : is_byte b).
  { unfold is_valid_encoded_byte in Hv. apply Z.eqb_eq in Hv.
    rewrite <- Hv. apply land_255_byte. }
  pose proof (all_bytes_spec
    (fun b => implb (is_valid_encoded_byte b)
                (negb (b =? 0) && negb (b =? SOH) && negb (b =? STX)
                 && negb (b =? ETX) && negb (b =? EOT)))
    ltac:(vm_compute; reflexivity) b Hb) as E.
  cbv beta in E. rewrite Hv in E. cbn [implb] in E.
  repeat (apply andb_prop in E; destruct E as [E ?]).
  repeat match goal with
         | H : negb (_ =? _) = true |- _ =>
             apply negb_true_iff in H; apply Z.eqb_neq in H
         end.
  unfold is_byte in *. repeat split; try assumption; lia.
Qed.

Lemma encode_payload_valid (payload : list Z) :
  Forall is_byte payload ->
  Forall (fun b => is_valid_encoded_byte b = true) (encode_payload payload).
Proof.
  induction 1 as [|p rest Hp Hrest IH]; cbn [encode_payload flat_map app].
  - constructor.
  - constructor; [apply high_nibble_byte_valid; exact Hp|].
    constructor; [apply low_nibble_byte_valid; exact Hp | exact IH].
Qed.

Lemma encode_payload_no_soh (payload : list Z) :
  Forall is_byte payload ->
  Forall (fun b => b <> SOH) (encode_payload payload).
Proof.
  intros Hp. eapply Forall_impl; [|apply encode_payload_valid; exact Hp].
  intros b Hv. apply (valid_encoded_byte_facts b Hv).
Qed.

(** The rest of a frame, from anywhere in its body on, delivers nothing to
    an idle receiver. *)
Lemma undelivered_body_tail (rest : list Z) (c : Z) (s : Sys) :
  Forall is_byte rest ->
  _receiver_state (bus s) = IDLE ->
  undelivered (encode_payload rest ++ [ETX; c; EOT; LF; LF]) s.
Proof.
  intros Hp Hst.
  change [ETX; c; EOT; LF; LF] with ([ETX] ++ [c; EOT; LF; LF]).
  rewrite app_assoc. apply undelivered_idle; [exact Hst| |cbn; lia].
  apply Forall_app. split; [apply encode_payload_no_soh; exact Hp|].
  constructor; [discriminate | constructor].
Qed.

Lemma undelivered_skip (b : Z) (l : list Z) (s : Sys) :
  _receiver_state (bus s) = IDLE -> b <> SOH ->
  undelivered l s -> undelivered (b :: l) s.
Proof.
  intros Hst Hb H.
  apply (undelivered_cons b l s s (process_byte_idle_other b s Hst Hb) eq_refl H).
Qed.

(** From [MESSAGE_LEN_RECEIVED], a byte of the body where STX is due drops
    the reception, and the rest of the frame goes by. *)
Lemma undelivered_body_for_stx (rest : list Z) (c : Z) (s : Sys) :
  Forall is_byte rest ->
  _receiver_state (bus s) = MESSAGE_LEN_RECEIVED ->
  undelivered (encode_payload rest ++ [ETX; c; EOT; LF; LF]) s.
Proof.
  intros Hp Hst. destruct Hp as [|p rest Hp Hrest].
  - cbn [encode_payload flat_map app].
    eapply undelivered_cons;
      [apply (process_byte_no_stx ETX s Hst); discriminate | reflexivity |].
    apply undelivered_short; [exact I | cbn; lia].
  - cbn [encode_payload flat_map app].
    eapply undelivered_cons;
      [apply (process_byte_no_stx _ s Hst);
       apply (valid_encoded_byte_facts _ (high_nibble_byte_valid p Hp))
      | reflexivity |].
    apply undelivered_skip;
      [reflexivity
      | apply (valid_encoded_byte_facts _ (low_nibble_byte_valid p Hp)) |].
    apply undelivered_body_tail; [exact Hrest | reflexivity].
Qed.

Ltac step lem :=
  eapply undelivered_cons; [eapply lem; try reflexivity | reflexivity | ].

Ltac nibble_fact p Hp :=
  first [ apply (valid_encoded_byte_facts _ (high_nibble_byte_valid p Hp))
        | apply (valid_encoded_byte_facts _ (low_nibble_byte_valid p Hp)) ].

Lemma nibble_as_length (b : Z) :
  is_valid_encoded_byte b = true -> 0 < b <= MAX_MESSAGE_LEN.
Proof.
  intros Hv. destruct (valid_encoded_byte_facts b Hv) as (Hb & Hpos & _).
  unfold is_byte, MAX_MESSAGE_LEN in *. lia.
Qed.

(** The four ways the header bytes of a frame can look like a start of
    frame to an idle receiver; none leads to a delivery. *)
Lemma undelivered_from_len (payload : list Z) (c : Z) (s : Sys) :
  (1 <= List.length payload <= 255)%nat -> Forall is_byte payload ->
  _receiver_state (bus s) = IDLE ->
  undelivered (Z.of_nat (List.length payload) :: STX
               :: encode_payload payload ++ [ETX; c; EOT; LF; LF]) s.
Proof.
  intros Hlen Hp Hst.
  destruct (Z.eq_dec (Z.of_nat (List.length payload)) SOH) as [E|N].
  - destruct payload as [|p [|p2 r]]; cbn [List.length] in *;
      unfold SOH in E; try lia.
    inversion Hp as [|? ? Hp1 _]; subst.
    change (Z.of_nat 1) with SOH.
    step process_byte_idle_soh; [exact Hst|].
    destruct (Z.eq_dec STX (_address (bus s))) as [Ea|Na].
    + step process_byte_dest_accept; [left; exact Ea|].
      cbn [encode_payload flat_map app].
      step process_byte_src. step process_byte_tid.
      step process_byte_len_accept; [unfold ETX, MAX_MESSAGE_LEN; lia|].
      destruct (Z.eq_dec c STX) as [Ec|Nc].
      * subst c. step process_byte_stx.
        step process_byte_malformed; [discriminate|].
        apply undelivered_short; [exact I | cbn; lia].
      * step process_byte_no_stx; [exact Nc|].
        apply undelivered_short; [exact I | cbn; lia].
    + step process_byte_dest_reject; [exact Na | discriminate|].
      apply undelivered_body_tail; [exact Hp | reflexivity].
  - apply undelivered_skip; [exact Hst | exact N|].
    apply undelivered_skip; [exact Hst | discriminate|].
    apply undelivered_body_tail; [exact Hp | exact Hst].
Qed.

Lemma undelivered_from_tid (tid : Z) (payload : list Z) (c : Z) (s : Sys) :
  (1 <= List.length payload <= 255)%nat -> Forall is_byte payload ->
  _receiver_state (bus s) = IDLE ->
  undelivered (tid :: Z.of_nat (List.length payload) :: STX
               :: encode_payload payload ++ [ETX; c; EOT; LF; LF]) s.
Proof.
  intros Hlen Hp Hst.
  destruct (Z.eq_dec tid SOH) as [E|N].
  - subst tid. step process_byte_idle_soh; [exact Hst|].
    set (len := Z.of_nat (List.length payload)).
    destruct (Z.eq_dec len (_address (bus s))) as [Ea|Na];
      [|destruct (Z.eq_dec len BROADCAST_ADDRESS) as [Eb|Nb]].
    3:{ step process_byte_dest_reject; [exact Na | exact Nb|].
        apply undelivered_skip; [reflexivity | discriminate|].
        apply undelivered_body_tail; [exact Hp | reflexivity]. }
    all: (step process_byte_dest_accept; [first [left; exact Ea | right; exact Eb]|]);
      step process_byte_src;
      destruct Hp as [|p rest Hp1 Hrest]; [cbn in Hlen; lia|];
      cbn [encode_payload flat_map app];
      step process_byte_tid;
      (step process_byte_len_accept;
         [apply nibble_as_length; apply low_nibble_byte_valid; exact Hp1|]);
      apply undelivered_body_for_stx; [exact Hrest | reflexivity].
  - apply undelivered_skip; [exact Hst | exact N|].
    apply undelivered_from_len; assumption.
Qed.

Lemma undelivered_from_src (src tid : Z) (payload : list Z) (c : Z) (s : Sys) :
  (1 <= List.length payload <= 255)%nat -> Forall is_byte payload ->
  _receiver_state (bus s) = IDLE ->
  undelivered (src :: tid :: Z.of_nat (List.length payload) :: STX
               :: encode_payload payload ++ [ETX; c; EOT; LF; LF]) s.
Proof.
  intros Hlen Hp Hst.
  destruct (Z.eq_dec src SOH) as [E|N].
  - subst src. step process_byte_idle_soh; [exact Hst|].
    destruct (Z.eq_dec tid (_address (bus s))) as [Ea|Na];
      [|destruct (Z.eq_dec tid BROADCAST_ADDRESS) as [Eb|Nb]].
    3:{ step process_byte_dest_reject; [exact Na | exact Nb|].
        apply undelivered_from_len; [exact Hlen | exact Hp | reflexivity]. }
    all: (step process_byte_dest_accept; [first [left; exact Ea | right; exact Eb]|]);
      step process_byte_src; step process_byte_tid;
      destruct Hp as [|p rest Hp1 Hrest]; [cbn in Hlen; lia|];
      cbn [encode_payload flat_map app];
      (step process_byte_len_accept;
         [apply nibble_as_length; apply high_nibble_byte_valid; exact Hp1|]);
      (step process_byte_no_stx; [nibble_fact p Hp1|]);
      apply undelivered_body_tail; [exact Hrest | reflexivity].
  - apply undelivered_skip; [exact Hst | exact N|].
    apply undelivered_from_tid; assumption.
Qed.

Lemma undelivered_from_dst (dst src tid : Z) (payload : list Z) (c : Z) (s : Sys) :
  (1 <= List.length payload <= 255)%nat -> Forall is_byte payload ->
  _receiver_state (bus s) = IDLE ->
  undelivered (dst :: src :: tid :: Z.of_nat (List.length payload) :: STX
               :: encode_payload payload ++ [ETX; c; EOT; LF; LF]) s.
Proof.
  intros Hlen Hp Hst.
  destruct (Z.eq_dec dst SOH) as [E|N].
  - subst dst. step process_byte_idle_soh; [exact Hst|].
    destruct (Z.eq_dec src (_address (bus s))) as [Ea|Na];
      [|destruct (Z.eq_dec src BROADCAST_ADDRESS) as [Eb|Nb]].
    3:{ step process_byte_dest_reject; [exact Na | exact Nb|].
        apply undelivered_from_tid; [exact Hlen | exact Hp | reflexivity]. }
    all: (step process_byte_dest_accept; [first [left; exact Ea | right; exact Eb]|]);
      step process_byte_src; step process_byte_tid;
      (step process_byte_len_accept; [unfold STX, MAX_MESSAGE_LEN; lia|]);
      apply undelivered_body_for_stx; [exact Hp | reflexivity].
  - apply undelivered_skip; [exact Hst | exact N|].
    apply undelivered_from_src; assumption.
Qed.

(** ** Frames with one byte replaced *)

Lemma feed_header (d a t l : Z) (s : Sys) :
  _receiver_state (bus s) = IDLE ->
  d = _address (bus s) \/ d = BROADCAST_ADDRESS ->
  0 < l <= MAX_MESSAGE_LEN ->
  feed [LF; LF; LF; SOH; d; a; t; l] s
  = (Return tt,
     set_rx MESSAGE_LEN_RECEIVED
       (Some (mkReceivingMessage (now s) (Some d) (Some a) (Some t) (Some l)
                None true 0 []))
       (clock_tick s)).
Proof.
  intros Hst Hd Hl.
  assert (Hlf : LF <> SOH) by discriminate.
  do 3 rewrite (feed_cons _ _ _ _ (process_byte_idle_other LF s Hst Hlf)).
  rewrite (feed_cons _ _ _ _ (process_byte_idle_soh s Hst)).
  erewrite feed_cons
    by (eapply process_byte_dest_accept; [reflexivity | reflexivity | exact Hd]).
  erewrite feed_cons by (eapply process_byte_src; reflexivity).
  erewrite feed_cons by (eapply process_byte_tid; reflexivity).
  erewrite feed_cons
    by (eapply process_byte_len_accept; [reflexivity | reflexivity | exact Hl]).
  reflexivity.
Qed.

Lemma feed_header_body (d a t l : Z) (body : list Z) (s : Sys) :
  _receiver_state (bus s) = IDLE ->
  d = _address (bus s) \/ d = BROADCAST_ADDRESS ->
  0 < l <= MAX_MESSAGE_LEN ->
  Forall is_byte body ->
  exists v,
    feed ([LF; LF; LF; SOH; d; a; t; l] ++ STX :: encode_payload body) s
    = (Return tt,
       set_rx STX_RECEIVED
         (Some (mkReceivingMessage (now s) (Some d) (Some a) (Some t) (Some l)
                  (Some (fold_left Z.lxor body (Z.lxor (Z.lxor d a) l)))
                  true v body))
         (clock_tick s)).
Proof.
  intros Hst Hd Hl Hp.
  rewrite (feed_app _ _ _ _ (feed_header d a t l s Hst Hd Hl)).
  erewrite feed_cons by (eapply process_byte_stx; reflexivity).
  match goal with |- context [feed _ (set_rx ?st (Some ?m) ?s0)] =>
    destruct (feed_encoded_payload body Hp (set_rx st (Some m) s0) m _
                eq_refl eq_refl eq_refl eq_refl) as [v Hv]
  end.
  exists v. rewrite Hv. reflexivity.
Qed.

(** A well-formed body followed by a checksum byte that is not its
    checksum. *)
Lemma undelivered_bad_crc (d a t : Z) (body : list Z) (c : Z) (s : Sys) :
  _receiver_state (bus s) = IDLE ->
  d = _address (bus s) \/ d = BROADCAST_ADDRESS ->
  (1 <= List.length body <= 255)%nat -> Forall is_byte body ->
  c <> fold_left Z.lxor body
         (Z.lxor (Z.lxor d a) (Z.of_nat (List.length body))) ->
  undelivered ([LF; LF; LF; SOH; d; a; t; Z.of_nat (List.length body)]
               ++ STX :: encode_payload body ++ [ETX; c; EOT; LF; LF]) s.
Proof.
  intros Hst Hd Hlen Hp Hc.
  assert (Hl : 0 < Z.of_nat (List.length body) <= MAX_MESSAGE_LEN)
    by (unfold MAX_MESSAGE_LEN; lia).
  destruct (feed_header_body d a t _ body s Hst Hd Hl Hp) as [v Hv].
  rewrite app_comm_cons, app_assoc.
  eapply undelivered_app; [exact Hv | reflexivity |].
  eapply undelivered_cons; [eapply process_byte_etx; reflexivity | |].
  { cbn [length payload_buffer py_eq]. rewrite Z.eqb_refl. reflexivity. }
  cbn [length payload_buffer py_eq]. rewrite Z.eqb_refl.
  eapply undelivered_cons; [eapply process_byte_crc; reflexivity | |].
  { cbn [crc py_eq]. destruct (_ =? c); reflexivity. }
  cbn [crc py_eq].
  replace (_ =? c) with false by (symmetry; apply Z.eqb_neq; congruence).
  apply undelivered_short; [exact I | cbn; lia].
Qed.

(** A well-formed body under a declared length that is not its length. *)
Lemma undelivered_bad_length (d a t l : Z) (body : list Z) (c : Z) (s : Sys) :
  _receiver_state (bus s) = IDLE ->
  d = _address (bus s) \/ d = BROADCAST_ADDRESS ->
  0 < l <= MAX_MESSAGE_LEN -> l <> Z.of_nat (List.length body) ->
  Forall is_byte body ->
  undelivered ([LF; LF; LF; SOH; d; a; t; l]
               ++ STX :: encode_payload body ++ [ETX; c; EOT; LF; LF]) s.
Proof.
  intros Hst Hd Hl Hne Hp.
  destruct (feed_header_body d a t l body s Hst Hd Hl Hp) as [v Hv].
  rewrite app_comm_cons, app_assoc.
  eapply undelivered_app; [exact Hv | reflexivity |].
  apply Z.eqb_neq in Hne.
  eapply undelivered_cons; [eapply process_byte_etx; reflexivity | |];
    cbn [length payload_buffer py_eq]; rewrite Hne; [reflexivity|].
  apply undelivered_short; [exact I | cbn; lia].
Qed.

Lemma lxor_cancel_r (a b c : Z) : Z.lxor a c = Z.lxor b c -> a = b.
Proof.
  intros H. apply (f_equal (fun z => Z.lxor z c)) in H.
  rewrite !Z.lxor_assoc, Z.lxor_nilpotent, !Z.lxor_0_r in H. exact H.
Qed.

Lemma fold_lxor_inj (l : list Z) (a b : Z) :
  fold_left Z.lxor l a = fold_left Z.lxor l b -> a = b.
Proof.
  revert a b. induction l as [|x l IH]; intros a b H; [exact H|].
  cbn [fold_left] in H. apply IH in H. apply (lxor_cancel_r _ _ _ H).
Qed.

Lemma fold_lxor_differs (l1 l2 : list Z) (p q c : Z) :
  p <> q ->
  fold_left Z.lxor (l1 ++ p :: l2) c <> fold_left Z.lxor (l1 ++ q :: l2) c.
Proof.
  intros Hpq H. rewrite !fold_left_app in H. cbn [fold_left] in H.
  apply fold_lxor_inj in H. rewrite !(Z.lxor_comm (fold_left _ _ _)) in H.
  apply lxor_cancel_r in H. contradiction.
Qed.

Lemma corrupt_app_l (j : nat) (x : Z) (l1 l2 : list Z) :
  (j < List.length l1)%nat -> corrupt j x (l1 ++ l2) = corrupt j x l1 ++ l2.
Proof.
  revert j. induction l1 as [|b l1 IH]; intros j Hj; [cbn in Hj; lia|].
  destruct j as [|j]; [reflexivity|].
  cbn [corrupt app]. rewrite IH by (cbn in Hj; lia). reflexivity.
Qed.

Lemma encode_payload_length (payload : list Z) :
  List.length (encode_payload payload) = (2 * List.length payload)%nat.
Proof.
  induction payload as [|p rest IH]; [reflexivity|].
  change (encode_payload (p :: rest))
    with (high_nibble_byte p :: low_nibble_byte p :: encode_payload rest).
  cbn [List.length]. rewrite IH. lia.
Qed.

Lemma encode_payload_app (l1 l2 : list Z) :
  encode_payload (l1 ++ l2) = encode_payload l1 ++ encode_payload l2.
Proof. apply flat_map_app. Qed.

(** A position in the encoded body is the high or the low wire byte of one
    payload byte. *)
Lemma corrupt_encode_payload (payload : list Z) :
  forall (j : nat) (x : Z),
    (j < 2 * List.length payload)%nat ->
    exists l1 p l2,
      payload = l1 ++ p :: l2
      /\ ((corrupt j x (encode_payload payload)
           = encode_payload l1 ++ x :: low_nibble_byte p :: encode_payload l2
           /\ nth j (encode_payload payload) 0 = high_nibble_byte p)
          \/ (corrupt j x (encode_payload payload)
              = encode_payload l1 ++ high_nibble_byte p :: x :: encode_payload l2
              /\ nth j (encode_payload payload) 0 = low_nibble_byte p)).
Proof.
  induction payload as [|p rest IH]; intros j x Hj; [cbn in Hj; lia|].
  destruct j as [|[|j]].
  - exists [], p, rest. split; [reflexivity|]. left. split; reflexivity.
  - exists [], p, rest. split; [reflexivity|]. right. split; reflexivity.
  - destruct (IH j x) as (l1 & q & l2 & E & H); [cbn in Hj; lia|].
    exists (p :: l1), q, l2. split; [rewrite E; reflexivity|].
    change (encode_payload (p :: rest))
      with (high_nibble_byte p :: low_nibble_byte p :: encode_payload rest).
    change (encode_payload (p :: l1))
      with (high_nibble_byte p :: low_nibble_byte p :: encode_payload l1).
    cbn [app corrupt nth].
    destruct H as [[H1 H2]|[H1 H2]]; [left|right];
      (split; [rewrite H1; reflexivity | exact H2]).
Qed.

Lemma decode_valid_pair (x y : Z) :
  is_valid_encoded_byte x = true -> is_valid_encoded_byte y = true ->
  let v := Z.lor (Z.land x 240) (Z.land y 15) in
  is_byte v /\ high_nibble_byte v = x /\ low_nibble_byte v = y.
Proof.
  intros Hx Hy v.
  destruct (valid_encoded_byte_facts x Hx) as (Bx & _).
  destruct (valid_encoded_byte_facts y Hy) as (By & _).
  split; [apply lor_land_15_byte, land_240_byte|].
  pose proof (all_bytes_spec
    (fun x => all_bytes (fun y =>
       implb (is_valid_encoded_byte x && is_valid_encoded_byte y)
         ((high_nibble_byte (Z.lor (Z.land x 240) (Z.land y 15)) =? x)
          && (low_nibble_byte (Z.lor (Z.land x 240) (Z.land y 15)) =? y))))
    ltac:(vm_compute; reflexivity) x Bx) as E.
  cbv beta in E. pose proof (all_bytes_spec _ E y By) as E'.
  cbv beta in E'. rewrite Hx, Hy in E'. cbn [andb implb] in E'.
  apply andb_prop in E'. destruct E' as [E1 E2].
  apply Z.eqb_eq in E1, E2. split; assumption.
Qed.

(** A replaced byte of the encoded body. *)
Lemma undelivered_corrupt_body (src dst tid : Z) (payload : list Z) (s : Sys)
    (j : nat) (x : Z) :
  (1 <= List.length payload <= 255)%nat -> Forall is_byte payload ->
  _receiver_state (bus s) = IDLE ->
  dst = _address (bus s) \/ dst = BROADCAST_ADDRESS ->
  (j < 2 * List.length payload)%nat ->
  nth j (encode_payload payload) 0 <> x ->
  undelivered ([LF; LF; LF; SOH; dst; src; tid; Z.of_nat (List.length payload)]
               ++ STX :: corrupt j x (encode_payload payload)
               ++ [ETX; frame_crc src dst payload; EOT; LF; LF]) s.
Proof.
  intros Hlen Hp Hst Hd Hj Hx.
  assert (Hl : 0 < Z.of_nat (List.length payload) <= MAX_MESSAGE_LEN)
    by (unfold MAX_MESSAGE_LEN; lia).
  destruct (corrupt_encode_payload payload j x Hj) as (l1 & p & l2 & E & H).
  assert (Hp' : Forall is_byte (l1 ++ p :: l2)) by (rewrite <- E; exact Hp).
  apply Forall_app in Hp'. destruct Hp' as [Hl1 Hpl2].
  inversion Hpl2 as [|? ? Hpb Hl2]; subst.
  assert (Hshort : Z.of_nat (List.length l1)
                   <> Z.of_nat (List.length (l1 ++ p :: l2))).
  { rewrite length_app. cbn [List.length]. lia. }
  apply not_eq_sym in Hshort. apply Z.eqb_neq in Hshort.
  destruct (is_valid_encoded_byte x) eqn:Hv.
  - (* still a wire byte: another payload of the same length *)
    assert (exists q, q <> p /\ is_byte q
                      /\ corrupt j x (encode_payload (l1 ++ p :: l2))
                         = encode_payload (l1 ++ q :: l2)) as (q & Hq & Bq & Eq).
    { destruct H as [[H1 H2]|[H1 H2]]; rewrite H2 in Hx.
      - destruct (decode_valid_pair x (low_nibble_byte p) Hv
                    (low_nibble_byte_valid p Hpb)) as (Bv & Hh & Hw).
        eexists. split; [|split; [exact Bv|]].
        + intros Eq. rewrite Eq in Hh. congruence.
        + rewrite H1, encode_payload_app.
          change (encode_payload (?v :: l2))
            with (high_nibble_byte v :: low_nibble_byte v :: encode_payload l2).
          rewrite Hh, Hw. reflexivity.
      - destruct (decode_valid_pair (high_nibble_byte p) x
                    (high_nibble_byte_valid p Hpb) Hv) as (Bv & Hh & Hw).
        eexists. split; [|split; [exact Bv|]].
        + intros Eq. rewrite Eq in Hw. congruence.
        + rewrite H1, encode_payload_app.
          change (encode_payload (?v :: l2))
            with (high_nibble_byte v :: low_nibble_byte v :: encode_payload l2).
          rewrite Hh, Hw. reflexivity. }
    rewrite Eq.
    assert (Elen : List.length (l1 ++ p :: l2) = List.length (l1 ++ q :: l2))
      by (rewrite !length_app; reflexivity).
    rewrite Elen. apply undelivered_bad_crc; [exact Hst | exact Hd | lia | |].
    + apply Forall_app. split; [exact Hl1 | constructor; assumption].
    + unfold frame_crc. rewrite <- Elen, (Z.lxor_comm src dst).
      apply fold_lxor_differs. congruence.
  - (* no wire byte: the reception is dropped on the spot *)
    destruct (feed_header_body dst src tid _ l1 s Hst Hd Hl Hl1) as [v Hv1].
    assert (Hdrop : forall s1 m,
               _receiver_state (bus s1) = STX_RECEIVED ->
               _receiving_message (bus s1) = Some m ->
               length m = Some (Z.of_nat (List.length (l1 ++ p :: l2))) ->
               payload_buffer m = l1 ->
               _process_byte x s1 = (Return tt, set_rx IDLE None s1)).
    { intros s1 m Hs1 Hm1 Hlm Hbuf. destruct (Z.eq_dec x ETX) as [Ex|Nx].
      - subst x. rewrite (process_byte_etx s1 m Hs1 Hm1).
        rewrite Hlm, Hbuf. cbn [py_eq]. rewrite Hshort. reflexivity.
      - apply process_byte_malformed; assumption. }
    destruct H as [[H1 _]|[H1 _]]; rewrite H1.
    + rewrite <- app_assoc, app_comm_cons, app_assoc.
      eapply undelivered_app; [exact Hv1 | reflexivity |].
      cbn [app].
      eapply undelivered_cons; [eapply Hdrop; reflexivity | reflexivity |].
      apply undelivered_skip; [reflexivity | nibble_fact p Hpb |].
      apply undelivered_body_tail; [exact Hl2 | reflexivity].
    + rewrite <- app_assoc, app_comm_cons, app_assoc.
      eapply undelivered_app; [exact Hv1 | reflexivity |].
      cbn [app].
      eapply undelivered_cons;
        [eapply process_byte_first_nibble;
           [reflexivity | reflexivity | reflexivity
           | apply high_nibble_byte_valid; exact Hpb]
        | reflexivity |].
      eapply undelivered_cons; [eapply Hdrop; reflexivity | reflexivity |].
      apply undelivered_body_tail; [exact Hl2 | reflexivity].
Qed.

(** C2, as stated, fails, in two ways.  The transaction id is not part of
    the checksum, so a frame whose transaction-id byte was replaced is
    delivered, with the wrong transaction id.  And header bytes travel
    unencoded, so in a frame for another node (here from node 1 to node 11,
    read by node 5) the source byte 1 reads as a start-of-frame marker once
    the real reception has been dropped; with one wire byte of the payload
    replaced by 2, the bytes that follow read as a whole frame for node 5,
    checksum included, and are delivered. *)
Lemma corrupted_frames_are_delivered :
  (let frame := wire_frame 0 5 7 [104; 105] in
   nth 6 frame 0 = 7
   /\ exists s',
        feed (corrupt 6 9 frame) (sample_node 5) = (Return tt, s')
        /\ _received_messages (bus s')
           = _received_messages (bus (sample_node 5))
             ++ [mkReceivedMessage (Some 0) (Some 5) (Some 9) (Some 2)
                   [104; 105]])
  /\ (let frame := wire_frame 1 11 5 (0 :: repeat 7 15) in
      nth 10 frame 0 = low_nibble_byte 0
      /\ undelivered frame (sample_node 5)
      /\ exists s',
           feed (corrupt 10 2 frame) (sample_node 5) = (Return tt, s')
           /\ _received_messages (bus s')
              = _received_messages (bus (sample_node 5))
                ++ [mkReceivedMessage (Some 16) (Some 5) (Some 2) (Some 15)
                      (repeat 7 15)]).
Proof.
  split.
  - split; [reflexivity|].
    exists (set_rx IDLE None
              (deliver (mkReceivedMessage (Some 0) (Some 5) (Some 9) (Some 2)
                          [104; 105])
                       (clock_tick (sample_node 5)))).
    split; vm_compute; reflexivity.
  - split; [reflexivity|]. split.
    + exists (clock_tick (clock_tick (sample_node 5))).
      split; vm_compute; reflexivity.
    + exists (set_rx IDLE None
                (deliver (mkReceivedMessage (Some 16) (Some 5) (Some 2)
                            (Some 15) (repeat 7 15))
                         (clock_tick (clock_tick (sample_node 5))))).
      split; vm_compute; reflexivity.
Qed.

(** C2, amended: for a frame addressed to the node or to everyone, replacing
    any one byte from the start-of-frame marker to the last byte of the
    encoded payload, the transaction-id byte excepted, by a different value
    makes the receiver deliver nothing: feeding the frame returns and the
    inbound queue is as before. *)
Theorem corrupted_frame_discarded (src dst tid : Z) (payload : list Z)
    (s : Sys) (i : nat) (x : Z) :
  (1 <= List.length payload <= 255)%nat -> Forall is_byte payload ->
  _receiver_state (bus s) = IDLE ->
  dst = _address (bus s) \/ dst = BROADCAST_ADDRESS ->
  (3 <= i < 9 + 2 * List.length payload)%nat -> i <> 6%nat ->
  nth i (wire_frame src dst tid payload) 0 <> x ->
  exists s',
    feed (corrupt i x (wire_frame src dst tid payload)) s = (Return tt, s')
    /\ _received_messages (bus s') = _received_messages (bus s).
Proof.
  intros Hlen Hp Hst Hd Hi Hi6 Hx.
  change (undelivered (corrupt i x (wire_frame src dst tid payload)) s).
  assert (Hl : 0 < Z.of_nat (List.length payload) <= MAX_MESSAGE_LEN)
    by (unfold MAX_MESSAGE_LEN; lia).
  assert (Hlf : LF <> SOH) by discriminate.
  unfold wire_frame in *. cbn [app] in *.
  destruct i as [|[|[|[|[|[|[|[|[|j]]]]]]]]]; try lia; cbn [corrupt nth] in *.
  - (* the start-of-frame marker *)
    do 3 (apply undelivered_skip; [exact Hst | exact Hlf |]).
    apply undelivered_skip; [exact Hst | congruence |].
    apply undelivered_from_dst; assumption.
  - (* the destination *)
    destruct (Z.eq_dec x (_address (bus s))) as [Ea|Na];
      [|destruct (Z.eq_dec x BROADCAST_ADDRESS) as [Eb|Nb]].
    3:{ do 3 (apply undelivered_skip; [exact Hst | exact Hlf |]).
        step process_byte_idle_soh; [exact Hst|].
        step process_byte_dest_reject; [exact Na | exact Nb|].
        apply undelivered_from_src; [exact Hlen | exact Hp | reflexivity]. }
    all: apply (undelivered_bad_crc x src tid payload _ s Hst);
      [first [left; exact Ea | right; exact Eb] | exact Hlen | exact Hp|];
      unfold frame_crc; intros E; apply fold_lxor_inj, lxor_cancel_r in E;
      rewrite (Z.lxor_comm x src) in E;
      rewrite !(Z.lxor_comm src) in E; apply lxor_cancel_r in E; congruence.
  - (* the source *)
    apply (undelivered_bad_crc dst x tid payload _ s Hst Hd Hlen Hp).
    unfold frame_crc. intros E. apply fold_lxor_inj, lxor_cancel_r in E.
    rewrite (Z.lxor_comm src dst) in E.
    rewrite !(Z.lxor_comm dst) in E. apply lxor_cancel_r in E. congruence.
  - (* the declared length *)
    destruct (Z_lt_le_dec 0 x) as [Hpos|Hneg];
      [destruct (Z_le_gt_dec x MAX_MESSAGE_LEN) as [Hle|Hgt]|].
    + apply (undelivered_bad_length dst src tid x payload _ s Hst Hd);
        [lia | congruence | exact Hp].
    + do 3 (apply undelivered_skip; [exact Hst | exact Hlf |]).
      step process_byte_idle_soh; [exact Hst|].
      step process_byte_dest_accept; [exact Hd|].
      step process_byte_src. step process_byte_tid.
      step process_byte_len_reject; [lia|].
      apply undelivered_skip; [reflexivity | discriminate |].
      apply undelivered_body_tail; [exact Hp | reflexivity].
    + do 3 (apply undelivered_skip; [exact Hst | exact Hlf |]).
      step process_byte_idle_soh; [exact Hst|].
      step process_byte_dest_accept; [exact Hd|].
      step process_byte_src. step process_byte_tid.
      step process_byte_len_reject; [lia|].
      apply undelivered_skip; [reflexivity | discriminate |].
      apply undelivered_body_tail; [exact Hp | reflexivity].
  - (* the start-of-body marker *)
    change (undelivered
              ([LF; LF; LF; SOH; dst; src; tid; Z.of_nat (List.length payload)]
               ++ x :: encode_payload payload
                    ++ [ETX; frame_crc src dst payload; EOT; LF; LF]) s).
    eapply undelivered_app;
      [apply (feed_header dst src tid _ s Hst Hd Hl) | reflexivity |].
    step process_byte_no_stx; [congruence|].
    apply undelivered_body_tail; [exact Hp | reflexivity].
  - (* the encoded payload *)
    assert (Hj : (j < 2 * List.length payload)%nat) by lia.
    rewrite app_nth1 in Hx by (rewrite encode_payload_length; exact Hj).
    rewrite corrupt_app_l by (rewrite encode_payload_length; exact Hj).
    apply (undelivered_corrupt_body src dst tid payload s j x
             Hlen Hp Hst Hd Hj Hx).
Qed.

Lemma corrupted_frame_discarded_witness :
  exists s',
    feed (corrupt 10 3 (wire_frame 0 5 7 [104; 105])) (sample_node 5)
    = (Return tt, s')
    /\ _received_messages (bus s') = _received_messages (bus (sample_node 5)).
Proof.
  apply (corrupted_frame_discarded 0 5 7 [104; 105] (sample_node 5) 10 3).
  - simpl. lia.
  - repeat constructor; unfold is_byte; lia.
  - reflexivity.
  - left. reflexivity.
  - simpl. lia.
  - discriminate.
  - vm_compute. discriminate.
Defined.

(** ** The length check ignores a half-assembled byte *)

(** C10: there is an input whose body holds an odd number of valid wire
    bytes, two that make up the payload byte 0 and one more, left unpaired,
    and which the receiver delivers as a complete message; and on the
    end-of-body marker the receiver goes on to [ETX_RECEIVED] exactly when
    the number of assembled payload bytes equals the declared length,
    whatever [is_first_nibble] and [incoming] hold. *)
Theorem dangling_nibble_is_accepted :
  (exists body data s',
      data = [SOH; 5; 0; 0; 1; STX] ++ body ++ [ETX; 4; EOT]
      /\ forallb is_valid_encoded_byte body = true
      /\ Nat.odd (List.length body) = true
      /\ feed data (sample_node 5) = (Return tt, s')
      /\ _received_messages (bus s')
         = [mkReceivedMessage (Some 0) (Some 5) (Some 0) (Some 1) [0]])
  /\ (forall (s : Sys) (m : ReceivingMessage),
        _receiver_state (bus s) = STX_RECEIVED ->
        _receiving_message (bus s) = Some m ->
        length m = Some (Z.of_nat (List.length (payload_buffer m))) ->
        _process_byte ETX s = (Return tt, set_rx ETX_RECEIVED (Some m) s)).
Proof.
  split.
  - exists [15; 240; 15]. eexists.
    exists (set_rx IDLE None
              (deliver (mkReceivedMessage (Some 0) (Some 5) (Some 0) (Some 1) [0])
                       (clock_tick (sample_node 5)))).
    split; [reflexivity|].
    repeat split; vm_compute; reflexivity.
  - intros s m Hst Hm Hl. rewrite (process_byte_etx s m Hst Hm), Hl.
    cbn [py_eq]. rewrite Z.eqb_refl. reflexivity.
Qed.

Lemma dangling_nibble_is_accepted_witness :
  feed [SOH; 5; 0; 0; 1; STX; 15; 240; 15] (sample_node 5)
  = (Return tt, pending_nibble_state)
  /\ _process_byte ETX pending_nibble_state
     = (Return tt,
        set_rx ETX_RECEIVED (_receiving_message (bus pending_nibble_state))
               pending_nibble_state).
Proof.
  split; [vm_compute; reflexivity|].
  apply (proj2 dangling_nibble_is_accepted pending_nibble_state);
    reflexivity.
Defined.

(** ** The transmit scheduler *)

Ltac tx_unfold :=
  cbv [_transmit transmit_attempt try_finally try_except
       _enable_transmit_mode _disable_transmit_mode interface_write
       interface_flush manual_timing emit ticks_diff Exn_eqb push_events
       write_raises txdone_polls txdone_raises flush_raises tl];
  py_unfold.

Lemma txdone_wait_spec (polls : nat) (final : option Exn) (s : Sys) :
  txdone_wait polls final s
  = (match final with
     | Some e => Raise e
     | None => Return tt
     end,
     push_events (repeat (SleepUs 10) polls) s).
Proof.
  revert s. induction polls as [|n IH]; intros s.
  - cbn [txdone_wait repeat]. unfold push_events. rewrite app_nil_r.
    destruct s as [b []]. destruct final; reflexivity.
  - cbn [txdone_wait repeat]. unfold bind, emit, update_platform.
    rewrite IH. unfold push_events. cbn. rewrite <- app_assoc. reflexivity.
Qed.

Lemma repeat_sleep_is_wait (n : nat) : Forall is_wait (repeat (SleepUs 10) n).
Proof. induction n; cbn [repeat]; constructor; [exact I | assumption]. Qed.

Ltac flatten_trace :=
  cbn [app]; repeat rewrite <- app_assoc; cbn [app]; reflexivity.

Ltac tx_case polls more :=
  exists (repeat (SleepUs 10) polls ++ more);
  (split; [apply Forall_app; split;
           [apply repeat_sleep_is_wait | repeat constructor]|]);
  tx_unfold;
  match goal with
  | Egate : _ = false, Eb : _ = _ |- _ =>
      rewrite Egate, txdone_wait_spec; tx_unfold; rewrite ?Eb
  | Egate : _ = false |- _ => rewrite Egate, txdone_wait_spec; tx_unfold
  end;
  rewrite ?app_nil_r; flatten_trace.

(** One call of [_transmit], case by case. *)
Lemma transmit_spec (s : Sys) :
  match _output_messages (bus s) with
  | [] => _transmit s = (Return false, s)
  | frame :: rest =>
      if utime_ticks_diff (world s) (now s) (_last_bus_activity (bus s))
         <? LINE_READY_TIME_MS
      then _transmit s = (Return false, clock_tick s)
      else
        exists waits,
          Forall is_wait waits
          /\ let evs :=
               [PinOn; SleepMs (_transceiver_toggle_time_ms (bus s)); Write frame]
               ++ waits
               ++ [PinOff; SleepUs (_transceiver_toggle_time_ms (bus s))] in
             if channel_completes (channel (world s)) (_interface_baudrate (bus s))
             then _transmit s
                  = (Return true,
                     mkSys (with_output_messages rest
                              (with_last_bus_activity (now (clock_tick s)) (bus s)))
                           (world (clock_tick (clock_tick (push_events evs s)))))
             else _transmit s
                  = (Return false, clock_tick (push_events evs s))
  end.
Proof.
  destruct s as [b w]. destruct b as [ba ad tg la st rm rc ou].
  destruct w as [ck cr td rx ch tr]. destruct ch as [wr polls tdr fl].
  cbn [_output_messages bus]. destruct ou as [|frame rest].
  - reflexivity.
  - cbn [utime_ticks_diff world bus _last_bus_activity now clock clock_reads].
    destruct (td (ck cr) la <? LINE_READY_TIME_MS) eqn:Egate.
    + tx_unfold. rewrite Egate. reflexivity.
    + unfold channel_completes.
      cbn [write_raises txdone_raises flush_raises channel world
           _interface_baudrate bus _transceiver_toggle_time_ms].
      destruct wr as [e|].
      * exists []. split; [constructor|].
        tx_unfold. rewrite Egate. flatten_trace.
      * destruct tdr as [e|].
        -- destruct e; try (tx_case polls (@nil Event)).
           destruct fl as [e|]; [destruct e|]; destruct (ba =? 0) eqn:Eb;
             cbn [negb]; try (tx_case polls (@nil Event)).
           ++ tx_case polls [SleepEstimated (Z.of_nat (List.length frame)) ba Margin_1_2].
           ++ tx_case polls [Flush].
           ++ tx_case polls [Flush; SleepEstimated (Z.of_nat (List.length frame)) ba Margin_1_1].
        -- tx_case polls (@nil Event).
Qed.

(** ** The outbound queue and the trace over runs *)

(** [_process_byte] touches the receiver's fields, the inbound queue and
    the clock, whatever its outcome. *)
Lemma process_byte_frame (b : Z) (s : Sys) :
  same_outside_receiver s (after (_process_byte b) s).
Proof.
  unfold same_outside_receiver, after.
  destruct s as [bu w]. destruct bu as [ba ad tg la st rm rc ou]. destruct w.
  destruct st; destruct rm as [[ts d a t l c f inc buf]|];
    py_unfold; cbv [bytes1 andb ret raise];
    repeat match goal with
           | |- context [if ?c then _ else _] => destruct c
           | |- context [match ?o with Some _ => _ | None => _ end] => destruct o
           end;
    cbn; repeat split.
Qed.

Lemma send_message_loop_return (payload : list Z) :
  forall crc text_buffer s c tb s',
    send_message_loop payload crc text_buffer s = (Return (c, tb), s') ->
    c = fold_left Z.lxor payload crc
    /\ tb = text_buffer ++ encode_payload payload.
Proof.
  induction payload as [|p rest IH]; intros crc text_buffer s c tb s' H.
  - inversion H. rewrite app_nil_r. split; reflexivity.
  - cbn [send_message_loop] in H. cbv zeta in H. unfold bind at 1 in H.
    destruct (bytes1 _ s) as [[hi|e] s1] eqn:E1; [|discriminate].
    apply bytes1_inv in E1. destruct E1 as (_ & Ehi & Es1). subst hi s1.
    unfold bind at 1 in H.
    destruct (bytes1 _ s) as [[lo|e] s2] eqn:E2 in H; [|discriminate].
    apply bytes1_inv in E2. destruct E2 as (_ & Elo & Es2). subst lo s2.
    apply IH in H. destruct H as [Hc Htb]. split; [exact Hc|].
    rewrite Htb. change (encode_payload (p :: rest))
      with ([high_nibble_byte p; low_nibble_byte p] ++ encode_payload rest).
    unfold high_nibble_byte, low_nibble_byte. cbv zeta.
    rewrite <- !app_assoc. reflexivity.
Qed.

(** When [send_message] returns, it has queued the wire frame. *)
Lemma send_message_return (dst : Z) (payload : list Z) (tid : Z)
    (s s' : Sys) (r : bool) :
  send_message dst payload tid s = (Return r, s') ->
  r = true
  /\ s' = with_queue (_output_messages (bus s)
                      ++ [wire_frame (_address (bus s)) dst tid payload]) s.
Proof.
  unfold send_message.
  destruct (Z.of_nat (List.length payload) =? 0); [discriminate|].
  destruct (Z.of_nat (List.length payload) >? MAX_MESSAGE_LEN); [discriminate|].
  unfold bind at 1. unfold self at 1.
  unfold bind at 1.
  destruct (bytes1 dst s) as [[d|e1] s1] eqn:E1; [|discriminate].
  apply bytes1_inv in E1. destruct E1 as (_ & ? & ?). subst d s1.
  unfold bind at 1.
  destruct (bytes1 (_address (bus s)) s) as [[a|e2] s2] eqn:E2; [|discriminate].
  apply bytes1_inv in E2. destruct E2 as (_ & ? & ?). subst a s2.
  unfold bind at 1.
  destruct (bytes1 tid s) as [[t|e3] s3] eqn:E3; [|discriminate].
  apply bytes1_inv in E3. destruct E3 as (_ & ? & ?). subst t s3.
  unfold bind at 1.
  destruct (bytes1 (Z.of_nat (List.length payload)) s) as [[l|e4] s4] eqn:E4;
    [|discriminate].
  apply bytes1_inv in E4. destruct E4 as (_ & ? & ?). subst l s4.
  unfold bind at 1.
  destruct (send_message_loop _ _ _ s) as [[[c tb]|e5] s5] eqn:E5; [|discriminate].
  pose proof (send_message_loop_state _ _ _ _ _ _ E5). subst s5.
  apply send_message_loop_return in E5. destruct E5 as [Ec Etb]. subst c tb.
  unfold bind at 1.
  destruct (bytes1 _ s) as [[cb|e6] s6] eqn:E6; [|discriminate].
  apply bytes1_inv in E6. destruct E6 as (_ & ? & ?). subst cb s6.
  unfold bind, update_self, ret. intros H. inversion H. split; [reflexivity|].
  unfold with_queue, wire_frame, frame_crc. cbn [repeat app].
  reflexivity.
Qed.

Lemma same_queue_and_trace_trans (s1 s2 s3 : Sys) :
  same_queue_and_trace s1 s2 -> same_queue_and_trace s2 s3 ->
  same_queue_and_trace s1 s3.
Proof.
  unfold same_queue_and_trace. intros [H1 H2] [H3 H4].
  split; congruence.
Qed.

Lemma process_byte_same_queue_and_trace (b : Z) (s : Sys) :
  same_queue_and_trace s (after (_process_byte b) s).
Proof.
  pose proof (process_byte_frame b s) as Hf.
  unfold same_outside_receiver in Hf. unfold same_queue_and_trace.
  destruct Hf as (_ & _ & _ & _ & Hq & Ht & _). split; assumption.
Qed.

Lemma receive_loop_frame (pending : list (option Z)) :
  forall s, same_queue_and_trace s (after (_receive_loop pending) s).
Proof.
  induction pending as [|byte rest IH]; intros s; [split; reflexivity|].
  unfold after in *. cbn [_receive_loop].
  unfold bind at 1. unfold set_rx_buffer at 1, update_platform at 1.
  unfold bind at 1. unfold self at 1. cbn [bus].
  set (s0 := mkSys (bus s) _).
  apply (same_queue_and_trace_trans s s0); [split; reflexivity|].
  clearbody s0.
  destruct byte as [b|]; [|apply IH].
  destruct ((b =? NULL) && ReceiverState_eqb (_receiver_state (bus s)) IDLE);
    [apply IH|].
  unfold bind at 1. unfold get_milliseconds at 1.
  cbv [bind platform update_platform ret update_self].
  cbn [bus world clock clock_reads].
  match goal with |- context [_process_byte b ?s1] =>
    apply (same_queue_and_trace_trans s0 s1); [split; reflexivity|];
    pose proof (process_byte_same_queue_and_trace b s1) as Hf;
    unfold after in Hf;
    destruct (_process_byte b s1) as [[[]|e] s2]
  end; cbn [snd] in Hf.
  - apply (same_queue_and_trace_trans _ s2 _ Hf). apply IH.
  - exact Hf.
Qed.

Lemma writes_app (l1 l2 : list Event) :
  writes (l1 ++ l2) = writes l1 ++ writes l2.
Proof.
  induction l1 as [|e l1 IH]; [reflexivity|].
  destruct e; cbn [app writes]; rewrite ?IH; reflexivity.
Qed.

Lemma writes_waits (l : list Event) : Forall is_wait l -> writes l = [].
Proof.
  induction 1 as [|e l He Hl IH]; [reflexivity|].
  destruct e; cbn [is_wait] in He; try contradiction; exact IH.
Qed.

Lemma transmit_step_holds (s : Sys) :
  exists r s', _transmit s = (Return r, s') /\ transmit_step s s'.
Proof.
  pose proof (transmit_spec s) as H. unfold transmit_step, idle_time.
  destruct (_output_messages (bus s)) as [|frame rest] eqn:Eq.
  - exists false, s. split; [exact H|]. exists [].
    rewrite app_nil_r. split; [reflexivity|]. left. split; [reflexivity|exact Eq].
  - destruct (_ <? LINE_READY_TIME_MS) eqn:Egate.
    + exists false, (clock_tick s). split; [exact H|]. exists [].
      rewrite app_nil_r. split; [reflexivity|]. left.
      split; [reflexivity | exact Eq].
    + apply Z.ltb_ge in Egate. destruct H as (waits & Hw & H). cbv zeta in H.
      assert (Hwr : writes
                ([PinOn; SleepMs (_transceiver_toggle_time_ms (bus s)); Write frame]
                 ++ waits
                 ++ [PinOff; SleepUs (_transceiver_toggle_time_ms (bus s))])
              = [frame]).
      { cbn [app writes]. rewrite writes_app, (writes_waits _ Hw). reflexivity. }
      destruct (channel_completes _ _).
      * eexists. eexists. split; [exact H|]. eexists.
        split; [reflexivity|]. right. exists frame, rest.
        split; [reflexivity|]. split; [exact Hwr|]. split; [exact Egate|].
        right. reflexivity.
      * eexists. eexists. split; [exact H|]. eexists.
        split; [reflexivity|]. right. exists frame, rest.
        split; [reflexivity|]. split; [exact Hwr|]. split; [exact Egate|].
        left. exact Eq.
Qed.

Lemma transmit_step_after (s1 s2 s3 : Sys) :
  transmit_step s1 s2 -> same_queue_and_trace s2 s3 -> transmit_step s1 s3.
Proof.
  unfold transmit_step, same_queue_and_trace.
  intros (evs & Ht & H) [Hq Htr]. exists evs. rewrite Htr, Hq.
  split; [exact Ht | exact H].
Qed.

Lemma transmit_step_refl (s : Sys) : transmit_step s s.
Proof.
  exists []. rewrite app_nil_r. split; [reflexivity|].
  left. split; reflexivity.
Qed.

(** One service tick: the receive phase leaves queue and trace alone, and
    the rest of the tick is one [_transmit] as far as they are concerned. *)
Lemma loop_step (s : Sys) :
  exists s1, same_queue_and_trace s s1 /\ transmit_step s1 (after loop s).
Proof.
  unfold loop, after. unfold bind at 1. unfold _receive, bind at 1.
  unfold platform at 1.
  pose proof (receive_loop_frame (rx_buffer (world s)) s) as Hrx.
  unfold after in Hrx.
  destruct (_receive_loop (rx_buffer (world s)) s) as [[[]|e] s1];
    cbn [snd] in *; exists s1; (split; [exact Hrx|]);
    [|apply transmit_step_refl].
  unfold bind at 1.
  destruct (transmit_step_holds s1) as (r & s2 & Etx & Hstep). rewrite Etx.
  apply (transmit_step_after s1 s2 _ Hstep).
  destruct s2 as [bu w]. destruct bu as [ba ad tg la st rm rc ou]. destruct w.
  unfold same_queue_and_trace.
  destruct st; destruct rm as [m|];
    py_unfold; cbv [ticks_diff ReceiverState_eqb bind platform ret];
    cbn [world utime_ticks_diff];
    repeat match goal with
           | |- context [if ?c then _ else _] => destruct c
           end;
    cbn; split; reflexivity.
Qed.

Lemma attempts_snoc (sent : list (list Z)) :
  forall (retries : list nat) (frame : list Z) (n : nat),
    List.length retries = List.length sent ->
    attempts (sent ++ [frame]) (retries ++ [n])
    = attempts sent retries ++ repeat frame (S n).
Proof.
  induction sent as [|f sent IH]; intros [|m retries] frame n Hlen;
    try discriminate.
  - cbn [app attempts]. rewrite app_nil_r. reflexivity.
  - cbn [app attempts]. rewrite IH by (cbn in Hlen; lia).
    rewrite app_assoc. reflexivity.
Qed.

Lemma fifo_inv_same (q0 : list (list Z)) (tr0 : list Event)
    (added : list (list Z)) (s s' : Sys) :
  fifo_inv q0 tr0 added s -> same_queue_and_trace s s' ->
  fifo_inv q0 tr0 added s'.
Proof.
  unfold fifo_inv, same_queue_and_trace.
  intros (sent & retries & k & evs & H) [Hq Ht].
  exists sent, retries, k, evs. rewrite Hq, Ht. exact H.
Qed.

Lemma fifo_inv_transmit (q0 : list (list Z)) (tr0 : list Event)
    (added : list (list Z)) (s s' : Sys) :
  fifo_inv q0 tr0 added s -> transmit_step s s' ->
  fifo_inv q0 tr0 added s'.
Proof.
  unfold fifo_inv, transmit_step.
  intros (sent & retries & k & evs & Hq & Ht & Hl & Hw & Hk)
         (evs' & Ht' & [[Hw' Hq']|(frame & rest & Eq & Hw' & _ & [Hq'|Hq'])]).
  - exists sent, retries, k, (evs ++ evs').
    rewrite Hq', Ht', Ht, writes_app, Hw', app_nil_r, app_assoc.
    repeat split; assumption.
  - exists sent, retries, (S k), (evs ++ evs').
    rewrite Hq', Ht', Ht, writes_app, Hw', Hw, app_assoc, <- Eq.
    split; [exact Hq|]. split; [reflexivity|]. split; [exact Hl|].
    split; [|rewrite Eq; discriminate].
    rewrite Eq. cbn [hd]. rewrite <- app_assoc.
    f_equal. cbn [repeat]. symmetry. apply repeat_cons.
  - exists (sent ++ [frame]), (retries ++ [k]), 0%nat, (evs ++ evs').
    rewrite Hq', Ht', Ht, writes_app, Hw', Hw, Eq.
    split; [rewrite Hq, Eq, <- app_assoc; reflexivity|].
    split; [rewrite app_assoc; reflexivity|].
    split; [rewrite !length_app, Hl; reflexivity|].
    split; [|reflexivity].
    rewrite (attempts_snoc sent retries frame k Hl).
    cbn [hd repeat]. rewrite app_nil_r, <- app_assoc. f_equal.
    symmetry. apply repeat_cons.
Qed.

Lemma fifo_inv_enqueue (q0 : list (list Z)) (tr0 : list Event)
    (added more : list (list Z)) (s s' : Sys) :
  fifo_inv q0 tr0 added s ->
  _output_messages (bus s') = _output_messages (bus s) ++ more ->
  trace (world s') = trace (world s) ->
  fifo_inv q0 tr0 (added ++ more) s'.
Proof.
  unfold fifo_inv.
  intros (sent & retries & k & evs & Hq & Ht & Hl & Hw & Hk) Hq' Ht'.
  destruct (_output_messages (bus s)) as [|f q] eqn:Eq.
  - exists sent, retries, 0%nat, evs. rewrite Hq', Ht'.
    rewrite (Hk eq_refl) in Hw.
    split; [rewrite app_assoc, Hq, <- app_assoc; reflexivity|].
    repeat split; assumption.
  - exists sent, retries, k, evs. rewrite Hq', Ht'.
    split; [rewrite app_assoc, Hq, <- app_assoc; reflexivity|].
    repeat split; try assumption. discriminate.
Qed.

(** Each call is a receive phase, a transmit step and an append, as far as
    the outbound queue and the trace are concerned. *)
Lemma perform_step (c : Call) (s : Sys) :
  exists s1 s2,
    same_queue_and_trace s s1 /\ transmit_step s1 s2
    /\ _output_messages (bus (perform c s))
       = _output_messages (bus s2) ++ enqueued_by c s
    /\ trace (world (perform c s)) = trace (world s2).
Proof.
  destruct c as [|d p t| | | | |a| |data|ch]; cbn [perform enqueued_by].
  - destruct (loop_step s) as (s1 & H1 & H2).
    exists s1, (after loop s). rewrite app_nil_r.
    split; [exact H1|]. split; [exact H2|]. split; reflexivity.
  - exists s, s. split; [split; reflexivity|]. split; [apply transmit_step_refl|].
    unfold after.
    destruct (send_message d p t s) as [[r|e] s'] eqn:E; cbn [fst snd].
    + apply send_message_return in E. destruct E as [_ E]. subst s'.
      split; reflexivity.
    + apply send_message_raise_state in E. subst s'. rewrite app_nil_r.
      split; reflexivity.
  - exists s, s. split; [split; reflexivity|]. split; [apply transmit_step_refl|].
    rewrite app_nil_r. unfold after, read, bind, self.
    destruct (_received_messages (bus s)); split; reflexivity.
  - exists s, s. split; [split; reflexivity|]. split; [apply transmit_step_refl|].
    rewrite app_nil_r. split; reflexivity.
  - exists s, s. split; [split; reflexivity|]. split; [apply transmit_step_refl|].
    rewrite app_nil_r. split; reflexivity.
  - exists s, s. split; [split; reflexivity|]. split; [apply transmit_step_refl|].
    rewrite app_nil_r. split; reflexivity.
  - exists s, s. split; [split; reflexivity|]. split; [apply transmit_step_refl|].
    rewrite app_nil_r. unfold after, set_address.
    destruct (negb (is_valid_node_address a)); split; reflexivity.
  - exists s, s. split; [split; reflexivity|]. split; [apply transmit_step_refl|].
    rewrite app_nil_r. split; reflexivity.
  - exists s, s. split; [split; reflexivity|]. split; [apply transmit_step_refl|].
    rewrite app_nil_r. split; reflexivity.
  - exists s, s. split; [split; reflexivity|]. split; [apply transmit_step_refl|].
    rewrite app_nil_r. split; reflexivity.
Qed.

Lemma fifo_inv_run (q0 : list (list Z)) (tr0 : list Event) (cs : list Call) :
  forall (s : Sys) (added : list (list Z)),
    fifo_inv q0 tr0 added s ->
    fifo_inv q0 tr0 (added ++ enqueued cs s) (run cs s).
Proof.
  induction cs as [|c cs IH]; intros s added H.
  - cbn [enqueued run fold_left]. rewrite app_nil_r. exact H.
  - cbn [enqueued]. change (run (c :: cs) s) with (run cs (perform c s)).
    rewrite app_assoc. apply IH.
    destruct (perform_step c s) as (s1 & s2 & H1 & H2 & Hq & Ht).
    apply (fifo_inv_enqueue q0 tr0 added _ s2); [|exact Hq | exact Ht].
    apply (fifo_inv_transmit q0 tr0 added s1); [|exact H2].
    apply (fifo_inv_same q0 tr0 added s); assumption.
Qed.

(** C5: in a transmit attempt (a frame is queued and the idle gate is
    passed), when [write] raises, or the completion wait raises anything
    but the [AttributeError] of a missing [txdone], the attempt does not
    complete; an attempt that does not complete returns [False] and leaves
    the engine, the outbound queue included, as it was; an attempt that
    completes returns [True], removes the frame from the head of the queue
    and sets the last-bus-activity timestamp to the clock read after the
    attempt. *)
Theorem transmit_outcome (s : Sys) (frame : list Z) (rest : list (list Z)) :
  _output_messages (bus s) = frame :: rest ->
  LINE_READY_TIME_MS <= idle_time s ->
  let ch := channel (world s) in
  let completes := channel_completes ch (_interface_baudrate (bus s)) in
  (forall e, write_raises ch = Some e
             \/ (txdone_raises ch = Some e /\ e <> AttributeError) ->
             completes = false)
  /\ (completes = false ->
      exists s', _transmit s = (Return false, s')
                 /\ bus s' = bus s
                 /\ _output_messages (bus s') = frame :: rest)
  /\ (completes = true ->
      exists s', _transmit s = (Return true, s')
                 /\ _output_messages (bus s') = rest
                 /\ _last_bus_activity (bus s') = now (clock_tick s)).
Proof.
  intros Hq Hgate ch completes. subst ch completes.
  pose proof (transmit_spec s) as H. rewrite Hq in H.
  unfold idle_time in Hgate. apply Z.ltb_ge in Hgate. rewrite Hgate in H.
  destruct H as (waits & _ & H). cbv zeta in H.
  split; [|split].
  - intros e [Hw|[Ht Hne]]; unfold channel_completes.
    + rewrite Hw. reflexivity.
    + rewrite Ht. destruct (write_raises _); [reflexivity|].
      destruct e; try reflexivity. congruence.
  - intros E. rewrite E in H. eexists. split; [exact H|].
    split; [reflexivity | exact Hq].
  - intros E. rewrite E in H. eexists. split; [exact H|].
    split; reflexivity.
Qed.

Lemma transmit_outcome_witness :
  (exists s', _transmit (with_channel broken_channel sample_sender)
              = (Return false, s')
              /\ bus s' = bus (with_channel broken_channel sample_sender)
              /\ _output_messages (bus s') = [wire_frame 0 5 0 [1]])
  /\ (exists s', _transmit sample_sender = (Return true, s')
                 /\ _output_messages (bus s') = []
                 /\ _last_bus_activity (bus s') = now (clock_tick sample_sender)).
Proof.
  split.
  - apply (proj1 (proj2 (transmit_outcome
                           (with_channel broken_channel sample_sender)
                           (wire_frame 0 5 0 [1]) []
                           eq_refl ltac:(vm_compute; discriminate)))).
    reflexivity.
  - apply (proj2 (proj2 (transmit_outcome sample_sender
                           (wire_frame 0 5 0 [1]) []
                           eq_refl ltac:(vm_compute; discriminate)))).
    reflexivity.
Defined.

(** C7 (what the code does): every transmit attempt, completed or not, ends
    with the direction pin switched off followed by
    [utime.sleep_us(toggle_time)]: the deassertion always executes, but the
    wait after it is the toggle time taken as microseconds, where the wait
    after the assertion is [utime.sleep_ms(toggle_time)]. *)
Theorem deassert_waits_microseconds (s : Sys) (frame : list Z)
    (rest : list (list Z)) :
  _output_messages (bus s) = frame :: rest ->
  LINE_READY_TIME_MS <= idle_time s ->
  exists r s' waits,
    _transmit s = (Return r, s')
    /\ Forall is_wait waits
    /\ trace (world s')
       = trace (world s)
         ++ [PinOn; SleepMs (_transceiver_toggle_time_ms (bus s)); Write frame]
         ++ waits
         ++ [PinOff; SleepUs (_transceiver_toggle_time_ms (bus s))].
Proof.
  intros Hq Hgate.
  pose proof (transmit_spec s) as H. rewrite Hq in H.
  unfold idle_time in Hgate. apply Z.ltb_ge in Hgate. rewrite Hgate in H.
  destruct H as (waits & Hw & H). cbv zeta in H.
  destruct (channel_completes _ _); eexists; eexists; exists waits;
    (split; [exact H|]); (split; [exact Hw|]); reflexivity.
Qed.

Lemma deassert_waits_microseconds_witness :
  exists r s' waits,
    _transmit sample_sender = (Return r, s')
    /\ Forall is_wait waits
    /\ trace (world s')
       = trace (world sample_sender)
         ++ [PinOn; SleepMs 20; Write (wire_frame 0 5 0 [1])]
         ++ waits
         ++ [PinOff; SleepUs 20].
Proof.
  apply (deassert_waits_microseconds sample_sender (wire_frame 0 5 0 [1]) []).
  - reflexivity.
  - vm_compute. discriminate.
Defined.

(** [_transmit] on a queue with a head frame: behind the idle gate nothing
    is written and the queue stays as it is; past the gate, on a channel
    that completes, the head frame is written once and leaves the queue. *)
Lemma transmit_head (s : Sys) (frame : list Z) (rest : list (list Z)) :
  _output_messages (bus s) = frame :: rest ->
  (idle_time s < LINE_READY_TIME_MS ->
   fst (_transmit s) = Return false
   /\ trace (world (after _transmit s)) = trace (world s)
   /\ _output_messages (bus (after _transmit s)) = frame :: rest)
  /\ (LINE_READY_TIME_MS <= idle_time s ->
      channel_completes (channel (world s)) (_interface_baudrate (bus s))
      = true ->
      fst (_transmit s) = Return true
      /\ (exists evs,
            trace (world (after _transmit s)) = trace (world s) ++ evs
            /\ writes evs = [frame])
      /\ _output_messages (bus (after _transmit s)) = rest
      /\ channel (world (after _transmit s)) = channel (world s)
      /\ _interface_baudrate (bus (after _transmit s))
         = _interface_baudrate (bus s)).
Proof.
  intros Hq. pose proof (transmit_spec s) as H. rewrite Hq in H.
  unfold idle_time. split.
  - intros Hg. apply Z.ltb_lt in Hg. rewrite Hg in H.
    unfold after. rewrite H. cbn [fst snd].
    split; [reflexivity|]. split; [reflexivity | exact Hq].
  - intros Hg Hch. apply Z.ltb_ge in Hg. rewrite Hg in H.
    destruct H as (waits & Hw & H). cbv zeta in H. rewrite Hch in H.
    unfold after. rewrite H. cbn [fst snd].
    split; [reflexivity|]. split.
    { eexists. split; [reflexivity|].
      cbn [app writes]. rewrite writes_app, (writes_waits _ Hw). reflexivity. }
    split; [reflexivity|]. split; reflexivity.
Qed.

(** C8: two frames enqueued in order A then B are written to the channel
    in that order, each whole in one write: with the queue [A; B], a
    [_transmit] behind the idle gate writes nothing and leaves the queue,
    and one past the gate, on a channel that completes, writes the head
    frame and removes it, so that the writes of two such calls are A and
    then B and the queue is empty.  [_transmit] writes only when the
    measured time since the last bus activity is at least
    [LINE_READY_TIME_MS] = 10.  And over any run of calls and environment
    events, whatever the channel does, the frames written are those that
    left the outbound queue, in queue order, each whole and in one block of
    one or more attempts, followed by the attempts so far on the frame now
    at the head; the frames that left and those still queued are, in order,
    the frames queued at the start and then those enqueued during the
    run. *)
Theorem fifo_order_and_idle_gate :
  (forall (s : Sys) (cs : list Call),
     exists sent retries k evs,
       _output_messages (bus s) ++ enqueued cs s
       = sent ++ _output_messages (bus (run cs s))
       /\ trace (world (run cs s)) = trace (world s) ++ evs
       /\ List.length retries = List.length sent
       /\ writes evs
          = attempts sent retries
            ++ repeat (hd [] (_output_messages (bus (run cs s)))) k)
  /\ (forall s : Sys,
        exists r s' evs,
          _transmit s = (Return r, s')
          /\ trace (world s') = trace (world s) ++ evs
          /\ (writes evs = []
              \/ (writes evs = [hd [] (_output_messages (bus s))]
                  /\ LINE_READY_TIME_MS <= idle_time s)))
  /\ LINE_READY_TIME_MS = 10
  /\ (forall (s : Sys) (dA tA dB tB : Z) (pA pB : list Z),
        (1 <= List.length pA <= 255)%nat -> Forall is_byte pA ->
        (1 <= List.length pB <= 255)%nat -> Forall is_byte pB ->
        is_byte dA -> is_byte tA -> is_byte dB -> is_byte tB ->
        is_byte (_address (bus s)) ->
        _output_messages (bus s) = [] ->
        channel_completes (channel (world s)) (_interface_baudrate (bus s))
        = true ->
        let A := wire_frame (_address (bus s)) dA tA pA in
        let B := wire_frame (_address (bus s)) dB tB pB in
        let sA := after (send_message dA pA tA) s in
        let sB := after (send_message dB pB tB) sA in
        let s1 := after _transmit sB in
        let s2 := after _transmit s1 in
        fst (send_message dA pA tA s) = Return true
        /\ fst (send_message dB pB tB sA) = Return true
        /\ _output_messages (bus sB) = [A; B]
        /\ trace (world sB) = trace (world s)
        /\ (idle_time sB < LINE_READY_TIME_MS ->
            fst (_transmit sB) = Return false
            /\ trace (world s1) = trace (world s)
            /\ _output_messages (bus s1) = [A; B])
        /\ (LINE_READY_TIME_MS <= idle_time sB ->
            fst (_transmit sB) = Return true
            /\ (exists evs,
                  trace (world s1) = trace (world s) ++ evs
                  /\ writes evs = [A])
            /\ _output_messages (bus s1) = [B]
            /\ (idle_time s1 < LINE_READY_TIME_MS ->
                fst (_transmit s1) = Return false
                /\ trace (world s2) = trace (world s1)
                /\ _output_messages (bus s2) = [B])
            /\ (LINE_READY_TIME_MS <= idle_time s1 ->
                fst (_transmit s1) = Return true
                /\ (exists evs,
                      trace (world s2) = trace (world s) ++ evs
                      /\ writes evs = [A; B])
                /\ _output_messages (bus s2) = []))).
Proof.
  split; [|split; [|split; [reflexivity|]]].
  - intros s cs.
    assert (H0 : fifo_inv (_output_messages (bus s)) (trace (world s)) [] s).
    { exists [], [], 0%nat, []. rewrite !app_nil_r.
      repeat split; reflexivity. }
    pose proof (fifo_inv_run _ _ cs s [] H0) as H. cbn [app] in H.
    destruct H as (sent & retries & k & evs & Hq & Ht & Hl & Hw & _).
    exists sent, retries, k, evs. repeat split; assumption.
  - intros s. destruct (transmit_step_holds s) as (r & s' & E & evs & Ht & H).
    exists r, s', evs. split; [exact E|]. split; [exact Ht|].
    destruct H as [[Hw _]|(frame & rest & Eq & Hw & Hg & _)].
    + left. exact Hw.
    + right. rewrite Eq. split; assumption.
  - intros s dA tA dB tB pA pB HlA HpA HlB HpB HdA HtA HdB HtB Ha Hq Hch
           A B sA sB s1 s2.
    pose proof (send_message_ok dA pA tA s HlA HpA HdA HtA Ha) as EA.
    rewrite Hq in EA. cbn [app] in EA. fold A in EA.
    assert (EsA : sA = with_queue [A] s).
    { unfold sA, after. rewrite EA. reflexivity. }
    assert (Ha' : is_byte (_address (bus sA))) by (rewrite EsA; exact Ha).
    pose proof (send_message_ok dB pB tB sA HlB HpB HdB HtB Ha') as EB.
    assert (EsB : sB = with_queue [A; B] s).
    { unfold sB, after. rewrite EB, EsA. reflexivity. }
    split; [rewrite EA; reflexivity|].
    split; [rewrite EB; reflexivity|].
    assert (HqB : _output_messages (bus sB) = [A; B])
      by (rewrite EsB; reflexivity).
    assert (HtB' : trace (world sB) = trace (world s))
      by (rewrite EsB; reflexivity).
    assert (HchB : channel_completes (channel (world sB))
                     (_interface_baudrate (bus sB)) = true)
      by (rewrite EsB; exact Hch).
    split; [exact HqB|]. split; [exact HtB'|].
    destruct (transmit_head sB A [B] HqB) as [Hwait1 Hgo1].
    split.
    { intros Hg. destruct (Hwait1 Hg) as (Hr & Ht & Hq1).
      split; [exact Hr|]. split; [|exact Hq1].
      fold s1 in Ht. rewrite Ht. exact HtB'. }
    intros Hg.
    destruct (Hgo1 Hg HchB) as (Hr & (evs1 & Ht1 & Hw1) & Hq1 & Hc1 & Hb1).
    fold s1 in Ht1, Hq1, Hc1, Hb1. rewrite HtB' in Ht1.
    split; [exact Hr|].
    split; [exists evs1; split; [exact Ht1 | exact Hw1]|].
    split; [exact Hq1|].
    destruct (transmit_head s1 B [] Hq1) as [Hwait2 Hgo2].
    split; [exact Hwait2|].
    intros Hg2.
    assert (Hch1 : channel_completes (channel (world s1))
                     (_interface_baudrate (bus s1)) = true)
      by (rewrite Hc1, Hb1; exact HchB).
    destruct (Hgo2 Hg2 Hch1) as (Hr2 & (evs2 & Ht2 & Hw2) & Hq2 & _).
    fold s2 in Ht2, Hq2.
    split; [exact Hr2|]. split; [|exact Hq2].
    exists (evs1 ++ evs2). split.
    + rewrite Ht2, Ht1, app_assoc. reflexivity.
    + rewrite writes_app, Hw1, Hw2. reflexivity.
Qed.

(** Two frames enqueued in a row on the sample node, then three service
    ticks: the first tick finds the line busy, the next two write the first
    and then the second frame. *)
Lemma fifo_order_two_frames :
  let cs := [call_send_message 5 [65] 0; call_send_message 6 [66] 0;
             call_loop; call_loop; call_loop] in
  enqueued cs (sample_node 0) = [wire_frame 0 5 0 [65]; wire_frame 0 6 0 [66]]
  /\ writes (trace (world (run cs (sample_node 0))))
     = [wire_frame 0 5 0 [65]; wire_frame 0 6 0 [66]]
  /\ _output_messages (bus (run cs (sample_node 0))) = [].
Proof. vm_compute. repeat split. Qed.

Lemma fifo_order_and_idle_gate_witness :
  fst (_transmit pair_queued) = Return true
  /\ fst (_transmit (after _transmit pair_queued)) = Return true
  /\ (exists evs,
        trace (world (after _transmit (after _transmit pair_queued)))
        = trace (world (clock_tick (sample_node 0))) ++ evs
        /\ writes evs = [wire_frame 0 5 0 [65]; wire_frame 0 6 0 [66]])
  /\ _output_messages (bus (after _transmit (after _transmit pair_queued)))
     = [].
Proof.
  destruct (proj2 (proj2 (proj2 fifo_order_and_idle_gate))
              (clock_tick (sample_node 0)) 5 0 6 0 [65] [66])
    as (_ & _ & _ & _ & _ & H).
  - simpl. lia.
  - repeat constructor; unfold is_byte; lia.
  - simpl. lia.
  - repeat constructor; unfold is_byte; lia.
  - unfold is_byte. lia.
  - unfold is_byte. lia.
  - unfold is_byte. lia.
  - unfold is_byte. lia.
  - unfold is_byte. simpl. lia.
  - reflexivity.
  - reflexivity.
  - destruct H as (Hr1 & _ & _ & _ & H); [vm_compute; discriminate|].
    destruct H as (Hr2 & Hw & Hq); [vm_compute; discriminate|].
    split; [exact Hr1|]. split; [exact Hr2|]. split; [exact Hw | exact Hq].
Defined.

(** ** The receiver invariant over runs *)

Lemma receiver_inv_ext (b b' : Simple485Remastered) :
  _receiver_state b' = _receiver_state b ->
  _receiving_message b' = _receiving_message b ->
  receiver_inv b -> receiver_inv b'.
Proof.
  unfold receiver_inv, receiver_ok. intros E1 E2. rewrite E1, E2. tauto.
Qed.

Lemma receive_loop_inv (pending : list (option Z)) :
  forall s, receiver_inv (bus s) ->
            exists s', _receive_loop pending s = (Return tt, s')
                       /\ receiver_inv (bus s').
Proof.
  induction pending as [|byte rest IH]; intros s Hinv.
  - exists s. split; [reflexivity | exact Hinv].
  - cbn [_receive_loop].
    unfold bind at 1. unfold set_rx_buffer at 1, update_platform at 1.
    unfold bind at 1. unfold self at 1. cbn [bus].
    set (s0 := mkSys (bus s) _).
    assert (H0 : receiver_inv (bus s0)) by exact Hinv. clearbody s0.
    destruct byte as [b|]; [|apply IH; exact H0].
    destruct ((b =? NULL) && ReceiverState_eqb (_receiver_state (bus s)) IDLE);
      [apply IH; exact H0|].
    unfold bind at 1. unfold get_milliseconds at 1.
    cbv [bind platform update_platform ret update_self].
    cbn [bus world clock clock_reads].
    match goal with |- context [_process_byte b ?s1] =>
      assert (H1 : receiver_inv (bus s1))
        by (apply (receiver_inv_ext (bus s0)); [reflexivity | reflexivity | exact H0]);
      destruct (process_byte_total b s1 (proj1 H1))
        as (s2 & E & Hok & Hiff & _)
    end.
    rewrite E. apply IH. split; [exact Hok | apply Hiff, H1].
Qed.

Lemma transmit_receiver (s : Sys) :
  exists r s', _transmit s = (Return r, s')
               /\ _receiver_state (bus s') = _receiver_state (bus s)
               /\ _receiving_message (bus s') = _receiving_message (bus s).
Proof.
  pose proof (transmit_spec s) as H.
  destruct (_output_messages (bus s)) as [|frame rest].
  - exists false, s. split; [exact H|]. split; reflexivity.
  - destruct (_ <? LINE_READY_TIME_MS).
    + eexists. eexists. split; [exact H|]. split; reflexivity.
    + destruct H as (waits & _ & H). cbv zeta in H.
      destruct (channel_completes _ _); eexists; eexists;
        (split; [exact H|]); split; reflexivity.
Qed.

(** From a consistent receiver, a service tick returns and leaves the
    receiver consistent. *)
Lemma loop_inv (s : Sys) :
  receiver_inv (bus s) ->
  exists s', loop s = (Return tt, s') /\ receiver_inv (bus s').
Proof.
  intros Hinv. unfold loop. unfold bind at 1. unfold _receive, bind at 1.
  unfold platform at 1.
  destruct (receive_loop_inv (rx_buffer (world s)) s Hinv) as (s1 & E1 & H1).
  rewrite E1. unfold bind at 1.
  destruct (transmit_receiver s1) as (r & s2 & E2 & Hst & Hrm). rewrite E2.
  assert (H2 : receiver_inv (bus s2))
    by (apply (receiver_inv_ext (bus s1)); assumption).
  clear - H2.
  destruct s2 as [bu w]. destruct bu as [ba ad tg la st rm rc ou]. destruct w.
  unfold receiver_inv, receiver_ok in *.
  cbn [bus _receiver_state _receiving_message] in *.
  destruct H2 as [Hok Hiff].
  destruct st;
    try (destruct rm as [m|]; [|contradiction]);
    py_unfold; cbv [ticks_diff ReceiverState_eqb bind platform ret];
    cbn [world utime_ticks_diff];
    repeat match goal with
           | |- context [if ?c then _ else _] => destruct c
           end;
    eexists; (split; [reflexivity|]); cbn; try tauto;
    (split; [exact Hok | exact Hiff]).
Qed.

Lemma init_inv (baudrate address toggle : Z) (w : World) (s : Sys) :
  __init__ baudrate address toggle w = Return s -> receiver_inv (bus s).
Proof.
  unfold __init__.
  destruct (negb (is_valid_node_address address)); [discriminate|].
  destruct (toggle <=? 0); [discriminate|].
  cbv [_disable_transmit_mode emit]. py_unfold.
  intros H. inversion H. cbn. unfold receiver_inv, receiver_ok. cbn. tauto.
Qed.

Lemma perform_inv (c : Call) (s : Sys) :
  receiver_inv (bus s) -> receiver_inv (bus (perform c s)).
Proof.
  intros Hinv.
  destruct c as [|d p t| | | | |a| |data|ch]; cbn [perform]; unfold after;
    try exact Hinv.
  - destruct (loop_inv s Hinv) as (s' & E & H). rewrite E. exact H.
  - destruct (send_message d p t s) as [[r|e] s'] eqn:E; cbn [snd].
    + apply send_message_return in E. destruct E as [_ E]. subst s'.
      exact Hinv.
    + apply send_message_raise_state in E. subst s'. exact Hinv.
  - unfold read, bind, self.
    destruct (_received_messages (bus s)); exact Hinv.
  - unfold set_address.
    destruct (negb (is_valid_node_address a)); exact Hinv.
Qed.

Lemma reachable_inv (s : Sys) : reachable s -> receiver_inv (bus s).
Proof.
  induction 1 as [baudrate address toggle w s Hinit | c s Hr IH].
  - apply (init_inv _ _ _ _ _ Hinit).
  - apply perform_inv. exact IH.
Qed.

(** C9: in every state reachable from the constructor through service
    ticks, calls of the public methods and events of the environment, the
    receiver state is [IDLE] exactly when there is no reception in
    progress; and a service tick from such a state returns: neither its
    timeout check nor anything else in it meets a missing reception. *)
Theorem idle_iff_no_reception (s : Sys) :
  reachable s ->
  (_receiver_state (bus s) = IDLE <-> _receiving_message (bus s) = None)
  /\ exists s', loop s = (Return tt, s').
Proof.
  intros Hr. pose proof (reachable_inv s Hr) as Hinv.
  split; [exact (proj2 Hinv)|].
  destruct (loop_inv s Hinv) as (s' & E & _). exists s'. exact E.
Qed.

Lemma receiving_node_reachable : reachable receiving_node.
Proof.
  unfold receiving_node.
  destruct (__init__ 9600 5 DEFAULT_TRANSCEIVER_TOGGLE_TIME_MS sample_world)
    as [s0|e] eqn:E; [|discriminate E].
  cbn [run fold_left].
  apply reachable_step, reachable_step.
  exact (reachable_init _ _ _ _ _ E).
Defined.

Lemma idle_iff_no_reception_witness :
  _receiver_state (bus receiving_node) = SRC_ADDRESS_RECEIVED
  /\ (_receiver_state (bus receiving_node) = IDLE
      <-> _receiving_message (bus receiving_node) = None)
  /\ exists s', loop receiving_node = (Return tt, s').
Proof.
  split; [vm_compute; reflexivity|].
  apply (idle_iff_no_reception receiving_node receiving_node_reachable).
Defined.

(** ** Destination filtering *)

(** C3: after the start-of-frame marker, a destination byte equal to the
    node's address or to the broadcast address moves the receiver on to
    [DEST_ADDRESS_RECEIVED]; any other value drops the reception in
    progress, puts the receiver back to [IDLE] and leaves the inbound queue
    as it was; and a whole frame addressed to another node, met while idle,
    adds nothing to the inbound queue. *)
Theorem destination_filter :
  (forall (b : Z) (s : Sys) (m : ReceivingMessage),
     _receiver_state (bus s) = SOH_RECEIVED ->
     _receiving_message (bus s) = Some m ->
     exists s',
       _process_byte b s = (Return tt, s')
       /\ _received_messages (bus s') = _received_messages (bus s)
       /\ (b = _address (bus s) \/ b = BROADCAST_ADDRESS ->
           _receiver_state (bus s') = DEST_ADDRESS_RECEIVED
           /\ _receiving_message (bus s') = Some (with_dst_address (Some b) m))
       /\ (b <> _address (bus s) -> b <> BROADCAST_ADDRESS ->
           _receiver_state (bus s') = IDLE
           /\ _receiving_message (bus s') = None))
  /\ (forall (src dst tid : Z) (payload : list Z) (s : Sys),
        (1 <= List.length payload <= 255)%nat -> Forall is_byte payload ->
        _receiver_state (bus s) = IDLE ->
        dst <> _address (bus s) -> dst <> BROADCAST_ADDRESS ->
        exists s',
          feed (wire_frame src dst tid payload) s = (Return tt, s')
          /\ _received_messages (bus s') = _received_messages (bus s)).
Proof.
  split.
  - intros b s m Hst Hm.
    destruct (Z.eq_dec b (_address (bus s))) as [E1|N1];
      [|destruct (Z.eq_dec b BROADCAST_ADDRESS) as [E2|N2]].
    + eexists.
      split; [apply (process_byte_dest_accept b s m Hst Hm); left; exact E1|].
      split; [reflexivity|]. split; [intros _; split; reflexivity|].
      intros N; contradiction.
    + eexists.
      split; [apply (process_byte_dest_accept b s m Hst Hm); right; exact E2|].
      split; [reflexivity|]. split; [intros _; split; reflexivity|].
      intros _ N; contradiction.
    + eexists. split; [apply (process_byte_dest_reject b s m Hst Hm N1 N2)|].
      split; [reflexivity|]. split; [|intros _ _; split; reflexivity].
      intros [E|E]; contradiction.
  - intros src dst tid payload s Hlen Hp Hst N1 N2.
    change (undelivered (wire_frame src dst tid payload) s).
    assert (Hlf : LF <> SOH) by discriminate.
    unfold wire_frame. cbn [app].
    do 3 (apply undelivered_skip; [exact Hst | exact Hlf |]).
    step process_byte_idle_soh; [exact Hst|].
    step process_byte_dest_reject; [exact N1 | exact N2|].
    apply undelivered_from_src; [exact Hlen | exact Hp | reflexivity].
Qed.

Lemma destination_filter_witness :
  (exists s',
     _process_byte 5 after_soh = (Return tt, s')
     /\ _receiver_state (bus s') = DEST_ADDRESS_RECEIVED)
  /\ (exists s',
        _process_byte 6 after_soh = (Return tt, s')
        /\ _received_messages (bus s') = _received_messages (bus after_soh)
        /\ _receiver_state (bus s') = IDLE
        /\ _receiving_message (bus s') = None)
  /\ (exists s',
        feed (wire_frame 0 6 7 [1; 2]) (sample_node 5) = (Return tt, s')
        /\ _received_messages (bus s') = _received_messages (bus (sample_node 5))).
Proof.
  split; [|split].
  - destruct (proj1 destination_filter 5 after_soh _ eq_refl eq_refl)
      as (s' & E & _ & Hacc & _).
    exists s'. split; [exact E|]. apply Hacc. left. reflexivity.
  - destruct (proj1 destination_filter 6 after_soh _ eq_refl eq_refl)
      as (s' & E & Hq & _ & Hrej).
    exists s'. split; [exact E|]. split; [exact Hq|].
    apply Hrej; discriminate.
  - apply (proj2 destination_filter 0 6 7 [1; 2] (sample_node 5)).
    + simpl. lia.
    + repeat constructor; unfold is_byte; lia.
    + reflexivity.
    + discriminate.
    + discriminate.
Defined.

(** * Further properties of the module *)

(** ** Construction *)

(** X1: the constructor raises [ValueError] unless the address is in 0..254
    and the settle time is positive; otherwise the engine it returns has
    the given address, settle time and baud rate, is idle with no reception
    in progress and both queues empty, has taken its last-bus-activity
    time from the clock, and has switched the direction pin off. *)
Theorem constructor_outcome (baudrate address toggle : Z) (w : World) :
  __init__ baudrate address toggle w
  = if (0 <=? address) && (address <=? 254) && (0 <? toggle)
    then Return
           (mkSys (mkBus baudrate address toggle (clock w (clock_reads w))
                         IDLE None [] [])
                  (mkWorld (clock w) (S (clock_reads w)) (utime_ticks_diff w)
                           (rx_buffer w) (channel w)
                           (trace w ++ [PinOff; SleepUs toggle])))
    else Raise ValueError.
Proof.
  unfold __init__, is_valid_node_address, FIRST_NODE_ADDRESS,
    LAST_NODE_ADDRESS, BROADCAST_ADDRESS.
  change (255 - 1) with 254.
  destruct ((0 <=? address) && (address <=? 254)); [|reflexivity].
  cbn [negb andb]. rewrite Z.leb_antisym.
  destruct (0 <? toggle); [|reflexivity]. cbn [negb].
  destruct w. cbv [_disable_transmit_mode emit]. py_unfold.
  rewrite <- app_assoc. reflexivity.
Qed.

(** X2: a slave is constructed exactly for the addresses 1..254 (and a
    positive settle time), and then it is the engine the constructor of
    [Simple485Remastered] returns; address 0, the master's, and 255, the
    broadcast address, raise [ValueError]. *)
Theorem slave_constructor_outcome (baudrate address toggle : Z) (w : World) :
  Slave_init baudrate address toggle w
  = if (1 <=? address) && (address <=? 254) && (0 <? toggle)
    then __init__ baudrate address toggle w
    else Raise ValueError.
Proof.
  unfold Slave_init, Node_init, is_valid_slave_address, is_valid_node_address,
    MASTER_ADDRESS, FIRST_NODE_ADDRESS, LAST_NODE_ADDRESS, BROADCAST_ADDRESS.
  change (255 - 1) with 254.
  destruct (Z.leb_spec 0 address), (Z.leb_spec 1 address),
    (Z.leb_spec address 254), (Z.eqb_spec address 0); cbn [negb andb];
    try lia; try reflexivity.
  - destruct (0 <? toggle) eqn:E; [reflexivity|].
    unfold __init__, is_valid_node_address, FIRST_NODE_ADDRESS,
      LAST_NODE_ADDRESS, BROADCAST_ADDRESS.
    destruct (negb _); [reflexivity|].
    rewrite Z.leb_antisym, E. reflexivity.
Qed.

(** ** The wire format *)

Lemma valid_encoded_multiples (b : Z) :
  is_valid_encoded_byte b = true <-> exists k, 1 <= k <= 16 /\ b = 15 * k.
Proof.
  split.
  - intros Hv. destruct (valid_encoded_byte_facts b Hv) as (Hb & _).
    pose proof (all_bytes_spec
      (fun b => implb (is_valid_encoded_byte b)
                  ((b mod 15 =? 0) && (15 <=? b) && (b <=? 240)))
      ltac:(vm_compute; reflexivity) b Hb) as E.
    cbv beta in E. rewrite Hv in E. cbn [implb] in E.
    apply andb_prop in E. destruct E as [E E3].
    apply andb_prop in E. destruct E as [E1 E2].
    apply Z.eqb_eq in E1. apply Z.leb_le in E2, E3.
    exists (b / 15). pose proof (Z.div_mod b 15 ltac:(lia)) as Hd.
    rewrite E1 in Hd. split; [|lia].
    split.
    + apply Z.div_le_lower_bound; lia.
    + apply Z.div_le_upper_bound; lia.
  - intros (k & Hk & ->).
    assert (Hb : is_byte k) by (unfold is_byte; lia).
    pose proof (all_bytes_spec
      (fun k => implb ((1 <=? k) && (k <=? 16)) (is_valid_encoded_byte (15 * k)))
      ltac:(vm_compute; reflexivity) k Hb) as E.
    cbv beta in E.
    replace ((1 <=? k) && (k <=? 16)) with true in E
      by (symmetry; apply andb_true_intro; split; apply Z.leb_le; lia).
    exact E.
Qed.

(** X3: the bytes the receiver takes for encoded data are exactly the
    sixteen multiples of 15 from 15 to 240, so none of the control bytes
    (NUL, SOH, STX, ETX, EOT, LF) is one; the two wire bytes of any payload
    byte are among them, and putting the high nibble of the first and the
    low nibble of the second together, as the receiver does, gives the
    payload byte back. *)
Theorem nibble_encoding :
  (forall b, is_valid_encoded_byte b = true
             <-> exists k, 1 <= k <= 16 /\ b = 15 * k)
  /\ forallb (fun c => negb (is_valid_encoded_byte c))
             [NULL; SOH; STX; ETX; EOT; LF] = true
  /\ (forall p, is_byte p ->
        is_valid_encoded_byte (high_nibble_byte p) = true
        /\ is_valid_encoded_byte (low_nibble_byte p) = true
        /\ Z.lor (Z.land (high_nibble_byte p) 240)
                 (Z.land (low_nibble_byte p) 15) = p).
Proof.
  split; [exact valid_encoded_multiples|]. split; [reflexivity|].
  intros p Hp. split; [apply high_nibble_byte_valid; exact Hp|].
  split; [apply low_nibble_byte_valid; exact Hp|].
  apply nibbles_decode. exact Hp.
Qed.

Lemma nibble_encoding_witness :
  is_valid_encoded_byte (high_nibble_byte 165) = true
  /\ is_valid_encoded_byte (low_nibble_byte 165) = true
  /\ Z.lor (Z.land (high_nibble_byte 165) 240)
           (Z.land (low_nibble_byte 165) 15) = 165.
Proof.
  apply (proj2 (proj2 nibble_encoding) 165). unfold is_byte. lia.
Defined.

(** X4: the frame [send_message] builds for a payload of n bytes has
    14 + 2n bytes (three LF, six header bytes, two per payload byte, ETX,
    checksum, EOT, two LF), all of them byte values; the bytes of its body,
    from after STX to before ETX, are all encoded data bytes, and the byte
    after the body is ETX. *)
Theorem wire_frame_shape (src dst tid : Z) (payload : list Z) :
  is_byte src -> is_byte dst -> is_byte tid ->
  (List.length payload <= 255)%nat -> Forall is_byte payload ->
  List.length (wire_frame src dst tid payload)
  = (14 + 2 * List.length payload)%nat
  /\ Forall is_byte (wire_frame src dst tid payload)
  /\ firstn 9 (wire_frame src dst tid payload)
     = [LF; LF; LF; SOH; dst; src; tid; Z.of_nat (List.length payload); STX]
  /\ Forall (fun b => is_valid_encoded_byte b = true)
            (firstn (2 * List.length payload)
                    (skipn 9 (wire_frame src dst tid payload)))
  /\ skipn (9 + 2 * List.length payload) (wire_frame src dst tid payload)
     = [ETX; frame_crc src dst payload; EOT; LF; LF].
Proof.
  intros Hs Hd Ht Hlen Hp.
  assert (Hl : is_byte (Z.of_nat (List.length payload))) by (unfold is_byte; lia).
  unfold wire_frame. split; [|split; [|split; [|split]]].
  - rewrite !length_app, encode_payload_length. cbn [List.length]. lia.
  - apply Forall_app. split.
    + unfold is_byte, LF, SOH, STX in *.
      repeat (apply Forall_cons; [lia|]). apply Forall_nil.
    + apply Forall_app. split.
      * eapply Forall_impl; [|apply encode_payload_valid; exact Hp].
        intros b Hv. apply (valid_encoded_byte_facts b Hv).
      * pose proof (frame_crc_byte src dst payload Hs Hd Hl Hp) as Hc.
        unfold is_byte, LF, ETX, EOT in *.
        repeat (apply Forall_cons; [lia|]). apply Forall_nil.
  - reflexivity.
  - cbn [app skipn]. rewrite <- encode_payload_length.
    rewrite firstn_app, Nat.sub_diag, firstn_all. cbn [firstn].
    rewrite app_nil_r. apply encode_payload_valid. exact Hp.
  - cbn [app skipn Nat.add]. rewrite <- encode_payload_length.
    rewrite skipn_app, Nat.sub_diag, skipn_all. reflexivity.
Qed.

Lemma wire_frame_shape_witness :
  List.length (wire_frame 0 5 7 [104; 105]) = (14 + 2 * 2)%nat
  /\ Forall is_byte (wire_frame 0 5 7 [104; 105])
  /\ firstn 9 (wire_frame 0 5 7 [104; 105])
     = [LF; LF; LF; SOH; 5; 0; 7; 2; STX]
  /\ Forall (fun b => is_valid_encoded_byte b = true)
            (firstn (2 * 2) (skipn 9 (wire_frame 0 5 7 [104; 105])))
  /\ skipn (9 + 2 * 2) (wire_frame 0 5 7 [104; 105])
     = [ETX; frame_crc 0 5 [104; 105]; EOT; LF; LF].
Proof.
  apply (wire_frame_shape 0 5 7 [104; 105]).
  - unfold is_byte; lia.
  - unfold is_byte; lia.
  - unfold is_byte; lia.
  - simpl; lia.
  - repeat constructor; unfold is_byte; lia.
Defined.

(** ** Changing the address *)

Lemma set_address_spec (a : Z) (s : Sys) :
  set_address a s
  = if (0 <=? a) && (a <=? 254) then (Return tt, readdressed a s)
    else (Raise ValueError, s).
Proof.
  unfold set_address, is_valid_node_address, FIRST_NODE_ADDRESS,
    LAST_NODE_ADDRESS, BROADCAST_ADDRESS.
  change (255 - 1) with 254.
  destruct ((0 <=? a) && (a <=? 254)); reflexivity.
Qed.

(** The rest of a frame, from the source byte on, met right after its
    destination byte was accepted. *)
Lemma feed_after_dest (d src tid : Z) (payload : list Z) (s : Sys)
    (m : ReceivingMessage) :
  (1 <= List.length payload <= 255)%nat -> Forall is_byte payload ->
  _receiver_state (bus s) = DEST_ADDRESS_RECEIVED ->
  _receiving_message (bus s) = Some m ->
  dst_address m = Some d -> is_first_nibble m = true ->
  payload_buffer m = [] ->
  feed (src :: tid :: Z.of_nat (List.length payload) :: STX
        :: encode_payload payload
           ++ [ETX; frame_crc src d payload; EOT; LF; LF]) s
  = (Return tt,
     set_rx IDLE None
       (deliver (mkReceivedMessage (Some src) (Some d) (Some tid)
                   (Some (Z.of_nat (List.length payload))) payload) s)).
Proof.
  intros Hlen Hp Hst Hm Hd Hf Hbuf.
  assert (Hlf : LF <> SOH) by discriminate.
  destruct m as [ts d0 a0 t0 l0 c0 f0 inc0 buf0].
  cbn [dst_address is_first_nibble payload_buffer] in *. subst d0 f0 buf0.
  erewrite feed_cons by (eapply process_byte_src; [exact Hst | exact Hm]).
  erewrite feed_cons by (eapply process_byte_tid; reflexivity).
  erewrite feed_cons
    by (eapply process_byte_len_accept;
        [reflexivity | reflexivity | unfold MAX_MESSAGE_LEN; lia]).
  erewrite feed_cons by (eapply process_byte_stx; reflexivity).
  match goal with |- feed _ (set_rx ?st (Some ?m) ?s0) = _ =>
    destruct (feed_encoded_payload payload Hp (set_rx st (Some m) s0) m _
                eq_refl eq_refl eq_refl eq_refl) as [v Hv]
  end.
  rewrite (feed_app _ _ _ _ Hv).
  erewrite feed_cons by (eapply process_byte_etx; reflexivity).
  cbn [length payload_buffer py_eq app with_crc with_length].
  rewrite Z.eqb_refl.
  erewrite feed_cons by (eapply process_byte_crc; reflexivity).
  cbn [crc py_eq]. unfold frame_crc.
  rewrite (Z.lxor_comm d src). rewrite Z.eqb_refl.
  erewrite feed_cons by (eapply process_byte_eot; reflexivity).
  erewrite feed_cons
    by (eapply process_byte_idle_other; [reflexivity | exact Hlf]).
  erewrite feed_cons
    by (eapply process_byte_idle_other; [reflexivity | exact Hlf]).
  reflexivity.
Qed.

(** X5: [set_address] raises [ValueError] for an address outside 0..254,
    the broadcast address included, and changes nothing then; for a valid
    address it returns, [get_address] answers the new address, and from
    then on an idle receiver delivers the frames sent to the new address
    and lets those sent to the old one go by. *)
Theorem set_address_takes_effect :
  (forall (a : Z) (s : Sys),
     ~ 0 <= a <= 254 -> set_address a s = (Raise ValueError, s))
  /\ (forall (a src tid : Z) (payload : list Z) (s : Sys),
        0 <= a <= 254 ->
        (1 <= List.length payload <= 255)%nat -> Forall is_byte payload ->
        _receiver_state (bus s) = IDLE ->
        _address (bus s) <> a -> _address (bus s) <> BROADCAST_ADDRESS ->
        exists s1,
          set_address a s = (Return tt, s1)
          /\ get_address s1 = (Return a, s1)
          /\ (exists s2,
                feed (wire_frame src a tid payload) s1 = (Return tt, s2)
                /\ _received_messages (bus s2)
                   = _received_messages (bus s)
                     ++ [mkReceivedMessage (Some src) (Some a) (Some tid)
                           (Some (Z.of_nat (List.length payload))) payload])
          /\ (exists s3,
                feed (wire_frame src (_address (bus s)) tid payload) s1
                = (Return tt, s3)
                /\ _received_messages (bus s3) = _received_messages (bus s))).
Proof.
  split.
  - intros a s Ha. rewrite set_address_spec.
    destruct (Z.leb_spec 0 a), (Z.leb_spec a 254); cbn [andb];
      try reflexivity. lia.
  - intros a src tid payload s Ha Hlen Hp Hst Hold Hbc.
    exists (readdressed a s). rewrite set_address_spec.
    replace ((0 <=? a) && (a <=? 254)) with true
      by (symmetry; apply andb_true_intro; split; apply Z.leb_le; lia).
    split; [reflexivity|]. split; [reflexivity|]. split.
    + eexists. split.
      * apply (feed_wire_frame src a tid payload (readdressed a s) Hlen Hp Hst).
        left. reflexivity.
      * reflexivity.
    + change (undelivered (wire_frame src (_address (bus s)) tid payload)
                (readdressed a s)).
      assert (Hlf : LF <> SOH) by discriminate.
      unfold wire_frame. cbn [app].
      do 3 (apply undelivered_skip; [exact Hst | exact Hlf |]).
      step process_byte_idle_soh; [exact Hst|].
      step process_byte_dest_reject; [exact Hold | exact Hbc|].
      apply undelivered_from_src; [exact Hlen | exact Hp | reflexivity].
Qed.

Lemma set_address_takes_effect_witness :
  set_address 255 (sample_node 5) = (Raise ValueError, sample_node 5)
  /\ exists s1,
       set_address 9 (sample_node 5) = (Return tt, s1)
       /\ get_address s1 = (Return 9, s1)
       /\ (exists s2,
             feed (wire_frame 0 9 7 [1; 2]) s1 = (Return tt, s2)
             /\ _received_messages (bus s2)
                = _received_messages (bus (sample_node 5))
                  ++ [mkReceivedMessage (Some 0) (Some 9) (Some 7)
                        (Some (Z.of_nat (List.length [1; 2]))) [1; 2]])
       /\ (exists s3,
             feed (wire_frame 0 (_address (bus (sample_node 5))) 7 [1; 2]) s1
             = (Return tt, s3)
             /\ _received_messages (bus s3)
                = _received_messages (bus (sample_node 5))).
Proof.
  split.
  - apply (proj1 set_address_takes_effect 255 (sample_node 5)). lia.
  - apply (proj2 set_address_takes_effect 9 0 7 [1; 2] (sample_node 5)).
    + lia.
    + simpl. lia.
    + repeat constructor; unfold is_byte; lia.
    + reflexivity.
    + simpl. discriminate.
    + simpl. discriminate.
Defined.

(** X6: the destination is checked once, when its byte arrives: if the
    address changes after the destination byte of a frame was accepted,
    the rest of that frame is still received and delivered, under the
    address it was sent to. *)
Theorem address_change_mid_reception (a src tid : Z) (payload : list Z)
    (s : Sys) :
  0 <= a <= 254 ->
  (1 <= List.length payload <= 255)%nat -> Forall is_byte payload ->
  _receiver_state (bus s) = IDLE ->
  let d := _address (bus s) in
  exists s1 s2 s3,
    feed [LF; LF; LF; SOH; d] s = (Return tt, s1)
    /\ set_address a s1 = (Return tt, s2)
    /\ feed (src :: tid :: Z.of_nat (List.length payload) :: STX
             :: encode_payload payload
                ++ [ETX; frame_crc src d payload; EOT; LF; LF]) s2
       = (Return tt, s3)
    /\ _address (bus s3) = a
    /\ _received_messages (bus s3)
       = _received_messages (bus s)
         ++ [mkReceivedMessage (Some src) (Some d) (Some tid)
               (Some (Z.of_nat (List.length payload))) payload].
Proof.
  intros Ha Hlen Hp Hst d.
  assert (Hlf : LF <> SOH) by discriminate.
  eexists. eexists. eexists. split.
  { do 3 rewrite (feed_cons _ _ _ _ (process_byte_idle_other LF s Hst Hlf)).
    rewrite (feed_cons _ _ _ _ (process_byte_idle_soh s Hst)).
    erewrite feed_cons
      by (eapply process_byte_dest_accept;
          [reflexivity | reflexivity | left; reflexivity]).
    reflexivity. }
  split.
  { rewrite set_address_spec.
    replace ((0 <=? a) && (a <=? 254)) with true
      by (symmetry; apply andb_true_intro; split; apply Z.leb_le; lia).
    reflexivity. }
  split.
  { eapply (feed_after_dest d src tid payload); try reflexivity; assumption. }
  split; reflexivity.
Qed.

Lemma address_change_mid_reception_witness :
  exists s1 s2 s3,
    feed [LF; LF; LF; SOH; 5] (sample_node 5) = (Return tt, s1)
    /\ set_address 9 s1 = (Return tt, s2)
    /\ feed (0 :: 7 :: Z.of_nat (List.length [1; 2]) :: STX
             :: encode_payload [1; 2]
                ++ [ETX; frame_crc 0 5 [1; 2]; EOT; LF; LF]) s2
       = (Return tt, s3)
    /\ _address (bus s3) = 9
    /\ _received_messages (bus s3)
       = _received_messages (bus (sample_node 5))
         ++ [mkReceivedMessage (Some 0) (Some 5) (Some 7)
               (Some (Z.of_nat (List.length [1; 2]))) [1; 2]].
Proof.
  apply (address_change_mid_reception 9 0 7 [1; 2] (sample_node 5)).
  - lia.
  - simpl. lia.
  - repeat constructor; unfold is_byte; lia.
  - reflexivity.
Defined.

(** ** Reading the inbound queue *)

(** X7: messages are read in the order their frames arrived: after two
    frames for the node were fed to its idle receiver with nothing queued,
    [available] answers 2, [read] returns the message of the first frame,
    then that of the second, and a third [read] raises [ValueError] and
    changes nothing. *)
Theorem read_in_arrival_order (s : Sys) (src1 tid1 src2 tid2 : Z)
    (payload1 payload2 : list Z) :
  (1 <= List.length payload1 <= 255)%nat -> Forall is_byte payload1 ->
  (1 <= List.length payload2 <= 255)%nat -> Forall is_byte payload2 ->
  _receiver_state (bus s) = IDLE ->
  _received_messages (bus s) = [] ->
  let d := _address (bus s) in
  let m1 := mkReceivedMessage (Some src1) (Some d) (Some tid1)
              (Some (Z.of_nat (List.length payload1))) payload1 in
  let m2 := mkReceivedMessage (Some src2) (Some d) (Some tid2)
              (Some (Z.of_nat (List.length payload2))) payload2 in
  exists s1 s2 s3,
    feed (wire_frame src1 d tid1 payload1 ++ wire_frame src2 d tid2 payload2) s
    = (Return tt, s1)
    /\ available s1 = (Return 2, s1)
    /\ read s1 = (Return m1, s2)
    /\ read s2 = (Return m2, s3)
    /\ available s3 = (Return 0, s3)
    /\ read s3 = (Raise ValueError, s3).
Proof.
  intros H1 Hp1 H2 Hp2 Hst Hq d m1 m2.
  eexists. eexists. eexists. split.
  { erewrite feed_app
      by (apply (feed_wire_frame src1 d tid1 payload1 s H1 Hp1 Hst);
          left; reflexivity).
    apply (feed_wire_frame src2 d tid2 payload2 _ H2 Hp2); [reflexivity|].
    left. reflexivity. }
  unfold available, read, bind, self, ret, update_self, raise.
  cbn [bus set_rx deliver with_received_messages _received_messages
       clock_tick world].
  rewrite Hq. cbn [app List.length Z.of_nat].
  repeat split.
Qed.

Lemma read_in_arrival_order_witness :
  exists s1 s2 s3,
    feed (wire_frame 0 5 1 [65] ++ wire_frame 0 5 2 [66; 67]) (sample_node 5)
    = (Return tt, s1)
    /\ available s1 = (Return 2, s1)
    /\ read s1
       = (Return (mkReceivedMessage (Some 0) (Some 5) (Some 1) (Some 1) [65]),
          s2)
    /\ read s2
       = (Return (mkReceivedMessage (Some 0) (Some 5) (Some 2) (Some 2)
                    [66; 67]), s3)
    /\ available s3 = (Return 0, s3)
    /\ read s3 = (Raise ValueError, s3).
Proof.
  apply (read_in_arrival_order (sample_node 5) 0 1 0 2 [65] [66; 67]).
  - simpl. lia.
  - repeat constructor; unfold is_byte; lia.
  - simpl. lia.
  - repeat constructor; unfold is_byte; lia.
  - reflexivity.
  - reflexivity.
Defined.

(** ** The receive phase *)

Lemma receive_loop_idle_fill (pending : list (option Z)) :
  forall s,
    _receiver_state (bus s) = IDLE ->
    Forall (fun o => o = None \/ o = Some NULL) pending ->
    pending <> [] ->
    _receive_loop pending s = (Return tt, with_rx_buffer [] s).
Proof.
  induction pending as [|o rest IH]; intros s Hst Hall Hne; [congruence|].
  inversion Hall as [|? ? Ho Hrest]; subst.
  cbn [_receive_loop]. unfold bind at 1.
  unfold set_rx_buffer at 1, update_platform at 1.
  unfold bind at 1. unfold self at 1. cbn [bus]. rewrite Hst.
  assert (Hnext : _receive_loop rest (with_rx_buffer rest s)
                  = (Return tt, with_rx_buffer [] s)).
  { destruct rest as [|o' rest'].
    - reflexivity.
    - rewrite IH; [reflexivity | exact Hst | exact Hrest | discriminate]. }
  destruct Ho as [->| ->]; [exact Hnext|].
  change ((NULL =? NULL) && ReceiverState_eqb IDLE IDLE) with true.
  exact Hnext.
Qed.

(** X8: NUL bytes and empty reads met while the receiver is idle are
    consumed and nothing else happens: the engine is as it was, the
    last-bus-activity time included, and the clock is not even read. *)
Theorem idle_fill_is_ignored (s : Sys) :
  _receiver_state (bus s) = IDLE ->
  Forall (fun o => o = None \/ o = Some NULL) (rx_buffer (world s)) ->
  _receive s = (Return tt, with_rx_buffer [] s).
Proof.
  intros Hst Hall. unfold _receive, bind, platform.
  destruct (rx_buffer (world s)) as [|o rest] eqn:E.
  - destruct s as [b w]. destruct w. cbn in E. subst. reflexivity.
  - apply receive_loop_idle_fill; [exact Hst | exact Hall | discriminate].
Qed.

Lemma idle_fill_is_ignored_witness :
  _receive (with_rx_buffer [Some 0; None; Some 0; Some 0] (sample_node 5))
  = (Return tt,
     with_rx_buffer []
       (with_rx_buffer [Some 0; None; Some 0; Some 0] (sample_node 5))).
Proof.
  apply (idle_fill_is_ignored
           (with_rx_buffer [Some 0; None; Some 0; Some 0] (sample_node 5))).
  - reflexivity.
  - repeat constructor; first [left; reflexivity | right; reflexivity].
Defined.

(** ** Replies *)

(** X9: request and reply: the message a node receives from a frame sent
    to its own address can be answered with [respond]; the reply is queued
    as a frame to the requester's address with the request's transaction
    id, and the requester's receiver delivers it as a message from the
    responder with that transaction id and the reply's payload. *)
Theorem respond_round_trip (requester responder : Sys) (tid : Z)
    (request reply : list Z) :
  (1 <= List.length request <= 255)%nat -> Forall is_byte request ->
  (1 <= List.length reply <= 255)%nat -> Forall is_byte reply ->
  is_byte tid ->
  is_byte (_address (bus requester)) ->
  0 <= _address (bus responder) <= 254 ->
  _receiver_state (bus requester) = IDLE ->
  _receiver_state (bus responder) = IDLE ->
  let a := _address (bus requester) in
  let d := _address (bus responder) in
  exists m responder1 responder2 requester1,
    feed (wire_frame a d tid request) responder = (Return tt, responder1)
    /\ _received_messages (bus responder1)
       = _received_messages (bus responder) ++ [m]
    /\ respond m reply false responder1 = (Return true, responder2)
    /\ _output_messages (bus responder2)
       = _output_messages (bus responder) ++ [wire_frame d a tid reply]
    /\ feed (wire_frame d a tid reply) requester = (Return tt, requester1)
    /\ _received_messages (bus requester1)
       = _received_messages (bus requester)
         ++ [mkReceivedMessage (Some d) (Some a) (Some tid)
               (Some (Z.of_nat (List.length reply))) reply].
Proof.
  intros Hq Hpq Hr Hpr Ht Ha Hd Hsa Hsd a d.
  eexists. eexists. eexists. eexists. split.
  { apply (feed_wire_frame a d tid request responder Hq Hpq Hsd).
    left. reflexivity. }
  split; [reflexivity|]. split.
  { unfold respond, is_broadcast. cbn [msg_dest_address msg_src_address
      msg_transaction_id send_message_fields].
    replace (d =? BROADCAST_ADDRESS) with false
      by (symmetry; apply Z.eqb_neq; unfold BROADCAST_ADDRESS; subst d; lia).
    cbn [andb].
    apply send_message_ok; try assumption.
    cbn [bus set_rx deliver _address with_received_messages clock_tick].
    unfold is_byte. fold d. lia. }
  split; [reflexivity|]. split.
  { apply (feed_wire_frame d a tid reply requester Hr Hpr Hsa).
    left. reflexivity. }
  reflexivity.
Qed.

Lemma respond_round_trip_witness :
  exists m responder1 responder2 requester1,
    feed (wire_frame 0 5 7 [112; 105; 110; 103]) (sample_node 5)
    = (Return tt, responder1)
    /\ _received_messages (bus responder1)
       = _received_messages (bus (sample_node 5)) ++ [m]
    /\ respond m [112; 111; 110; 103] false responder1
       = (Return true, responder2)
    /\ _output_messages (bus responder2)
       = _output_messages (bus (sample_node 5))
         ++ [wire_frame 5 0 7 [112; 111; 110; 103]]
    /\ feed (wire_frame 5 0 7 [112; 111; 110; 103]) (sample_node 0)
       = (Return tt, requester1)
    /\ _received_messages (bus requester1)
       = _received_messages (bus (sample_node 0))
         ++ [mkReceivedMessage (Some 5) (Some 0) (Some 7)
               (Some (Z.of_nat (List.length [112; 111; 110; 103])))
               [112; 111; 110; 103]].
Proof.
  apply (respond_round_trip (sample_node 0) (sample_node 5) 7
           [112; 105; 110; 103] [112; 111; 110; 103]).
  - simpl. lia.
  - repeat constructor; unfold is_byte; lia.
  - simpl. lia.
  - repeat constructor; unfold is_byte; lia.
  - unfold is_byte. lia.
  - unfold is_byte. simpl. lia.
  - simpl. lia.
  - reflexivity.
  - reflexivity.
Defined.

(** X10: a broadcast frame is delivered by a node whatever its address;
    [respond] on the message raises [ValueError] and queues nothing, unless
    broadcast replies are allowed, in which case the reply is queued for
    the sender of the broadcast. *)
Theorem respond_to_broadcast (s : Sys) (src tid : Z) (request reply : list Z) :
  (1 <= List.length request <= 255)%nat -> Forall is_byte request ->
  (1 <= List.length reply <= 255)%nat -> Forall is_byte reply ->
  is_byte src -> is_byte tid -> is_byte (_address (bus s)) ->
  _receiver_state (bus s) = IDLE ->
  exists m s1 s2,
    feed (wire_frame src BROADCAST_ADDRESS tid request) s = (Return tt, s1)
    /\ _received_messages (bus s1) = _received_messages (bus s) ++ [m]
    /\ is_broadcast m = true
    /\ respond m reply false s1 = (Raise ValueError, s1)
    /\ respond m reply true s1 = (Return true, s2)
    /\ _output_messages (bus s2)
       = _output_messages (bus s)
         ++ [wire_frame (_address (bus s)) src tid reply].
Proof.
  intros Hq Hpq Hr Hpr Hs Ht Ha Hst.
  eexists. eexists. eexists. split.
  { apply (feed_wire_frame src BROADCAST_ADDRESS tid request s Hq Hpq Hst).
    right. reflexivity. }
  split; [reflexivity|]. split; [reflexivity|]. split; [reflexivity|].
  split.
  { unfold respond, is_broadcast. cbn [msg_dest_address msg_src_address
      msg_transaction_id send_message_fields].
    change (BROADCAST_ADDRESS =? BROADCAST_ADDRESS) with true. cbn [andb negb].
    apply send_message_ok; assumption. }
  reflexivity.
Qed.

Lemma respond_to_broadcast_witness :
  exists m s1 s2,
    feed (wire_frame 0 BROADCAST_ADDRESS 7 [1]) (sample_node 5) = (Return tt, s1)
    /\ _received_messages (bus s1)
       = _received_messages (bus (sample_node 5)) ++ [m]
    /\ is_broadcast m = true
    /\ respond m [2] false s1 = (Raise ValueError, s1)
    /\ respond m [2] true s1 = (Return true, s2)
    /\ _output_messages (bus s2)
       = _output_messages (bus (sample_node 5))
         ++ [wire_frame (_address (bus (sample_node 5))) 0 7 [2]].
Proof.
  apply (respond_to_broadcast (sample_node 5) 0 7 [1] [2]).
  - simpl. lia.
  - repeat constructor; unfold is_byte; lia.
  - simpl. lia.
  - repeat constructor; unfold is_byte; lia.
  - unfold is_byte. lia.
  - unfold is_byte. lia.
  - unfold is_byte. simpl. lia.
  - reflexivity.
Defined.

(** ** The parts of a service tick *)

Lemma loop_parts (s : Sys) :
  loop s = (_receive ;; _transmit ;; timeout_check) s.
Proof. reflexivity. Qed.

Lemma timeout_check_idle (s : Sys) :
  _receiver_state (bus s) = IDLE -> timeout_check s = (Return tt, s).
Proof.
  intros Hst. unfold timeout_check, bind, self. rewrite Hst. reflexivity.
Qed.

Lemma timeout_check_receiving (s : Sys) (m : ReceivingMessage) :
  _receiver_state (bus s) <> IDLE ->
  _receiving_message (bus s) = Some m ->
  timeout_check s
  = (Return tt,
     if utime_ticks_diff (world s) (now s) (timestamp m) >? PACKET_TIMEOUT_MS
     then set_rx IDLE None (clock_tick s)
     else clock_tick s).
Proof.
  intros Hst Hm.
  destruct s as [bu w]. destruct bu as [ba ad tg la st rm rc ou]. destruct w.
  cbn [bus _receiver_state _receiving_message] in *. subst rm.
  destruct st; try congruence;
    unfold timeout_check; py_unfold;
    cbv [ticks_diff ReceiverState_eqb bind platform ret];
    cbn [world utime_ticks_diff];
    match goal with |- context [if ?c then _ else _] => destruct c end;
    reflexivity.
Qed.

(** The three ways the timeout check can leave the engine. *)
Lemma timeout_check_cases (s : Sys) :
  after timeout_check s = s
  \/ after timeout_check s = clock_tick s
  \/ after timeout_check s = set_rx IDLE None (clock_tick s).
Proof.
  destruct (_receiver_state (bus s)) eqn:Hst;
    try (left; unfold after; rewrite (timeout_check_idle s Hst); reflexivity);
    (destruct (_receiving_message (bus s)) as [m|] eqn:Hm;
     [ unfold after; rewrite (timeout_check_receiving s m) by congruence;
       destruct (_ >? _); cbn [snd]; [right; right | right; left]; reflexivity
     | right; left;
       destruct s as [bu w]; destruct bu; destruct w;
       cbn [bus _receiver_state _receiving_message] in *; subst;
       reflexivity ]).
Qed.

Lemma receive_empty (s : Sys) :
  rx_buffer (world s) = [] -> _receive s = (Return tt, s).
Proof.
  intros H. unfold _receive, bind, platform. rewrite H. reflexivity.
Qed.

(** [_transmit] returns, and leaves the receiver, the inbound queue and the
    configuration alone. *)
Lemma transmit_leaves_receiver (s : Sys) :
  exists r s',
    _transmit s = (Return r, s')
    /\ receiver_view s' = receiver_view s
    /\ _receiving_message (bus s') = _receiving_message (bus s)
    /\ same_config s s'
    /\ rx_buffer (world s') = rx_buffer (world s)
    /\ utime_ticks_diff (world s') = utime_ticks_diff (world s).
Proof.
  pose proof (transmit_spec s) as H. unfold same_config.
  destruct (_output_messages (bus s)) as [|frame rest].
  - exists false, s. split; [exact H|]. repeat split.
  - destruct (_ <? LINE_READY_TIME_MS).
    + eexists. eexists. split; [exact H|]. repeat split.
    + destruct H as (waits & _ & H). cbv zeta in H.
      destruct (channel_completes _ _); eexists; eexists;
        (split; [exact H|]); repeat split.
Qed.

(** ** Invariants of the engine over runs *)

Section Preservation.

Variable P : Sys -> Prop.

Hypothesis P_rx : forall s l, P s -> P (with_rx_buffer l s).
Hypothesis P_activity :
  forall s, P s ->
            P (mkSys (with_last_bus_activity (now s) (bus s))
                     (world (clock_tick s))).
Hypothesis P_byte : forall b s, P s -> P (after (_process_byte b) s).
Hypothesis P_transmit : forall s, P s -> P (after _transmit s).
Hypothesis P_tick : forall s, P s -> P (clock_tick s).
Hypothesis P_drop : forall s, P s -> P (set_rx IDLE None s).
Hypothesis P_queue : forall s q, P s -> P (with_queue q s).
Hypothesis P_read :
  forall s m rest, _received_messages (bus s) = m :: rest ->
                   P s -> P (with_inbound rest s).
Hypothesis P_address :
  forall a s, 0 <= a <= 254 -> P s -> P (readdressed a s).
Hypothesis P_channel : forall ch s, P s -> P (with_channel ch s).
Hypothesis P_init :
  forall baudrate address toggle w s,
    __init__ baudrate address toggle w = Return s -> P s.

Lemma receive_loop_preserves (pending : list (option Z)) :
  forall s, P s -> P (after (_receive_loop pending) s).
Proof.
  induction pending as [|byte rest IH]; intros s Hs; [exact Hs|].
  unfold after in *. cbn [_receive_loop].
  unfold bind at 1. unfold set_rx_buffer at 1, update_platform at 1.
  unfold bind at 1. unfold self at 1. cbn [bus].
  pose proof (P_rx s rest Hs) as H0. unfold with_rx_buffer in H0.
  set (s0 := mkSys (bus s) _) in *. clearbody s0.
  destruct byte as [b|]; [|apply IH; exact H0].
  destruct ((b =? NULL) && ReceiverState_eqb (_receiver_state (bus s)) IDLE);
    [apply IH; exact H0|].
  unfold bind at 1. unfold get_milliseconds at 1.
  cbv [bind platform update_platform ret update_self].
  cbn [bus world clock clock_reads].
  pose proof (P_activity s0 H0) as H1. unfold now, clock_tick in H1.
  cbn [bus world] in H1.
  match goal with |- context [_process_byte b ?s1] =>
    pose proof (P_byte b s1 H1) as H2; unfold after in H2;
    destruct (_process_byte b s1) as [[[]|e] s2]
  end; cbn [snd] in *.
  - apply IH. exact H2.
  - exact H2.
Qed.

Lemma loop_preserves (s : Sys) : P s -> P (after loop s).
Proof.
  intros Hs. unfold after. rewrite loop_parts.
  unfold bind at 1. unfold _receive, bind at 1. unfold platform at 1.
  pose proof (receive_loop_preserves (rx_buffer (world s)) s Hs) as H1.
  unfold after in H1.
  destruct (_receive_loop (rx_buffer (world s)) s) as [[[]|e] s1];
    cbn [snd] in *; [|exact H1].
  unfold bind at 1.
  pose proof (P_transmit s1 H1) as H2. unfold after in H2.
  destruct (_transmit s1) as [[r|e] s2]; cbn [snd] in *; [|exact H2].
  fold (after timeout_check s2).
  destruct (timeout_check_cases s2) as [E|[E|E]]; rewrite E.
  - exact H2.
  - apply P_tick. exact H2.
  - apply P_drop, P_tick. exact H2.
Qed.

Lemma perform_preserves (c : Call) (s : Sys) : P s -> P (perform c s).
Proof.
  intros Hs.
  destruct c as [|d p t| | | | |a| |data|ch]; cbn [perform];
    try exact Hs.
  - apply loop_preserves. exact Hs.
  - unfold after. destruct (send_message d p t s) as [[r|e] s'] eqn:E;
      cbn [snd].
    + apply send_message_return in E. destruct E as [_ E]. subst s'.
      apply P_queue. exact Hs.
    + apply send_message_raise_state in E. subst s'. exact Hs.
  - unfold after, read, bind, self.
    destruct (_received_messages (bus s)) as [|m rest] eqn:E; [exact Hs|].
    apply (P_read s m rest E Hs).
  - unfold after. rewrite set_address_spec.
    destruct (Z.leb_spec 0 a), (Z.leb_spec a 254); cbn [andb snd];
      try exact Hs.
    apply P_address; [lia | exact Hs].
  - apply (P_rx s _ Hs).
  - apply P_channel. exact Hs.
Qed.

Lemma run_preserves (cs : list Call) : forall s, P s -> P (run cs s).
Proof.
  induction cs as [|c cs IH]; intros s Hs; [exact Hs|].
  change (run (c :: cs) s) with (run cs (perform c s)).
  apply IH, perform_preserves, Hs.
Qed.

Lemma reachable_preserves (s : Sys) : reachable s -> P s.
Proof.
  induction 1 as [baudrate address toggle w s Hinit | c s Hr IH].
  - apply (P_init _ _ _ _ _ Hinit).
  - apply perform_preserves. exact IH.
Qed.

End Preservation.

(** X11: on every engine the constructor returned, whatever was called and
    whatever arrived since, the address is in 0..254 and the settle time is
    positive; so [send_message] there raises only for what it is given: it
    queues the frame and returns [True] for every payload of 1 to 255 byte
    values with a destination and a transaction id in 0..255. *)
Theorem reachable_configuration (s : Sys) :
  reachable s ->
  0 <= _address (bus s) <= 254
  /\ 0 < _transceiver_toggle_time_ms (bus s)
  /\ forall (dst tid : Z) (payload : list Z),
       (1 <= List.length payload <= 255)%nat -> Forall is_byte payload ->
       is_byte dst -> is_byte tid ->
       send_message dst payload tid s
       = (Return true,
          with_queue (_output_messages (bus s)
                      ++ [wire_frame (_address (bus s)) dst tid payload]) s).
Proof.
  intros Hr.
  assert (H : 0 <= _address (bus s) <= 254
              /\ 0 < _transceiver_toggle_time_ms (bus s)).
  { revert s Hr.
    apply (reachable_preserves
             (fun s => 0 <= _address (bus s) <= 254
                       /\ 0 < _transceiver_toggle_time_ms (bus s)));
      try (intros; assumption).
    - intros b s H. pose proof (process_byte_frame b s) as Hf.
      unfold same_outside_receiver in Hf.
      destruct Hf as (_ & Ha & Ht & _). rewrite Ha, Ht. exact H.
    - intros s H.
      destruct (transmit_leaves_receiver s) as (r & s' & E & _ & _ & Hc & _).
      unfold after. rewrite E. destruct Hc as (Ha & Ht & _).
      cbn [snd]. rewrite Ha, Ht. exact H.
    - intros a s Ha [_ Ht]. split; [exact Ha | exact Ht].
    - intros baudrate address toggle w s. unfold __init__.
      destruct (negb (is_valid_node_address address)) eqn:Ev; [discriminate|].
      destruct (toggle <=? 0) eqn:Et; [discriminate|].
      cbv [_disable_transmit_mode emit]. py_unfold.
      intros E. inversion E. cbn.
      apply negb_false_iff in Ev. unfold is_valid_node_address in Ev.
      apply andb_prop in Ev. destruct Ev as [E1 E2].
      apply Z.leb_le in E1, E2. apply Z.leb_gt in Et.
      unfold FIRST_NODE_ADDRESS, LAST_NODE_ADDRESS, BROADCAST_ADDRESS in *.
      lia. }
  destruct H as [Ha Ht]. split; [exact Ha|]. split; [exact Ht|].
  intros dst tid payload Hlen Hp Hd Htid.
  apply send_message_ok; try assumption. unfold is_byte. lia.
Qed.

Lemma reachable_configuration_witness :
  0 <= _address (bus receiving_node) <= 254
  /\ 0 < _transceiver_toggle_time_ms (bus receiving_node)
  /\ forall (dst tid : Z) (payload : list Z),
       (1 <= List.length payload <= 255)%nat -> Forall is_byte payload ->
       is_byte dst -> is_byte tid ->
       send_message dst payload tid receiving_node
       = (Return true,
          with_queue (_output_messages (bus receiving_node)
                      ++ [wire_frame (_address (bus receiving_node)) dst tid
                            payload]) receiving_node).
Proof.
  apply (reachable_configuration receiving_node receiving_node_reachable).
Defined.

(** ** The direction pin *)

Lemma transmitting_app (tr1 tr2 : list Event) :
  forall on, transmitting on (tr1 ++ tr2) = transmitting (transmitting on tr1) tr2.
Proof.
  induction tr1 as [|e tr1 IH]; intros on; [reflexivity|].
  destruct e; cbn [app transmitting]; apply IH.
Qed.

Lemma transmitting_waits (waits : list Event) :
  Forall is_wait waits -> forall on, transmitting on waits = on.
Proof.
  induction 1 as [|e l He Hl IH]; intros on; [reflexivity|].
  destruct e; cbn [is_wait] in He; try contradiction; cbn [transmitting];
    apply IH.
Qed.

(** One [_transmit] adds to the trace nothing, or one whole attempt. *)
Lemma transmit_events (s : Sys) :
  exists r s' evs,
    _transmit s = (Return r, s')
    /\ trace (world s') = trace (world s) ++ evs
    /\ attempt_events evs.
Proof.
  pose proof (transmit_spec s) as H. unfold attempt_events.
  destruct (_output_messages (bus s)) as [|frame rest].
  - exists false, s, []. rewrite app_nil_r.
    split; [exact H|]. split; [reflexivity | left; reflexivity].
  - destruct (_ <? LINE_READY_TIME_MS).
    + eexists. eexists. exists []. rewrite app_nil_r.
      split; [exact H|]. split; [reflexivity | left; reflexivity].
    + destruct H as (waits & Hw & H). cbv zeta in H.
      destruct (channel_completes _ _); eexists; eexists; eexists;
        (split; [exact H|]); (split; [reflexivity|]);
        right; eexists; eexists; exists waits; (split; [exact Hw|]);
        reflexivity.
Qed.

(** From the assertion of the pin to the end of the wait for [txdone]
    nothing releases the pin. *)
Lemma pin_asserted_through_wait (frame : list Z) (polls : nat)
    (final : option Exn) (s : Sys) (on : bool) :
  transmitting on
    (trace (world (after (_enable_transmit_mode ;;
                          interface_write frame ;;
                          txdone_wait polls final) s)))
  = true.
Proof.
  destruct s as [bu w]. destruct bu as [ba ad tg la st rm rc ou].
  destruct w as [ck cr td rx ch tr]. destruct ch as [wr pl tdr fl].
  unfold after, _enable_transmit_mode, interface_write.
  destruct wr as [e|].
  - py_unfold. cbv [emit update_platform platform bind ret raise].
    cbn [snd world trace channel write_raises].
    rewrite <- !app_assoc, transmitting_app. reflexivity.
  - py_unfold. cbv [emit update_platform platform bind ret raise].
    cbn [snd world trace channel write_raises].
    rewrite txdone_wait_spec. cbn [snd push_events world trace].
    rewrite <- !app_assoc, transmitting_app. cbn [app transmitting].
    apply transmitting_waits, repeat_sleep_is_wait.
Qed.

(** X12: every call that returns leaves the transceiver in receive mode:
    on every engine the constructor returned, after any calls and events,
    the last thing done to the direction pin was to switch it off, whether
    the transmit attempts completed or ended with an exception.  The
    release comes only after the wait for [txdone]: from the assertion of
    the pin through the write and through every poll that [txdone]
    answers [False], however many, the pin stays asserted; so the release
    rests on that wait ending, as it does after the finitely many polls of
    a [Channel]. *)
Theorem direction_pin_released :
  (forall s : Sys,
     reachable s -> forall on, transmitting on (trace (world s)) = false)
  /\ (forall (frame : list Z) (polls : nat) (final : option Exn) (s : Sys)
             (on : bool),
        transmitting on
          (trace (world (after (_enable_transmit_mode ;;
                                interface_write frame ;;
                                txdone_wait polls final) s)))
        = true).
Proof.
  split; [|intros; apply pin_asserted_through_wait].
  apply (reachable_preserves
           (fun s => forall on, transmitting on (trace (world s)) = false));
    try (intros; cbn; auto; fail).
  - intros b s H. pose proof (process_byte_frame b s) as Hf.
    unfold same_outside_receiver in Hf.
    destruct Hf as (_ & _ & _ & _ & _ & Ht & _). rewrite Ht. exact H.
  - intros s H on.
    destruct (transmit_events s) as (r & s' & evs & E & Ht & Hev).
    unfold after. rewrite E. cbn [snd]. rewrite Ht, transmitting_app.
    destruct Hev as [->|(tg & frame & waits & Hw & ->)]; [apply H|].
    cbn [app transmitting]. rewrite transmitting_app.
    rewrite (transmitting_waits waits Hw). reflexivity.
  - intros baudrate address toggle w s. unfold __init__.
    destruct (negb (is_valid_node_address address)); [discriminate|].
    destruct (toggle <=? 0); [discriminate|].
    cbv [_disable_transmit_mode emit]. py_unfold.
    intros E on. inversion E. cbn [world trace].
    rewrite <- app_assoc, transmitting_app. reflexivity.
Qed.

Lemma busy_node_reachable : reachable busy_node.
Proof.
  unfold busy_node.
  destruct (__init__ 9600 0 DEFAULT_TRANSCEIVER_TOGGLE_TIME_MS sample_world)
    as [s0|e] eqn:E; [|discriminate E].
  cbn [run fold_left].
  do 6 apply reachable_step.
  exact (reachable_init _ _ _ _ _ E).
Defined.

Lemma direction_pin_released_witness :
  writes (trace (world busy_node))
  = [wire_frame 0 5 0 [65]; wire_frame 0 6 0 [66]]
  /\ forall on, transmitting on (trace (world busy_node)) = false.
Proof.
  split; [vm_compute; reflexivity|].
  apply (proj1 direction_pin_released busy_node busy_node_reachable).
Defined.

(** ** What the inbound queue holds *)

Ltac inbound_done :=
  cbn; unfold reception_ok, message_ok, is_byte in *; cbn in *;
  repeat match goal with
         | H : _ /\ _ |- _ => destruct H
         | H : exists _, _ |- _ => destruct H
         end;
  repeat split;
  try apply Forall_nil;
  try assumption; try lia; try discriminate; try congruence;
  try (eexists; split; [eassumption | lia]).

Lemma process_byte_inbound (b : Z) (s : Sys) :
  inbound_inv (bus s) -> inbound_inv (bus (after (_process_byte b) s)).
Proof.
  unfold inbound_inv, after. intros [Hq Hrx].
  destruct s as [bu w]. destruct bu as [ba ad tg la st rm rc ou]. destruct w.
  cbn [bus world _receiver_state _receiving_message _received_messages] in *.
  destruct st;
    try (destruct rm as [m|]; [destruct m as [ts d a t l c f inc buf]|contradiction]).
  - py_unfold. split_conditions; inbound_done.
  - py_unfold. split_conditions; inbound_done.
  - py_unfold. inbound_done.
  - py_unfold. inbound_done.
  - py_unfold. destruct (0 <? b) eqn:E1; [destruct (b <=? MAX_MESSAGE_LEN) eqn:E2|];
      cbn [andb negb];
      try (apply Z.ltb_lt in E1); try (apply Z.leb_le in E2);
      inbound_done.
    exists b. split; [reflexivity | lia].
  - destruct Hrx as (Hinc & Hbuf & Hd & Ha & Ht & lv & Hl & Hlv).
    cbn [dst_address src_address transaction_id length] in *.
    destruct d as [d|]; [|congruence]. destruct a as [a|]; [|congruence].
    subst l.
    py_unfold. split_conditions; inbound_done.
    exists lv. split; [reflexivity | lia].
  - destruct Hrx as (Hinc & Hbuf & Hd & Ha & Ht & Hc & lv & Hl & Hlv).
    cbn [dst_address src_address transaction_id length crc incoming
         payload_buffer] in *.
    destruct c as [c|]; [|congruence]. subst l.
    pose proof (fun s => bytes1_byte _ s (lor_land_15_byte inc b Hinc)) as Eb.
    pose proof (land_240_byte b) as H240.
    pose proof (lor_land_15_byte inc b Hinc) as Hlor.
    py_unfold. destruct (is_valid_encoded_byte b); [destruct f|].
    + inbound_done. exists lv. split; [reflexivity | lia].
    + rewrite Eb. cbn. split; [exact Hq|].
      unfold reception_ok. cbn.
      split; [exact Hlor|].
      split; [apply Forall_app; split;
              [exact Hbuf | constructor; [exact Hlor | constructor]]|].
      repeat split; try assumption; try discriminate.
      exists lv. split; [reflexivity | exact Hlv].
    + destruct (b =? ETX).
      * destruct (lv =? Z.of_nat (List.length buf)) eqn:El.
        -- apply Z.eqb_eq in El. cbn. split; [exact Hq|].
           unfold reception_ok. cbn.
           unfold MAX_MESSAGE_LEN in Hlv.
           split; [exact Hinc|]. split; [exact Hbuf|].
           repeat split; try assumption; try discriminate; try lia.
           congruence.
        -- cbn. split; [exact Hq | exact I].
      * cbn. split; [exact Hq | exact I].
  - destruct Hrx as (Hinc & Hbuf & Hd & Ha & Ht & Hc & Hl & Hlen).
    cbn [dst_address src_address transaction_id length crc incoming
         payload_buffer] in *.
    destruct c as [c|]; [|congruence].
    py_unfold. destruct (c =? b); cbn; (split; [exact Hq|]); [|exact I].
    unfold reception_ok. cbn.
    split; [exact Hinc|]. split; [exact Hbuf|].
    repeat split; try assumption; apply Hlen.
  - destruct Hrx as (Hinc & Hbuf & Hd & Ha & Ht & Hc & Hl & Hlen).
    cbn [dst_address src_address transaction_id length payload_buffer] in *.
    py_unfold. destruct (b =? EOT); cbn; (split; [|exact I]); [|exact Hq].
    apply Forall_app. split; [exact Hq|]. constructor; [|constructor].
    unfold message_ok. cbn. repeat split; try assumption; apply Hlen.
Qed.

(** X13: whatever bytes arrive, every message in the inbound queue of an
    engine the constructor returned has its source, destination and
    transaction id set, a payload of 1 to 255 byte values, and a declared
    length equal to the length of its payload; so has every message
    [read] returns. *)
Theorem inbound_messages_well_formed (s : Sys) :
  reachable s ->
  Forall message_ok (_received_messages (bus s))
  /\ forall m s', read s = (Return m, s') -> message_ok m.
Proof.
  intros Hr.
  assert (H : inbound_inv (bus s)).
  { revert s Hr.
    apply (reachable_preserves (fun s => inbound_inv (bus s)));
      try (intros; assumption).
    - intros b s H. apply process_byte_inbound. exact H.
    - intros s H.
      destruct (transmit_leaves_receiver s) as (r & s' & E & Hv & Hm & _).
      unfold after. rewrite E. cbn [snd]. unfold receiver_view in Hv.
      injection Hv as Hst _ Hq _.
      unfold inbound_inv in *. rewrite Hst, Hq, Hm. exact H.
    - intros s [Hq _]. split; [exact Hq | exact I].
    - intros s m rest E [Hq Hrx]. split; [|exact Hrx].
      cbn [bus with_inbound with_received_messages _received_messages].
      rewrite E in Hq. inversion Hq. assumption.
    - intros baudrate address toggle w s. unfold __init__.
      destruct (negb (is_valid_node_address address)); [discriminate|].
      destruct (toggle <=? 0); [discriminate|].
      cbv [_disable_transmit_mode emit]. py_unfold.
      intros E. inversion E. split; [constructor | exact I]. }
  destruct H as [Hq _]. split; [exact Hq|].
  intros m s'. unfold read, bind, self.
  destruct (_received_messages (bus s)) as [|m0 rest]; [discriminate|].
  cbv [update_self ret]. intros E. inversion E. subst.
  inversion Hq. assumption.
Qed.

Lemma noisy_node_reachable : reachable noisy_node.
Proof.
  unfold noisy_node.
  destruct (__init__ 9600 5 DEFAULT_TRANSCEIVER_TOGGLE_TIME_MS sample_world)
    as [s0|e] eqn:E; [|discriminate E].
  cbn [run fold_left].
  do 3 apply reachable_step.
  exact (reachable_init _ _ _ _ _ E).
Defined.

Lemma inbound_messages_well_formed_witness :
  _received_messages (bus noisy_node)
  = [mkReceivedMessage (Some 0) (Some 5) (Some 7) (Some 2) [104; 105]]
  /\ Forall message_ok (_received_messages (bus noisy_node))
  /\ forall m s', read noisy_node = (Return m, s') -> message_ok m.
Proof.
  split; [vm_compute; reflexivity|].
  apply (inbound_messages_well_formed noisy_node noisy_node_reachable).
Defined.

(** ** The receive phase and the receiver *)

Lemma process_byte_view (b : Z) (s1 s2 : Sys) :
  receiver_view s1 = receiver_view s2 ->
  fst (_process_byte b s1) = fst (_process_byte b s2)
  /\ receiver_view (after (_process_byte b) s1)
     = receiver_view (after (_process_byte b) s2).
Proof.
  unfold receiver_view, after.
  destruct s1 as [bu1 w1]. destruct bu1 as [ba1 ad1 tg1 la1 st1 rm1 rc1 ou1].
  destruct w1.
  destruct s2 as [bu2 w2]. destruct bu2 as [ba2 ad2 tg2 la2 st2 rm2 rc2 ou2].
  destruct w2.
  cbn [bus _receiver_state _receiving_message _received_messages _address].
  intros E. injection E as Est Erm Erc Ead. subst st2 rc2 ad2.
  destruct rm1 as [[ts1 d1 a1 t1 l1 c1 f1 inc1 buf1]|],
           rm2 as [[ts2 d2 a2 t2 l2 c2 f2 inc2 buf2]|];
    cbn [option_map with_timestamp dst_address src_address transaction_id
         length crc is_first_nibble incoming payload_buffer] in Erm;
    try discriminate;
    try (injection Erm as -> -> -> -> -> -> -> ->);
    destruct st1;
    py_unfold; cbv [bytes1 andb ret raise];
    repeat match goal with
           | |- context [if ?c then _ else _] => destruct c
           | |- context [match ?o with Some _ => _ | None => _ end] => destruct o
           end;
    cbn; split; reflexivity.
Qed.

Lemma bytes_read_map_some (l : list Z) : bytes_read (map Some l) = l.
Proof.
  induction l as [|b l IH]; [reflexivity|].
  cbn [map bytes_read flat_map app] in *. fold (bytes_read (map Some l)).
  rewrite IH. reflexivity.
Qed.

(** The receive phase is the receiver fed with the bytes read. *)
Lemma receive_loop_view (pending : list (option Z)) :
  forall s1 s2,
    receiver_view s1 = receiver_view s2 ->
    same_outcome (_receive_loop pending s1) (feed (bytes_read pending) s2).
Proof.
  induction pending as [|o rest IH]; intros s1 s2 Hv.
  - split; [reflexivity | exact Hv].
  - cbn [_receive_loop].
    unfold bind at 1. unfold set_rx_buffer at 1, update_platform at 1.
    unfold bind at 1. unfold self at 1. cbn [bus].
    set (s0 := mkSys (bus s1) _).
    assert (H0 : receiver_view s0 = receiver_view s2) by exact Hv.
    assert (Hst : _receiver_state (bus s1) = _receiver_state (bus s2))
      by (unfold receiver_view in Hv; injection Hv; auto).
    clearbody s0.
    destruct o as [b|]; [|apply (IH s0 s2 H0)].
    change (bytes_read (Some b :: rest)) with (b :: bytes_read rest).
    destruct ((b =? NULL) && ReceiverState_eqb (_receiver_state (bus s1)) IDLE)
      eqn:Eskip.
    + apply andb_prop in Eskip. destruct Eskip as [Eb Ei].
      apply Z.eqb_eq in Eb. subst b.
      assert (Hidle : _receiver_state (bus s2) = IDLE)
        by (rewrite <- Hst; destruct (_receiver_state (bus s1));
            try discriminate; reflexivity).
      rewrite (feed_cons _ _ _ _
                 (process_byte_idle_other NULL s2 Hidle ltac:(discriminate))).
      apply (IH s0 s2 H0).
    + cbn [feed].
      cbv [bind get_milliseconds platform update_platform ret update_self].
      cbn [bus world clock clock_reads].
      match goal with |- same_outcome (match _process_byte b ?s with _ => _ end) _ =>
        assert (H1 : receiver_view s = receiver_view s2) by exact H0;
        destruct (process_byte_view b s s2 H1) as [Hf Hv'];
        unfold after in Hv';
        destruct (_process_byte b s) as [[[]|e1] s1'];
        destruct (_process_byte b s2) as [[[]|e2] s2'];
        cbn [fst snd] in *; try discriminate
      end.
      * apply (IH s1' s2' Hv').
      * split; [exact Hf | exact Hv'].
Qed.

(** X14: the receive phase of a tick treats the buffered bytes as the
    receiver would, fed with them one by one: it raises or returns alike,
    and leaves the same receiver state, the same reception in progress
    (apart from its start time), the same inbound queue and the same
    address; empty reads are skipped, and the NUL bytes it skips while idle
    are bytes the receiver ignores. *)
Theorem receive_is_feed (s : Sys) :
  fst (_receive s) = fst (feed (bytes_read (rx_buffer (world s))) s)
  /\ receiver_view (after _receive s)
     = receiver_view (after (feed (bytes_read (rx_buffer (world s)))) s).
Proof.
  unfold _receive, after. unfold bind, platform.
  apply (receive_loop_view (rx_buffer (world s)) s s eq_refl).
Qed.

(** A tick whose receive phase ends idle. *)
Lemma loop_ends_idle (s s1 : Sys) :
  _receive s = (Return tt, s1) ->
  _receiver_state (bus s1) = IDLE ->
  exists r s2,
    _transmit s1 = (Return r, s2)
    /\ loop s = (Return tt, s2)
    /\ receiver_view s2 = receiver_view s1
    /\ _receiving_message (bus s2) = _receiving_message (bus s1).
Proof.
  intros Hrx Hst.
  destruct (transmit_leaves_receiver s1) as (r & s2 & E & Hv & Hm & _).
  exists r, s2. split; [exact E|]. split; [|split; [exact Hv | exact Hm]].
  rewrite loop_parts. unfold bind at 1. rewrite Hrx.
  unfold bind at 1. rewrite E. apply timeout_check_idle.
  unfold receiver_view in Hv. injection Hv as Hs _ _ _. congruence.
Qed.

(** A tick that finds a whole frame for the node in the receive buffer. *)
Lemma loop_frame_delivery (s : Sys) (src dst tid : Z) (payload : list Z) :
  (1 <= List.length payload <= 255)%nat -> Forall is_byte payload ->
  _receiver_state (bus s) = IDLE ->
  dst = _address (bus s) \/ dst = BROADCAST_ADDRESS ->
  rx_buffer (world s) = map Some (wire_frame src dst tid payload) ->
  exists s',
    loop s = (Return tt, s')
    /\ _received_messages (bus s')
       = _received_messages (bus s)
         ++ [mkReceivedMessage (Some src) (Some dst) (Some tid)
               (Some (Z.of_nat (List.length payload))) payload]
    /\ _receiver_state (bus s') = IDLE
    /\ _receiving_message (bus s') = None.
Proof.
  intros Hlen Hp Hst Hd Hbuf.
  pose proof (receive_loop_view (rx_buffer (world s)) s s eq_refl) as [Hf Hv].
  rewrite Hbuf, bytes_read_map_some in Hf, Hv.
  rewrite (feed_wire_frame src dst tid payload s Hlen Hp Hst Hd) in Hf, Hv.
  cbn [fst snd] in Hf, Hv.
  assert (Hrx : exists s1, _receive s = (Return tt, s1)
                           /\ receiver_view s1
                              = receiver_view
                                  (set_rx IDLE None
                                     (deliver
                                        (mkReceivedMessage (Some src) (Some dst)
                                           (Some tid)
                                           (Some (Z.of_nat (List.length payload)))
                                           payload)
                                        (clock_tick s)))).
  { unfold _receive, bind, platform. rewrite Hbuf.
    destruct (_receive_loop _ s) as [[[]|e] s1]; cbn [fst snd] in *;
      [|discriminate].
    exists s1. split; [reflexivity | exact Hv]. }
  destruct Hrx as (s1 & Hrx & Hv1).
  unfold receiver_view in Hv1.
  cbn [bus set_rx deliver with_received_messages _receiver_state
       _receiving_message _received_messages _address clock_tick option_map]
    in Hv1.
  injection Hv1 as Hs1 Hm1 Hq1 _.
  destruct (loop_ends_idle s s1 Hrx Hs1) as (r & s2 & _ & El & Hv2 & Hm2).
  exists s2. split; [exact El|].
  unfold receiver_view in Hv2. injection Hv2 as Hs2 _ Hq2 _.
  split; [congruence|]. split; [congruence|].
  rewrite Hm2. destruct (_receiving_message (bus s1)); [discriminate|].
  reflexivity.
Qed.

(** X15: a service tick that finds a whole frame for the node (or for
    everyone) in the receive buffer, the receiver being idle, returns with
    the frame's message appended to the inbound queue, the receiver idle
    again, and [available] answering one more than before. *)
Theorem loop_delivers_frame (s : Sys) (src dst tid : Z) (payload : list Z) :
  (1 <= List.length payload <= 255)%nat -> Forall is_byte payload ->
  _receiver_state (bus s) = IDLE ->
  dst = _address (bus s) \/ dst = BROADCAST_ADDRESS ->
  rx_buffer (world s) = map Some (wire_frame src dst tid payload) ->
  exists s' n,
    loop s = (Return tt, s')
    /\ available s = (Return n, s)
    /\ available s' = (Return (n + 1), s')
    /\ _received_messages (bus s')
       = _received_messages (bus s)
         ++ [mkReceivedMessage (Some src) (Some dst) (Some tid)
               (Some (Z.of_nat (List.length payload))) payload]
    /\ _receiver_state (bus s') = IDLE
    /\ _receiving_message (bus s') = None.
Proof.
  intros Hlen Hp Hst Hd Hbuf.
  destruct (loop_frame_delivery s src dst tid payload Hlen Hp Hst Hd Hbuf)
    as (s' & El & Hq & Hs & Hm).
  exists s', (Z.of_nat (List.length (_received_messages (bus s)))).
  split; [exact El|]. split; [reflexivity|]. split.
  - unfold available, bind, self, ret. rewrite Hq, length_app.
    cbn [List.length]. f_equal. f_equal. lia.
  - split; [exact Hq|]. split; [exact Hs | exact Hm].
Qed.

Lemma loop_delivers_frame_witness :
  exists s' n,
    loop (with_rx_buffer (map Some (wire_frame 0 5 7 [104; 105])) (sample_node 5))
    = (Return tt, s')
    /\ available
         (with_rx_buffer (map Some (wire_frame 0 5 7 [104; 105])) (sample_node 5))
       = (Return n,
          with_rx_buffer (map Some (wire_frame 0 5 7 [104; 105])) (sample_node 5))
    /\ available s' = (Return (n + 1), s')
    /\ _received_messages (bus s')
       = _received_messages
           (bus (with_rx_buffer (map Some (wire_frame 0 5 7 [104; 105]))
                   (sample_node 5)))
         ++ [mkReceivedMessage (Some 0) (Some 5) (Some 7)
               (Some (Z.of_nat (List.length [104; 105]))) [104; 105]]
    /\ _receiver_state (bus s') = IDLE
    /\ _receiving_message (bus s') = None.
Proof.
  apply (loop_delivers_frame
           (with_rx_buffer (map Some (wire_frame 0 5 7 [104; 105]))
              (sample_node 5)) 0 5 7 [104; 105]).
  - simpl. lia.
  - repeat constructor; unfold is_byte; lia.
  - reflexivity.
  - left. reflexivity.
  - reflexivity.
Defined.

(** ** The packet timeout *)

(** X16: a reception that is in progress when a tick has nothing to read is
    dropped by that tick exactly when the time the platform measures from
    its start to the tick's timeout check exceeds [PACKET_TIMEOUT_MS] = 500;
    it is kept untouched otherwise.  Once dropped the receiver is idle, and
    a frame that comes next is delivered. *)
Theorem packet_timeout (s : Sys) (m : ReceivingMessage) :
  rx_buffer (world s) = [] ->
  _receiver_state (bus s) <> IDLE ->
  _receiving_message (bus s) = Some m ->
  exists r s2 s',
    _transmit s = (Return r, s2)
    /\ loop s = (Return tt, s')
    /\ let elapsed := utime_ticks_diff (world s) (now s2) (timestamp m) in
       (PACKET_TIMEOUT_MS < elapsed ->
        _receiver_state (bus s') = IDLE
        /\ _receiving_message (bus s') = None
        /\ forall src tid payload,
             (1 <= List.length payload <= 255)%nat -> Forall is_byte payload ->
             exists s'',
               feed (wire_frame src (_address (bus s)) tid payload) s'
               = (Return tt, s'')
               /\ _received_messages (bus s'')
                  = _received_messages (bus s)
                    ++ [mkReceivedMessage (Some src) (Some (_address (bus s)))
                          (Some tid) (Some (Z.of_nat (List.length payload)))
                          payload])
       /\ (elapsed <= PACKET_TIMEOUT_MS ->
           _receiver_state (bus s') = _receiver_state (bus s)
           /\ _receiving_message (bus s') = Some m)
       /\ PACKET_TIMEOUT_MS = 500.
Proof.
  intros Hbuf Hst Hm.
  destruct (transmit_leaves_receiver s) as (r & s2 & E & Hv & Hm2 & _ & _ & Htd).
  unfold receiver_view in Hv. injection Hv as Hs2 _ Hq2 Ha2.
  assert (Hst2 : _receiver_state (bus s2) <> IDLE) by congruence.
  assert (Hm2' : _receiving_message (bus s2) = Some m) by congruence.
  exists r, s2. eexists. split; [exact E|]. split.
  { rewrite loop_parts. unfold bind at 1. rewrite (receive_empty s Hbuf).
    unfold bind at 1. rewrite E.
    apply (timeout_check_receiving s2 m Hst2 Hm2'). }
  cbv zeta. rewrite Htd. split; [|split; [|reflexivity]].
  - intros Hgt. apply Z.gtb_lt in Hgt. rewrite Hgt.
    split; [reflexivity|]. split; [reflexivity|].
    intros src tid payload Hlen Hp. eexists. split.
    + apply (feed_wire_frame src _ tid payload _ Hlen Hp); [reflexivity|].
      left. cbn [bus set_rx clock_tick _address]. symmetry. exact Ha2.
    + cbn [bus set_rx deliver clock_tick with_received_messages
           _received_messages]. rewrite Hq2. reflexivity.
  - intros Hle.
    replace (_ >? PACKET_TIMEOUT_MS) with false
      by (symmetry; rewrite Z.gtb_ltb; apply Z.ltb_ge; exact Hle).
    split; [exact Hs2 | exact Hm2'].
Qed.

Lemma packet_timeout_witness :
  exists r s2 s',
    _transmit stalled_node = (Return r, s2)
    /\ loop stalled_node = (Return tt, s')
    /\ let elapsed :=
         utime_ticks_diff (world stalled_node) (now s2)
           (timestamp (with_dst_address (Some 5) (ReceivingMessage_init 0))) in
       (PACKET_TIMEOUT_MS < elapsed ->
        _receiver_state (bus s') = IDLE
        /\ _receiving_message (bus s') = None
        /\ forall src tid payload,
             (1 <= List.length payload <= 255)%nat -> Forall is_byte payload ->
             exists s'',
               feed (wire_frame src (_address (bus stalled_node)) tid payload) s'
               = (Return tt, s'')
               /\ _received_messages (bus s'')
                  = _received_messages (bus stalled_node)
                    ++ [mkReceivedMessage (Some src)
                          (Some (_address (bus stalled_node)))
                          (Some tid) (Some (Z.of_nat (List.length payload)))
                          payload])
       /\ (elapsed <= PACKET_TIMEOUT_MS ->
           _receiver_state (bus s') = _receiver_state (bus stalled_node)
           /\ _receiving_message (bus s')
              = Some (with_dst_address (Some 5) (ReceivingMessage_init 0)))
       /\ PACKET_TIMEOUT_MS = 500.
Proof.
  apply (packet_timeout stalled_node
           (with_dst_address (Some 5) (ReceivingMessage_init 0))).
  - reflexivity.
  - discriminate.
  - reflexivity.
Defined.

(** ** From one node to another *)

(** X17: end to end: a node with an idle line and a working channel that
    queues a message writes, at its next service tick, exactly the frame of
    that message to the channel, once, and has nothing pending afterwards;
    and the addressed node, finding those bytes in its receive buffer at a
    tick of its own, delivers the message with the sender's address, the
    transaction id and the payload. *)
Theorem two_node_delivery (sender receiver : Sys) (tid : Z) (payload : list Z) :
  (1 <= List.length payload <= 255)%nat -> Forall is_byte payload ->
  is_byte tid ->
  is_byte (_address (bus sender)) -> is_byte (_address (bus receiver)) ->
  _receiver_state (bus sender) = IDLE ->
  rx_buffer (world sender) = [] ->
  _output_messages (bus sender) = [] ->
  LINE_READY_TIME_MS <= idle_time sender ->
  channel_completes (channel (world sender)) (_interface_baudrate (bus sender))
  = true ->
  _receiver_state (bus receiver) = IDLE ->
  let src := _address (bus sender) in
  let dst := _address (bus receiver) in
  exists frame sender1 sender2 evs receiver1,
    send_message dst payload tid sender = (Return true, sender1)
    /\ loop sender1 = (Return tt, sender2)
    /\ trace (world sender2) = trace (world sender) ++ evs
    /\ writes evs = [frame]
    /\ pending_send sender2 = (Return false, sender2)
    /\ loop (with_rx_buffer (map Some frame) receiver) = (Return tt, receiver1)
    /\ _received_messages (bus receiver1)
       = _received_messages (bus receiver)
         ++ [mkReceivedMessage (Some src) (Some dst) (Some tid)
               (Some (Z.of_nat (List.length payload))) payload].
Proof.
  intros Hlen Hp Ht Ha Hd Hst Hbuf Hq Hgate Hch Hsr src dst.
  pose (frame := wire_frame src dst tid payload).
  pose (sender1 := with_queue [frame] sender).
  assert (Esend : send_message dst payload tid sender = (Return true, sender1)).
  { rewrite (send_message_ok dst payload tid sender Hlen Hp Hd Ht Ha).
    rewrite Hq. reflexivity. }
  assert (Eo : _output_messages (bus sender1) = [frame]) by reflexivity.
  assert (Eg : (utime_ticks_diff (world sender1) (now sender1)
                  (_last_bus_activity (bus sender1)) <? LINE_READY_TIME_MS)
               = false).
  { apply Z.ltb_ge. exact Hgate. }
  assert (Ech : channel_completes (channel (world sender1))
                  (_interface_baudrate (bus sender1)) = true) by exact Hch.
  pose proof (transmit_spec sender1) as Htx.
  rewrite Eo, Eg in Htx.
  destruct Htx as (waits & Hw & Htx). cbv zeta in Htx. rewrite Ech in Htx.
  destruct (loop_frame_delivery
              (with_rx_buffer (map Some frame) receiver) src dst tid payload
              Hlen Hp Hsr (or_introl eq_refl) eq_refl)
    as (receiver1 & Erecv & Hrq & _).
  exists frame, sender1. eexists. eexists. exists receiver1.
  split; [exact Esend|]. split.
  { rewrite loop_parts. unfold bind at 1.
    rewrite (receive_empty sender1 Hbuf).
    unfold bind at 1. rewrite Htx.
    apply timeout_check_idle. exact Hst. }
  split; [reflexivity|]. split.
  { cbn [app writes]. rewrite writes_app, (writes_waits _ Hw). reflexivity. }
  split; [reflexivity|]. split; [exact Erecv | exact Hrq].
Qed.

Lemma two_node_delivery_witness :
  exists frame sender1 sender2 evs receiver1,
    send_message 5 [104; 105] 7 (clock_tick (sample_node 0))
    = (Return true, sender1)
    /\ loop sender1 = (Return tt, sender2)
    /\ trace (world sender2) = trace (world (clock_tick (sample_node 0))) ++ evs
    /\ writes evs = [frame]
    /\ pending_send sender2 = (Return false, sender2)
    /\ loop (with_rx_buffer (map Some frame) (sample_node 5))
       = (Return tt, receiver1)
    /\ _received_messages (bus receiver1)
       = _received_messages (bus (sample_node 5))
         ++ [mkReceivedMessage (Some 0) (Some 5) (Some 7)
               (Some (Z.of_nat (List.length [104; 105]))) [104; 105]].
Proof.
  apply (two_node_delivery (clock_tick (sample_node 0)) (sample_node 5) 7
           [104; 105]).
  - simpl. lia.
  - repeat constructor; unfold is_byte; lia.
  - unfold is_byte. lia.
  - unfold is_byte. simpl. lia.
  - unfold is_byte. simpl. lia.
  - reflexivity.
  - reflexivity.
  - reflexivity.
  - vm_compute. discriminate.
  - reflexivity.
  - reflexivity.
Defined.

(** ** The node layers *)

Lemma available_spec (s : Sys) :
  available s = (Return (Z.of_nat (List.length (_received_messages (bus s)))), s).
Proof. reflexivity. Qed.

Lemma read_spec (s : Sys) (m : ReceivedMessage) (rest : list ReceivedMessage) :
  _received_messages (bus s) = m :: rest ->
  read s = (Return m, with_inbound rest s).
Proof.
  intros Hq. unfold read, bind, self. rewrite Hq. reflexivity.
Qed.

(** One turn of the loop of [Node._loop]: an exception of the handler ends
    the turn like a return. *)
Lemma node_turn (handle : ReceivedMessage -> Py unit) (s : Sys)
    (m : ReceivedMessage) (rest : list ReceivedMessage) :
  _received_messages (bus s) = m :: rest ->
  try_except (message <- read ;; handle message) (fun _ => ret tt) s
  = (Return tt, after (handle m) (with_inbound rest s)).
Proof.
  intros Hq. unfold try_except, bind, after. rewrite (read_spec s m rest Hq).
  destruct (handle m (with_inbound rest s)) as [[[]|e] s']; reflexivity.
Qed.

Lemma node_drain_spec (handle : ReceivedMessage -> Py unit) :
  (forall m s, _received_messages (bus (after (handle m) s))
               = _received_messages (bus s)) ->
  forall (q : list ReceivedMessage) (fuel : nat) (s : Sys),
    _received_messages (bus s) = q ->
    (List.length q <= fuel)%nat ->
    Node_drain fuel handle s = (Return true, fold_left (handled handle) q s)
    /\ _received_messages (bus (fold_left (handled handle) q s)) = [].
Proof.
  intros Hh q. induction q as [|m rest IH]; intros fuel s Hq Hfuel.
  - cbn [fold_left]. split; [|exact Hq].
    destruct fuel; cbn [Node_drain]; unfold bind at 1;
      rewrite available_spec, Hq; reflexivity.
  - destruct fuel as [|n]; [cbn in Hfuel; lia|].
    cbn [Node_drain fold_left]. unfold bind at 1.
    rewrite available_spec, Hq.
    replace (Z.of_nat (List.length (m :: rest)) >? 0) with true
      by (symmetry; cbn [List.length]; rewrite Z.gtb_ltb; apply Z.ltb_lt; lia).
    unfold bind at 1.
    rewrite (node_turn handle s m rest Hq).
    replace (handled handle s m) with (after (handle m) (with_inbound rest s))
      by (unfold handled; rewrite Hq; reflexivity).
    apply IH; [|cbn in Hfuel; lia].
    rewrite Hh. reflexivity.
Qed.

(** X18: [Node._loop] hands the delivered messages to the handler one by
    one, oldest first, each removed from the inbound queue before the
    handler sees it; an exception of the handler is swallowed and the next
    message is handled all the same; when it ends the inbound queue is
    empty.  This for a handler that leaves the inbound queue alone, the
    loop ending after as many turns as messages were queued. *)
Theorem node_loop_drains (handle : ReceivedMessage -> Py unit)
    (fuel : nat) (s s1 : Sys) :
  (forall m s, _received_messages (bus (after (handle m) s))
               = _received_messages (bus s)) ->
  loop s = (Return tt, s1) ->
  (List.length (_received_messages (bus s1)) <= fuel)%nat ->
  Node_loop fuel handle s
  = (Return true, fold_left (handled handle) (_received_messages (bus s1)) s1)
  /\ available (fold_left (handled handle) (_received_messages (bus s1)) s1)
     = (Return 0,
        fold_left (handled handle) (_received_messages (bus s1)) s1).
Proof.
  intros Hh Hloop Hfuel.
  destruct (node_drain_spec handle Hh (_received_messages (bus s1)) fuel s1
              eq_refl Hfuel) as [Hd He].
  split.
  - unfold Node_loop, bind. rewrite Hloop. exact Hd.
  - unfold available, bind, self, ret. rewrite He. reflexivity.
Qed.

Lemma node_loop_drains_witness :
  Node_loop 2 (fun _ : ReceivedMessage => raise ValueError) node_with_mail
  = (Return true,
     fold_left (handled (fun _ : ReceivedMessage => raise ValueError))
       (_received_messages (bus node_with_mail)) node_with_mail)
  /\ available
       (fold_left (handled (fun _ : ReceivedMessage => raise ValueError))
          (_received_messages (bus node_with_mail)) node_with_mail)
     = (Return 0,
        fold_left (handled (fun _ : ReceivedMessage => raise ValueError))
          (_received_messages (bus node_with_mail)) node_with_mail).
Proof.
  apply (node_loop_drains (fun _ : ReceivedMessage => raise ValueError) 2 node_with_mail
           node_with_mail).
  - intros m s. reflexivity.
  - reflexivity.
  - simpl. lia.
Defined.

(** X19: a slave's tick that finds a frame for it in the receive buffer
    (receiver idle, inbound queue empty) takes the message off the inbound
    queue and then: runs no handler if the frame's source is not the
    master's address 0; runs the broadcast handler on it if the frame was
    sent to everyone; runs the unicast handler on it otherwise. *)
Theorem slave_tick_dispatch
    (handle_broadcast handle_unicast : ReceivedMessage -> Py unit)
    (s : Sys) (src dst tid : Z) (payload : list Z) :
  (1 <= List.length payload <= 255)%nat -> Forall is_byte payload ->
  _receiver_state (bus s) = IDLE ->
  _received_messages (bus s) = [] ->
  dst = _address (bus s) \/ dst = BROADCAST_ADDRESS ->
  rx_buffer (world s) = map Some (wire_frame src dst tid payload) ->
  let m := mkReceivedMessage (Some src) (Some dst) (Some tid)
             (Some (Z.of_nat (List.length payload))) payload in
  exists s1,
    loop s = (Return tt, s1)
    /\ _received_messages (bus s1) = [m]
    /\ after (Node_loop 1
                (Slave_handle_incoming_message handle_broadcast handle_unicast))
             s
       = if negb (src =? MASTER_ADDRESS) then with_inbound [] s1
         else if dst =? BROADCAST_ADDRESS
              then after (handle_broadcast m) (with_inbound [] s1)
              else after (handle_unicast m) (with_inbound [] s1).
Proof.
  intros Hlen Hp Hst Hq Hd Hbuf m.
  destruct (loop_frame_delivery s src dst tid payload Hlen Hp Hst Hd Hbuf)
    as (s1 & El & Hq1 & _).
  rewrite Hq in Hq1. cbn [app] in Hq1. fold m in Hq1.
  exists s1. split; [exact El|]. split; [exact Hq1|].
  unfold after, Node_loop. unfold bind at 1. rewrite El.
  cbn [Node_drain]. unfold bind at 1. rewrite available_spec, Hq1.
  change (Z.of_nat (List.length [m]) >? 0) with true. cbv iota.
  unfold bind at 1.
  rewrite (node_turn _ s1 m [] Hq1). cbn [fst snd].
  unfold bind at 1. rewrite available_spec. cbn [snd].
  unfold Slave_handle_incoming_message, py_ne, py_eq, is_broadcast.
  cbn [msg_src_address msg_dest_address m].
  destruct (negb (src =? MASTER_ADDRESS)); [reflexivity|].
  destruct (dst =? BROADCAST_ADDRESS); reflexivity.
Qed.

Lemma slave_tick_dispatch_witness :
  exists s1,
    loop (with_rx_buffer (map Some (wire_frame 3 5 7 [104; 105])) (sample_node 5))
    = (Return tt, s1)
    /\ _received_messages (bus s1)
       = [mkReceivedMessage (Some 3) (Some 5) (Some 7)
            (Some (Z.of_nat (List.length [104; 105]))) [104; 105]]
    /\ after (Node_loop 1
                (Slave_handle_incoming_message
                   (fun _ : ReceivedMessage => raise ValueError)
                   (fun m : ReceivedMessage => respond m [1] false ;; ret tt)))
             (with_rx_buffer (map Some (wire_frame 3 5 7 [104; 105]))
                (sample_node 5))
       = with_inbound [] s1.
Proof.
  apply (slave_tick_dispatch
           (fun _ : ReceivedMessage => raise ValueError)
           (fun m : ReceivedMessage => respond m [1] false ;; ret tt)
           (with_rx_buffer (map Some (wire_frame 3 5 7 [104; 105]))
              (sample_node 5)) 3 5 7 [104; 105]).
  - simpl. lia.
  - repeat constructor; unfold is_byte; lia.
  - reflexivity.
  - reflexivity.
  - left. reflexivity.
  - reflexivity.
Defined.

(** ** Header fields out of range *)

Lemma bytes1_cases (x : Z) (s : Sys) :
  (is_byte x /\ bytes1 x s = (Return [x], s))
  \/ (~ is_byte x /\ bytes1 x s = (Raise ValueError, s)).
Proof.
  unfold bytes1, is_byte.
  destruct ((0 <=? x) && (x <? 256)) eqn:E.
  - left. apply andb_prop in E. destruct E as [E1 E2].
    apply Z.leb_le in E1. apply Z.ltb_lt in E2. split; [lia | reflexivity].
  - right. split; [|reflexivity]. intros [H1 H2].
    apply Z.leb_le in H1. apply Z.ltb_lt in H2. rewrite H1, H2 in E.
    discriminate.
Qed.

(** X20: with a payload of an acceptable length, [send_message] raises
    [ValueError] and queues nothing when the destination address, the
    transaction id or the node's own address does not fit one byte
    (0..255): no frame with a truncated header field is ever queued. *)
Theorem send_message_header_bounds (dst : Z) (payload : list Z) (tid : Z)
    (s : Sys) :
  (1 <= List.length payload <= 255)%nat ->
  ~ is_byte dst \/ ~ is_byte tid \/ ~ is_byte (_address (bus s)) ->
  send_message dst payload tid s = (Raise ValueError, s).
Proof.
  intros Hlen Hbad. unfold send_message.
  replace (Z.of_nat (List.length payload) =? 0) with false
    by (symmetry; apply Z.eqb_neq; lia).
  replace (Z.of_nat (List.length payload) >? MAX_MESSAGE_LEN) with false
    by (symmetry; unfold MAX_MESSAGE_LEN; rewrite Z.gtb_ltb; apply Z.ltb_ge; lia).
  unfold bind at 1. unfold self at 1. unfold bind at 1.
  destruct (bytes1_cases dst s) as [[Hd E]|[Hd E]]; rewrite E;
    [|reflexivity].
  unfold bind at 1.
  destruct (bytes1_cases (_address (bus s)) s) as [[Ha E']|[Ha E']]; rewrite E';
    [|reflexivity].
  unfold bind at 1.
  destruct (bytes1_cases tid s) as [[Ht E'']|[Ht E'']]; rewrite E'';
    [|reflexivity].
  destruct Hbad as [H|[H|H]]; contradiction.
Qed.

Lemma send_message_header_bounds_witness :
  send_message 256 [104; 105] 0 (sample_node 5)
  = (Raise ValueError, sample_node 5).
Proof.
  apply (send_message_header_bounds 256 [104; 105] 0 (sample_node 5)).
  - simpl. lia.
  - left. unfold is_byte. lia.
Defined.
